(** * The Junior Associate: the resilient-fetch and validation core

    A shallow embedding of [the_junior_associate/utils/base.py],
    [utils/helpers.py], [utils/exceptions.py] and of the [search_cases] /
    [get_case_by_id] methods of the fifteen scrapers, followed by the
    properties of the request pipeline, the parameter validator, the
    document parser and the adapter contract.

    Conventions of the embedding.
    - Python integers are [Z]; [range(n)] is a structural recursion on
      [Z.to_nat n].
    - Wall-clock instants and durations (Python floats) are rationals [Q];
      rounding and overflow of binary floating point are not modelled.
    - An exception is a value of [Exn]; a method that may raise and that
      touches [self] or the network is a function
      [World -> Result A * World].
    - A [str] is a [string].  Header names and values are the [str]s
      [http.client] decodes from the wire as ISO-8859-1, one character
      (a code point below 256) per [ascii].  Free text (case identifiers,
      queries, URLs) is only tested for emptiness, for ASCII prefixes and
      for ASCII characters, which read the same on the UTF-8 bytes of the
      text; what Python decides from the Unicode database ([str.isdigit])
      is a collaborator.
    - The network ([requests.Session.request]), the two HTML parsers behind
      [BeautifulSoup], [dateutil.parser.parse] and the per-source field
      extraction are collaborators of the code, taken as parameters. *)

From Stdlib Require Import ZArith QArith List String Ascii Bool Lia.
From Stdlib Require Import Lqa.
Import ListNotations.

Set Warnings "-register-all".

(* ------------------------------------------------------------------ *)
(** ** Python builtins used by the code *)

Module Py.

Local Open Scope string_scope.

(** Truth value of a [str]: only the empty string is falsy. *)
Definition truthy_str (s : string) : bool :=
  match s with
  | EmptyString => false
  | String _ _ => true
  end.

(** [s.startswith(p)] *)
Definition startswith (s p : string) : bool := String.prefix p s.

(** [c in s] for a one-character [c] *)
Fixpoint contains_char (c : ascii) (s : string) : bool :=
  match s with
  | EmptyString => false
  | String d r => Ascii.eqb c d || contains_char c r
  end.

(** The ASCII digits. *)
Definition is_digit (c : ascii) : bool :=
  let n := nat_of_ascii c in (48 <=? n)%nat && (n <=? 57)%nat.

(** The whitespace [int()] skips around a literal, [Py_ISSPACE]: the
    space and tab to carriage return. *)
Definition is_space (c : ascii) : bool :=
  let n := nat_of_ascii c in
  (n =? 32)%nat || ((9 <=? n)%nat && (n <=? 13)%nat).

Fixpoint is_ascii (s : string) : bool :=
  match s with
  | EmptyString => true
  | String c r => (nat_of_ascii c <? 128)%nat && is_ascii r
  end.

(** What [int()] does to a [str] before it reads it: an ASCII string
    stays as it is; in any other, a character below 127 stays, any
    other whitespace becomes a space, any other decimal digit its ASCII
    digit, and at a character that is neither the text ends in "?".
    Below U+0100 the whitespace from 127 on is U+0085 and U+00A0, and
    no character from 127 on is a decimal digit. *)
Fixpoint transform_decimal_and_space (s : string) : string :=
  match s with
  | EmptyString => EmptyString
  | String c r =>
      let n := nat_of_ascii c in
      if (n <? 127)%nat then String c (transform_decimal_and_space r)
      else if (n =? 133)%nat || (n =? 160)%nat
           then String " "%char (transform_decimal_and_space r)
           else "?"
  end.

Definition to_ascii_decimal (s : string) : string :=
  if is_ascii s then s else transform_decimal_and_space s.

Fixpoint lstrip (s : string) : string :=
  match s with
  | String c r => if is_space c then lstrip r else s
  | EmptyString => EmptyString
  end.

Fixpoint rev_string (acc s : string) : string :=
  match s with
  | EmptyString => acc
  | String c r => rev_string (String c acc) r
  end.

(** The text between the whitespace [int()] skips at both ends. *)
Definition strip (s : string) : string :=
  rev_string "" (lstrip (rev_string "" (lstrip s))).

Definition digit_value (c : ascii) : Z := Z.of_nat (nat_of_ascii c) - 48.

(** Decimal digits with single underscores allowed between digits, as
    the literal grammar of [int(str)] has it.  [after_digit] tells
    whether the previous character was a digit. *)
Fixpoint digits_value (acc : Z) (after_digit : bool) (s : string)
  : option Z :=
  match s with
  | EmptyString => if after_digit then Some acc else None
  | String c r =>
      if is_digit c then digits_value (10 * acc + digit_value c) true r
      else if Ascii.eqb c "_"%char && after_digit then
             match r with
             | String d _ =>
                 if is_digit d then digits_value acc false r else None
             | EmptyString => None
             end
           else None
  end.

Fixpoint digit_count (s : string) : nat :=
  match s with
  | EmptyString => 0
  | String c r => ((if is_digit c then 1 else 0) + digit_count r)%nat
  end.

(** [sys.int_info.default_max_str_digits]: a literal of more digits is
    refused (CPython 3.11, and the security releases of 3.7 to 3.10). *)
Definition int_max_str_digits : nat := 4300.

(** [int(s)] for a [str] argument, base 10: optional whitespace, an
    optional sign, the digits, optional whitespace.  [None] stands for
    the [ValueError] it raises on anything else. *)
Definition int_of_str (s : string) : option Z :=
  let literal (r : string) :=
    if (digit_count r <=? int_max_str_digits)%nat
    then digits_value 0 false r else None in
  match strip (to_ascii_decimal s) with
  | String "+"%char r => literal r
  | String "-"%char r => option_map Z.opp (literal r)
  | t => literal t
  end.

(** [str.lower] on a character below U+0100, as the case-insensitive
    header mapping of [requests] applies it to header names: the ASCII
    capitals, and the capitals U+00C0 to U+00DE but for the
    multiplication sign. *)
Definition lower_char (c : ascii) : ascii :=
  let n := nat_of_ascii c in
  if ((65 <=? n)%nat && (n <=? 90)%nat)
     || ((192 <=? n)%nat && (n <=? 222)%nat && negb (n =? 215)%nat)
  then ascii_of_nat (n + 32) else c.

Fixpoint lower (s : string) : string :=
  match s with
  | EmptyString => EmptyString
  | String c r => String (lower_char c) (lower r)
  end.

(** A value that is either a [str] or an [int]: what
    [headers.get(name, 60)] hands to [int()]. *)
Inductive StrOrInt :=
| PStr (s : string)
| PInt (z : Z).

(** [int(v)] *)
Definition int (v : StrOrInt) : option Z :=
  match v with
  | PInt z => Some z
  | PStr s => int_of_str s
  end.

(** [response.headers]: a case-insensitive mapping from header names to
    values, kept as the list of its items; the lookup takes the first
    item under the name. *)
Definition Headers := list (string * string).

Fixpoint headers_lookup (h : Headers) (name : string) : option string :=
  match h with
  | [] => None
  | (k, v) :: r =>
      if String.eqb (lower k) (lower name) then Some v
      else headers_lookup r name
  end.

(** [headers.get(name, default)] with an [int] default *)
Definition headers_get (h : Headers) (name : string) (default : Z)
  : StrOrInt :=
  match headers_lookup h name with
  | Some v => PStr v
  | None => PInt default
  end.

(** [request_headers = session.headers.copy(); request_headers.update(h)] *)
Definition headers_update (base extra : Headers) : Headers :=
  (extra ++ filter (fun kv =>
                      match headers_lookup extra (fst kv) with
                      | Some _ => false
                      | None => true
                      end) base)%list.

End Py.

(* ------------------------------------------------------------------ *)
(** ** utils/exceptions.py *)

Module Exceptions.

(** The message of a [NetworkError] tells which raise site produced it. *)
Inductive NetworkReason :=
| ServerError           (* "Server error (<status>)" *)
| HttpStatus            (* "HTTP <status>" *)
| RequestTimeout        (* "Request timeout after <n> retries" *)
| ConnectionFailed      (* "Connection failed: ..." *)
| RequestFailed         (* "Request failed: ..." *)
| RetriesExhausted.     (* "Failed after <n> retries" *)

Inductive Exn :=
| NetworkError (why : NetworkReason) (url : string) (status_code : option Z)
| RateLimitError (retry_after : Z) (url : string)
| AuthenticationError (url : string) (status_code : Z)
| ParsingError (cause : option Exn)  (* the message embeds [str(cause)] *)
| DataNotFoundError
| ValueError (message : string)
| TypeError
| JSONDecodeError
| OtherException (name : string).

(** The class of an exception, which [except] clauses and callers
    dispatch on. *)
Inductive ExnClass :=
| CNetworkError | CRateLimitError | CAuthenticationError | CParsingError
| CDataNotFoundError | CValueError | CTypeError | CJSONDecodeError
| COther.

Definition class_of (e : Exn) : ExnClass :=
  match e with
  | NetworkError _ _ _ => CNetworkError
  | RateLimitError _ _ => CRateLimitError
  | AuthenticationError _ _ => CAuthenticationError
  | ParsingError _ => CParsingError
  | DataNotFoundError => CDataNotFoundError
  | ValueError _ => CValueError
  | TypeError => CTypeError
  | JSONDecodeError => CJSONDecodeError
  | OtherException _ => COther
  end.

Inductive Result (A : Type) :=
| Ok (a : A)
| Raise (e : Exn).

Arguments Ok {A} a.
Arguments Raise {A} e.

(** The class of the exception a result raised, if it raised one. *)
Definition raised_class {A} (r : Result A) : option ExnClass :=
  match r with
  | Ok _ => None
  | Raise e => Some (class_of e)
  end.

End Exceptions.
Export Exceptions.

(* ------------------------------------------------------------------ *)
(** ** utils/base.py: the request pipeline *)

Module Base.

Local Open Scope Q_scope.

(** The attributes [__init__] stores on the scraper from its arguments. *)
Record ScraperConfig := mkConfig {
  rate_limit : Q;        (* minimum seconds between requests *)
  timeout : Z;           (* request timeout in seconds *)
  max_retries : Z;       (* maximum number of retry attempts *)
  retry_delay : Q;       (* base delay between retries *)
  session_headers : Py.Headers
}.

(** [_default_user_agent] *)
Definition _default_user_agent : string :=
  ("Mozilla/5.0 (Windows NT 10.0; Win64; x64) AppleWebKit/537.36 "
   ++ "(KHTML, like Gecko) Chrome/91.0.4472.124 Safari/537.36")%string.

(** The headers [__init__] puts on the session. *)
Definition default_headers (user_agent : option string) : Py.Headers :=
  [("User-Agent"%string,
    match user_agent with
    | Some ua => if Py.truthy_str ua then ua else _default_user_agent
    | None => _default_user_agent
    end);
   ("Accept"%string,
    "text/html,application/xhtml+xml,application/xml;q=0.9,*/*;q=0.8"%string);
   ("Accept-Language"%string, "en-US,en;q=0.5"%string);
   ("Accept-Encoding"%string, "gzip, deflate"%string);
   ("Connection"%string, "keep-alive"%string);
   ("Upgrade-Insecure-Requests"%string, "1"%string)].

(** [BaseScraper()] with every argument defaulted. *)
Definition default_config : ScraperConfig :=
  {| rate_limit := 1; timeout := 30%Z; max_retries := 3%Z; retry_delay := 1;
     session_headers := default_headers None |}.

(** What [session.request] is called with. *)
Record Request := mkRequest {
  req_method : string;
  req_url : string;
  req_params : list (string * string);
  req_data : list (string * string);
  req_headers : Py.Headers;
  req_timeout : Z
}.

Record Response := mkResponse {
  status_code : Z;
  headers : Py.Headers;
  text : string
}.

(** How one call of [session.request] ends: with a response, or with one
    of the exceptions the [except] clauses of [_make_request] tell
    apart (in the order they are written: a connect timeout is both a
    [Timeout] and a [ConnectionError] and is caught as a [Timeout]). *)
Inductive Outcome :=
| Responded (r : Response)
| TimedOut                       (* requests.exceptions.Timeout *)
| ConnectionRefused              (* requests.exceptions.ConnectionError *)
| RequestBroken                  (* any other RequestException *)
| Crashed (e : Exn).             (* an exception that is none of those *)

(** The network: the outcome of the [n]-th call issued through the
    session, and the time that call took. *)
Definition Transport := nat -> Request -> Outcome * Q.

(** Which [time.sleep] call a sleep comes from. *)
Inductive SleepSite := Pacing | Backoff.

(** Observable steps, in the order they happen. *)
Inductive Event :=
| EvAwaitSlot                               (* _respect_rate_limit entered *)
| EvSleep (site : SleepSite) (seconds : Q)  (* time.sleep(seconds) *)
| EvRequest (attempt : nat) (url : string)  (* session.request(...) *)
| EvStamp (t : Q).                 (* self._last_request_time = time.time() *)

(** The mutable state a call works on: the wall clock, the scraper's
    [_last_request_time], the number of calls the session has issued, and
    the log of events. *)
Record World := mkWorld {
  now : Q;
  _last_request_time : Q;
  calls : nat;
  trace : list Event
}.

(** A scraper just constructed, at wall-clock time [t0]. *)
Definition fresh_world (t0 : Q) : World :=
  {| now := t0; _last_request_time := 0; calls := 0%nat; trace := [] |}.

Definition M (A : Type) : Type := World -> Result A * World.

Definition ret {A} (a : A) : M A := fun w => (Ok a, w).

Definition raise {A} (e : Exn) : M A := fun w => (Raise e, w).

Definition bind {A B} (c : M A) (k : A -> M B) : M B :=
  fun w =>
    match c w with
    | (Ok a, w') => k a w'
    | (Raise e, w') => (Raise e, w')
    end.

(** [try: c except Exception as e: h(e)].  Every exception of [Exn] is an
    [Exception]. *)
Definition try_except {A} (c : M A) (h : Exn -> M A) : M A :=
  fun w =>
    match c w with
    | (Ok a, w') => (Ok a, w')
    | (Raise e, w') => h e w'
    end.

(** Lifting a computation that does not touch the world. *)
Definition lift {A} (r : Result A) : M A := fun w => (r, w).

Declare Scope monad_scope.
Delimit Scope monad_scope with monad.
Notation "x <- c ;; k" := (bind c (fun x => k))
  (at level 61, c at next level, right associativity) : monad_scope.
Notation "c ;;; k" := (bind c (fun _ => k))
  (at level 61, right associativity) : monad_scope.
Local Open Scope monad_scope.

Definition log (e : Event) (w : World) : World :=
  {| now := now w; _last_request_time := _last_request_time w;
     calls := calls w; trace := trace w ++ [e] |}.

(** [time.sleep(d)]: raises [ValueError] on a negative duration,
    otherwise the clock advances by [d]. *)
Definition sleep (site : SleepSite) (d : Q) : M unit :=
  fun w =>
    if Qle_bool 0 d then
      (Ok tt,
       {| now := now w + d; _last_request_time := _last_request_time w;
          calls := calls w; trace := trace w ++ [EvSleep site d] |})
    else (Raise (ValueError "sleep length must be non-negative"), w).

(** [x < y] on floats *)
Definition Qlt_bool (x y : Q) : bool := negb (Qle_bool y x).

Section Pipeline.

Variable cfg : ScraperConfig.
Variable transport : Transport.

(** [_respect_rate_limit] *)
Definition _respect_rate_limit : M unit :=
  fun w0 =>
    let w := log EvAwaitSlot w0 in
    if Qlt_bool 0 (rate_limit cfg) then
      let elapsed := now w - _last_request_time w in
      if Qlt_bool elapsed (rate_limit cfg) then
        let sleep_time := rate_limit cfg - elapsed in
        sleep Pacing sleep_time w
      else (Ok tt, w)
    else (Ok tt, w).

(** [self.session.request(...)] at loop index [attempt]: the network
    answers the call and the clock moves by the time it took. *)
Definition session_request (attempt : nat) (req : Request)
  : World -> Outcome * World :=
  fun w =>
    let (out, took) := transport (calls w) req in
    (out,
     {| now := now w + took; _last_request_time := _last_request_time w;
        calls := S (calls w);
        trace := trace w ++ [EvRequest attempt (req_url req)] |}).

(** [self._last_request_time = time.time()] *)
Definition stamp (w : World) : World :=
  {| now := now w; _last_request_time := now w; calls := calls w;
     trace := trace w ++ [EvStamp (now w)] |}.

(** [self.retry_delay * (2**attempt)] *)
Definition backoff_delay (attempt : nat) : Q :=
  retry_delay cfg * inject_Z (2 ^ Z.of_nat attempt).

(** The retry decision the three retriable branches share:
    [if attempt < self.max_retries: time.sleep(...); continue
     else: raise e], where [next] is the rest of the loop. *)
Definition retry_or (attempt : nat) (next : M Response) (e : Exn)
  : M Response :=
  if (Z.of_nat attempt <? max_retries cfg)%Z then
    sleep Backoff (backoff_delay attempt) ;;; next
  else raise e.

(** The body of [for attempt in range(self.max_retries + 1)], with
    [remaining] iterations left including the current one.  Falling out
    of the loop reaches the final [raise NetworkError]. *)
Fixpoint attempts (req : Request) (remaining attempt : nat) : M Response :=
  match remaining with
  | O => raise (NetworkError RetriesExhausted (req_url req) None)
  | S remaining' =>
      fun w =>
        let url := req_url req in
        let continue := attempts req remaining' (S attempt) in
        match session_request attempt req w with
        | (Responded response, w1) =>
            let w2 := stamp w1 in
            let status := status_code response in
            if (status =? 200)%Z then (Ok response, w2)
            else if (status =? 429)%Z then
              match Py.int (Py.headers_get (headers response)
                              "Retry-After" 60) with
              | Some retry_after =>
                  (Raise (RateLimitError retry_after url), w2)
              | None =>
                  (Raise (ValueError "invalid literal for int()"), w2)
              end
            else if (status =? 401)%Z || (status =? 403)%Z then
              (Raise (AuthenticationError url status), w2)
            else if (500 <=? status)%Z then
              retry_or attempt continue
                (NetworkError ServerError url (Some status)) w2
            else (Raise (NetworkError HttpStatus url (Some status)), w2)
        | (TimedOut, w1) =>
            retry_or attempt continue
              (NetworkError RequestTimeout url None) w1
        | (ConnectionRefused, w1) =>
            retry_or attempt continue
              (NetworkError ConnectionFailed url None) w1
        | (RequestBroken, w1) =>
            (Raise (NetworkError RequestFailed url None), w1)
        | (Crashed e, w1) => (Raise e, w1)
        end
  end.

(** The arguments [session.request] receives: the session's headers
    updated with the caller's, and the configured timeout. *)
Definition build_request (url : string) (method : string)
  (params data : list (string * string)) (extra_headers : Py.Headers)
  : Request :=
  let request_headers :=
    Py.headers_update (session_headers cfg) extra_headers in
  mkRequest method url params data request_headers (timeout cfg).

(** [_make_request(url, method, params, data, headers)] *)
Definition _make_request (url : string) (method : string)
  (params data : list (string * string)) (extra_headers : Py.Headers)
  : M Response :=
  _respect_rate_limit ;;;
  attempts (build_request url method params data extra_headers)
    (Z.to_nat (max_retries cfg + 1)) 0.

End Pipeline.

End Base.

(* ------------------------------------------------------------------ *)
(** ** utils/helpers.py and the validator and parser of utils/base.py *)

Module Validation.

Local Open Scope Z_scope.

(** The [tzinfo] of an aware datetime: which object it is ([is] tells
    two of them apart) and the offset from UTC it answers for this
    datetime, in microseconds.  A [tzinfo] that answers [None], which
    leaves its datetime naive, is not represented. *)
Record TzInfo := mkTzInfo {
  tz_object : Z;
  tz_utcoffset : Z
}.

(** A [datetime]: its wall-clock fields as microseconds on the proleptic
    calendar, and its [tzinfo], [None] for a naive one. *)
Record datetime := mkDatetime {
  wall_micros : Z;
  tzinfo : option TzInfo
}.

(** [d.utcoffset()] *)
Definition utcoffset (d : datetime) : option Z :=
  option_map tz_utcoffset (tzinfo d).

(** [a.tzinfo is b.tzinfo] *)
Definition same_tzinfo (a b : datetime) : bool :=
  match tzinfo a, tzinfo b with
  | None, None => true
  | Some za, Some zb => tz_object za =? tz_object zb
  | _, _ => false
  end.

(** [a > b] on datetimes.  Two datetimes of one [tzinfo] object, the
    naive ones among them, compare by their wall-clock fields; so do two
    of equal offsets; two aware datetimes of different objects and
    offsets compare by their instants; and ordering a naive against an
    aware datetime raises [TypeError]. *)
Definition datetime_gt (a b : datetime) : Result bool :=
  if same_tzinfo a b then Ok (wall_micros b <? wall_micros a)
  else
    match utcoffset a, utcoffset b with
    | None, None => Ok (wall_micros b <? wall_micros a)
    | Some oa, Some ob =>
        if oa =? ob then Ok (wall_micros b <? wall_micros a)
        else Ok (wall_micros b - ob <? wall_micros a - oa)
    | _, _ => Raise TypeError
    end.

(** What a caller may pass as [start_date] / [end_date]. *)
Inductive DateInput :=
| DNone
| DStr (s : string)
| DDatetime (d : datetime)
| DOther (truthy : bool).    (* a value of any other type *)

(** [if date_input:] *)
Definition truthy_date (i : DateInput) : bool :=
  match i with
  | DNone => false
  | DStr s => Py.truthy_str s
  | DDatetime _ => true
  | DOther b => b
  end.

(** What a caller may pass as [limit]. *)
Inductive LimitArg :=
| LNone
| LInt (z : Z)
| LBool (b : bool)           (* [bool] is a subclass of [int] *)
| LFloat (q : Q)
| LStr (s : string).

(** A value for which [isinstance(v, int)] holds. *)
Inductive IntLike :=
| IInt (z : Z)
| IBool (b : bool).

Definition int_value (v : IntLike) : Z :=
  match v with
  | IInt z => z
  | IBool true => 1
  | IBool false => 0
  end.

(** [min(v, 1000)]: the first argument unless the second is smaller. *)
Definition py_min_1000 (v : IntLike) : IntLike :=
  if 1000 <? int_value v then IInt 1000 else v.

(** The dictionary [validate_search_params] returns: each of its three
    possible keys is either absent or bound. *)
Record SearchParams := mkParams {
  p_start_date : option (option datetime);
  p_end_date : option (option datetime);
  p_limit : option IntLike
}.

Definition empty_params : SearchParams :=
  {| p_start_date := None; p_end_date := None; p_limit := None |}.

(** [params.get(key)]: [None] both for an absent key and for a key
    bound to [None]. *)
Definition get_date (entry : option (option datetime)) : option datetime :=
  match entry with
  | Some v => v
  | None => None
  end.

(** [params.get('limit', 100)] *)
Definition limit_or_100 (p : SearchParams) : Z :=
  match p_limit p with
  | Some v => int_value v
  | None => 100
  end.

Section WithParser.

(** [dateutil.parser.parse]: the datetime, or the exception it raised. *)
Variable parse : string -> Result datetime.

(** [validate_date] *)
Definition validate_date (date_input : DateInput)
  : Result (option datetime) :=
  match date_input with
  | DNone => Ok None
  | DDatetime d => Ok (Some d)
  | DStr s =>
      match parse s with
      | Ok d => Ok (Some d)
      | Raise e =>
          match class_of e with
          | CValueError | CTypeError =>
              Raise (ValueError ("Invalid date format: " ++ s))
          | _ => Raise e
          end
      end
  | DOther _ => Raise (ValueError "Unsupported date type")
  end.

(** [validate_search_params], statement by statement. *)
Definition set_start_date (start_date : DateInput) (params : SearchParams)
  : Result SearchParams :=
  if truthy_date start_date then
    match validate_date start_date with
    | Ok v => Ok {| p_start_date := Some v; p_end_date := p_end_date params;
                    p_limit := p_limit params |}
    | Raise e => Raise e
    end
  else Ok params.

Definition set_end_date (end_date : DateInput) (params : SearchParams)
  : Result SearchParams :=
  if truthy_date end_date then
    match validate_date end_date with
    | Ok v => Ok {| p_start_date := p_start_date params; p_end_date := Some v;
                    p_limit := p_limit params |}
    | Raise e => Raise e
    end
  else Ok params.

Definition check_order (params : SearchParams) : Result SearchParams :=
  match get_date (p_start_date params), get_date (p_end_date params) with
  | Some s, Some e =>
      match datetime_gt s e with
      | Ok true => Raise (ValueError "Start date must be before end date")
      | Ok false => Ok params
      | Raise x => Raise x
      end
  | _, _ => Ok params
  end.

Definition set_limit (limit : LimitArg) (params : SearchParams)
  : Result SearchParams :=
  let bad := Raise (ValueError "Limit must be a positive integer") in
  let store (v : IntLike) :=
    if int_value v <=? 0 then bad
    else Ok {| p_start_date := p_start_date params;
               p_end_date := p_end_date params;
               p_limit := Some (py_min_1000 v) |} in
  match limit with
  | LNone => Ok params
  | LInt z => store (IInt z)
  | LBool b => store (IBool b)
  | LFloat _ => bad
  | LStr _ => bad
  end.

Definition and_then {A B} (r : Result A) (k : A -> Result B) : Result B :=
  match r with
  | Ok a => k a
  | Raise e => Raise e
  end.

Definition validate_search_params (start_date end_date : DateInput)
  (limit : LimitArg) : Result SearchParams :=
  and_then (set_start_date start_date empty_params) (fun p1 =>
  and_then (set_end_date end_date p1) (fun p2 =>
  and_then (check_order p2) (fun p3 =>
  set_limit limit p3))).

(** A date argument the validator resolves to [d]: a [datetime], or
    a string the parser accepts. *)
Definition resolves_to (i : DateInput) (d : datetime) : Prop :=
  match i with
  | DStr s => parse s = Ok d
  | DDatetime d' => d' = d
  | DNone | DOther _ => False
  end.

End WithParser.

(** [isinstance(limit, int)], with the value seen as an integer. *)
Definition as_int (limit : LimitArg) : option IntLike :=
  match limit with
  | LInt z => Some (IInt z)
  | LBool b => Some (IBool b)
  | LNone | LFloat _ | LStr _ => None
  end.

(** The two tree builders [BeautifulSoup] is asked for. *)
Inductive Features := Lxml | HtmlParser.

Section WithSoup.

Variable Soup : Type.

(** [BeautifulSoup(content, features)]: the tree, or the exception the
    constructor raised.  [content] is [None] for Python's [None]. *)
Variable BeautifulSoup : option string -> Features -> Result Soup.

(** [_parse_html] *)
Definition _parse_html (content : option string) : Result Soup :=
  match BeautifulSoup content Lxml with
  | Ok soup => Ok soup
  | Raise _ =>
      match BeautifulSoup content HtmlParser with
      | Ok soup => Ok soup
      | Raise e2 => Raise (ParsingError (Some e2))
      end
  end.

End WithSoup.

Arguments _parse_html {Soup} BeautifulSoup content.

End Validation.

(* ------------------------------------------------------------------ *)
(** ** scrapers/*.py: [search_cases] and [get_case_by_id] *)

Module Scrapers.

Import Base Validation.
Local Open Scope string_scope.
Local Open Scope monad_scope.

Inductive Adapter :=
| AustLII | BAILII | CanLII | CourtListener | CuriaEuropa | FindLaw
| HKLII | IndianKanoon | KenyaLaw | LegalTools | Legifrance
| SingaporeJudiciary | SupremeCourtIndia | SupremeCourtJapan | WorldLII.

Definition base_url (a : Adapter) : string :=
  match a with
  | AustLII => "https://www.austlii.edu.au"
  | BAILII => "https://www.bailii.org"
  | CanLII => "https://www.canlii.org"
  | CourtListener => "https://www.courtlistener.com"
  | CuriaEuropa => "https://curia.europa.eu"
  | FindLaw => "https://caselaw.findlaw.com"
  | HKLII => "https://www.hklii.hk"
  | IndianKanoon => "https://indiankanoon.org"
  | KenyaLaw => "https://kenyalaw.org"
  | LegalTools => "https://www.legal-tools.org"
  | Legifrance => "https://www.legifrance.gouv.fr"
  | SingaporeJudiciary => "https://www.judiciary.gov.sg"
  | SupremeCourtIndia => "https://main.sci.gov.in"
  | SupremeCourtJapan => "https://www.courts.go.jp"
  | WorldLII => "https://www.worldlii.org"
  end.

(** The double-quote character, for [f'citation:"{case_id}"']. *)
Definition dquote : string := String (ascii_of_nat 34) EmptyString.

(** [lst[:n]] *)
Definition slice_to {A} (n : Z) (l : list A) : list A :=
  if (0 <=? n)%Z then firstn (Z.to_nat n) l
  else firstn (List.length l - Z.to_nat (- n)) l.

(** Keyword arguments beyond the named ones. *)
Definition Kwargs := list (string * string).

Section WithCollaborators.

(** The parsed page, the decoded JSON body, one located result, and the
    record built from it.  A [CaseData] is a dataclass without
    [__bool__] or [__len__]: every instance is truthy. *)
Variables Soup Json Item CaseData : Type.

Variable cfg : ScraperConfig.
Variable transport : Transport.
Variable parse : string -> Result datetime.
Variable BeautifulSoup : option string -> Features -> Result Soup.

(** [re.match(pattern, s)] as a truth value *)
Variable re_match : string -> string -> bool.
(** [s.isdigit()], which the Unicode database of the interpreter
    decides *)
Variable isdigit : string -> bool.

(** The source-specific query: the URL and the [search_params]
    dictionary an adapter builds from its arguments. *)
Variable build_search :
  Adapter -> option string -> SearchParams -> option string -> Kwargs ->
  string * list (string * string).

(** [soup.find_all(...)] with the adapter's selector *)
Variable find_all : Adapter -> Soup -> list Item.
(** [link.get("href")] *)
Variable href : Item -> string.
(** [response.json()] *)
Variable response_json : Response -> Result Json.
(** [data.get("results", [])], as the sequence the loop iterates *)
Variable json_results : Json -> Result (list Item).

(** Per-record extraction: [_parse_search_result_link] /
    [_parse_search_result]. *)
Variable parse_search_result : Adapter -> Item -> M (option CaseData).
(** [_parse_case_detail(soup, url)] *)
Variable parse_case_detail : Adapter -> Soup -> string -> M (option CaseData).
(** CourtListener's [_parse_opinion_detail] and [_parse_cluster_detail] *)
Variable parse_opinion_detail : Json -> M (option CaseData).
Variable parse_cluster_detail : Json -> M (option CaseData).
(** The [CaseData(...)] FindLaw builds from a fetched page and its URL *)
Variable findlaw_case : Soup -> string -> Result CaseData.

(** [self._make_request(url, params=params)] *)
Definition get (url : string) (params : list (string * string))
  : M Response :=
  _make_request cfg transport url "GET" params [] [].

(** FindLaw's [_scrape_case_from_url] *)
Definition _scrape_case_from_url (url : string) : M (option CaseData) :=
  try_except
    (response <- get url [] ;;
     soup <- lift (_parse_html BeautifulSoup (Some (text response))) ;;
     c <- lift (findlaw_case soup url) ;;
     ret (Some c))
    (fun _ => ret None).

(** The [try] body of one iteration of the result loop. *)
Definition extract (a : Adapter) (item : Item) : M (option CaseData) :=
  match a with
  | FindLaw =>
      let case_url := href item in
      let case_url :=
        if negb (Py.startswith case_url "http")
        then base_url a ++ case_url else case_url in
      _scrape_case_from_url case_url
  | _ => parse_search_result a item
  end.

(** The result loop:
    [for item in items: try: ... if case_data: cases.append(case_data)
     except Exception: continue] *)
Fixpoint collect (a : Adapter) (items : list Item) (cases : list CaseData)
  : M (list CaseData) :=
  match items with
  | [] => ret cases
  | item :: rest =>
      cases' <- try_except
                  (case_data <- extract a item ;;
                   ret (match case_data with
                        | Some c => (cases ++ [c])%list
                        | None => cases
                        end))
                  (fun _ => ret cases) ;;
      collect a rest cases'
  end.

(** The request-and-parse stage of [search_cases]. *)
Definition fetch_results (a : Adapter) (url : string)
  (search_params : list (string * string)) (params : SearchParams)
  : M (list Item) :=
  match a with
  | CourtListener =>
      (* try: ... except json.JSONDecodeError as e: raise ParsingError *)
      data <- (fun w =>
                 match (response <- get url search_params ;;
                        lift (response_json response)) w with
                 | (Raise JSONDecodeError, w') =>
                     (Raise (ParsingError (Some JSONDecodeError)), w')
                 | other => other
                 end) ;;
      lift (json_results data)
  | _ =>
      (* try: ... except Exception as e: raise ParsingError *)
      soup <- try_except
                (response <- get url search_params ;;
                 lift (_parse_html BeautifulSoup (Some (text response))))
                (fun e => raise (ParsingError (Some e))) ;;
      ret (slice_to (limit_or_100 params) (find_all a soup))
  end.

(** [search_cases(query, start_date, end_date, court, limit, **kwargs)] *)
Definition search_cases (a : Adapter) (query : option string)
  (start_date end_date : DateInput) (court : option string)
  (limit : LimitArg) (kwargs : Kwargs) : M (list CaseData) :=
  params <- lift (validate_search_params parse start_date end_date limit) ;;
  (let (url, search_params) := build_search a query params court kwargs in
   items <- fetch_results a url search_params params ;;
   collect a items []).

(** The type of the bound method [self.search_cases]. *)
Definition SearchMethod : Type :=
  option string -> DateInput -> DateInput -> option string -> LimitArg ->
  Kwargs -> M (list CaseData).

(** How an adapter reads a non-empty [case_id]. *)
Inductive Resolution :=
| Fetch (url : string)         (* request that page and parse it *)
| Search (query : string).     (* self.search_cases(query=..., limit=1) *)

(** The [if / elif / else] chain on [case_id].  Thirteen adapters
    take a [case_id] that starts with "http" as the URL itself;
    CourtListener and FindLaw have no chain and build one URL from
    every [case_id]. *)
Definition resolve (a : Adapter) (case_id : string) : Resolution :=
  let direct_url_or (r : Resolution) :=
    if Py.startswith case_id "http" then Fetch case_id else r in
  match a with
  | AustLII =>
      direct_url_or
        (if Py.startswith case_id "au/cases/"
         then Fetch (base_url a ++ "/" ++ case_id ++ ".html")
         else Search case_id)
  | BAILII =>
      direct_url_or
        (if Py.startswith case_id "uk/cases/"
            || Py.startswith case_id "ie/cases/"
            || Py.startswith case_id "ni/cases/"
            || Py.startswith case_id "scot/cases/"
         then Fetch (base_url a ++ "/" ++ case_id ++ ".html")
         else Search case_id)
  | CanLII =>
      direct_url_or
        (if Py.contains_char "/"%char case_id
         then Fetch (base_url a ++ "/en/" ++ case_id ++ ".html")
         else Search ("citation:" ++ dquote ++ case_id ++ dquote))
  | CuriaEuropa =>
      direct_url_or
        (if re_match "[CT]-\d+/\d+" case_id
         then Search case_id
         else Search case_id)
  | HKLII =>
      direct_url_or
        (if Py.startswith case_id "hk/cases/"
         then Fetch (base_url a ++ "/" ++ case_id ++ ".html")
         else Search case_id)
  | IndianKanoon =>
      direct_url_or
        (if isdigit case_id
         then Fetch (base_url a ++ "/doc/" ++ case_id ++ "/")
         else Search case_id)
  | KenyaLaw =>
      direct_url_or
        (if isdigit case_id
         then Fetch (base_url a ++ "/caselaw/cases/view/" ++ case_id)
         else Search case_id)
  | LegalTools =>
      direct_url_or
        (if isdigit case_id
         then Fetch (base_url a ++ "/doc/" ++ case_id ++ "/")
         else Search case_id)
  | Legifrance =>
      direct_url_or
        (if Py.startswith case_id "CETATEXT"
            || Py.startswith case_id "JURITEXT"
         then Fetch (base_url a ++ "/juri/id/" ++ case_id)
         else Search case_id)
  | SingaporeJudiciary =>
      direct_url_or
        (if Py.startswith case_id "[" && Py.contains_char "]"%char case_id
         then Search case_id
         else Search case_id)
  | SupremeCourtIndia =>
      direct_url_or
        (if re_match "[A-Z]+\s*\([A-Z]\)\s*\d+/\d+" case_id
         then Search case_id
         else Search case_id)
  | SupremeCourtJapan => direct_url_or (Search case_id)
  | WorldLII =>
      direct_url_or
        (if Py.startswith case_id "int/cases/"
         then Fetch (base_url a ++ "/" ++ case_id ++ ".html")
         else Search case_id)
  | CourtListener =>
      Fetch (base_url a ++ "/api/rest/v3/opinions/" ++ case_id ++ "/")
  | FindLaw => Fetch (base_url a ++ "/case/" ++ case_id)
  end.

(** [cases = self.search_cases(query=q, limit=1);
     if cases: return cases[0]; return None] *)
Definition first_hit (search : SearchMethod) (q : string)
  : M (option CaseData) :=
  cases <- search (Some q) DNone DNone None (LInt 1) [] ;;
  ret (hd_error cases).

(** [get_case_by_id(case_id)]; [search] is what [self.search_cases]
    dispatches to. *)
Definition get_case_by_id (a : Adapter) (search : SearchMethod)
  (case_id : string) : M (option CaseData) :=
  if negb (Py.truthy_str case_id) then
    raise (ValueError "Case ID is required")
  else
    match a with
    | CourtListener =>
        fun w =>
          let fmt := [("format", "json")] in
          match (response <- get (base_url a ++ "/api/rest/v3/opinions/"
                                    ++ case_id ++ "/") fmt ;;
                 data <- lift (response_json response) ;;
                 parse_opinion_detail data) w with
          | (Ok r, w1) => (Ok r, w1)
          | (Raise _, w1) =>
              try_except
                (response <- get (base_url a ++ "/api/rest/v3/clusters/"
                                    ++ case_id ++ "/") fmt ;;
                 data <- lift (response_json response) ;;
                 parse_cluster_detail data)
                (fun _ => ret None) w1
          end
    | FindLaw => _scrape_case_from_url (base_url a ++ "/case/" ++ case_id)
    | _ =>
        match resolve a case_id with
        | Search q => first_hit search q
        | Fetch url =>
            try_except
              (response <- get url [] ;;
               soup <- lift (_parse_html BeautifulSoup
                               (Some (text response))) ;;
               parse_case_detail a soup url)
              (fun _ => ret None)
        end
    end.

(** The identifiers an adapter turns into a page URL of its own
    site: the test of the [elif] branch that builds a URL. *)
Definition url_form (a : Adapter) (case_id : string) : bool :=
  match a with
  | AustLII => Py.startswith case_id "au/cases/"
  | BAILII =>
      Py.startswith case_id "uk/cases/"
      || Py.startswith case_id "ie/cases/"
      || Py.startswith case_id "ni/cases/"
      || Py.startswith case_id "scot/cases/"
  | CanLII => Py.contains_char "/"%char case_id
  | HKLII => Py.startswith case_id "hk/cases/"
  | IndianKanoon | KenyaLaw | LegalTools => isdigit case_id
  | Legifrance =>
      Py.startswith case_id "CETATEXT" || Py.startswith case_id "JURITEXT"
  | WorldLII => Py.startswith case_id "int/cases/"
  | CuriaEuropa | SingaporeJudiciary | SupremeCourtIndia
  | SupremeCourtJapan => false
  | CourtListener | FindLaw => true
  end.

(** The query of the search fallback. *)
Definition fallback_query (a : Adapter) (case_id : string) : string :=
  match a with
  | CanLII => "citation:" ++ dquote ++ case_id ++ dquote
  | _ => case_id
  end.

End WithCollaborators.

Arguments _scrape_case_from_url {Soup CaseData}.
Arguments extract {Soup Item CaseData}.
Arguments collect {Soup Item CaseData}.
Arguments fetch_results {Soup Json Item}.
Arguments search_cases {Soup Json Item CaseData}.
Arguments first_hit {CaseData}.
Arguments get_case_by_id {Soup Json CaseData}.

End Scrapers.

(* ------------------------------------------------------------------ *)
(** ** Reading a run: what the event log says *)

Module Observe.

Import Base.

(** The events a run added to the log. *)
Definition events_since (w w' : World) : list Event :=
  skipn (List.length (trace w)) (trace w').

(** The requests and the backoff sleeps of a run, in order. *)
Definition schedule (evs : list Event) : list Event :=
  filter (fun e =>
            match e with
            | EvRequest _ _ => true
            | EvSleep Backoff _ => true
            | _ => false
            end) evs.

(** What the log must show when a call retries after each of the
    attempts [first], ..., [first + n - 1]: the attempt, then its
    backoff sleep. *)
Definition retry_schedule (cfg : ScraperConfig) (url : string)
  (first n : nat) : list Event :=
  flat_map (fun a => [EvRequest a url; EvSleep Backoff (backoff_delay cfg a)])
    (seq first n).

Definition count_await (evs : list Event) : nat :=
  List.length
    (filter (fun e => match e with EvAwaitSlot => true | _ => false end) evs).

Definition count_requests (evs : list Event) : nat :=
  List.length
    (filter (fun e => match e with EvRequest _ _ => true | _ => false end)
       evs).

(** The outcomes [_make_request] retries while attempts remain: a
    timeout, a connection failure, a response with a status of 500 or
    more. *)
Definition retriable (o : Outcome) : bool :=
  match o with
  | Responded r => (500 <=? status_code r)%Z
  | TimedOut | ConnectionRefused => true
  | RequestBroken | Crashed _ => false
  end.



(** The value [_last_request_time] holds after the events, given the
    value it held before. *)
Definition last_stamp (before : Q) (evs : list Event) : Q :=
  fold_left (fun t e => match e with EvStamp t' => t' | _ => t end) evs before.







End Observe.

(* ------------------------------------------------------------------ *)
(** ** Concrete configurations, transports and collaborators *)

Module Fixtures.

Import Base Validation Scrapers.
Local Open Scope string_scope.

(** A scraper just constructed, some time in November 2023. *)
Definition start : World := fresh_world 1700000000.

(** A response with the given status and headers, after 0.1 s. *)
Definition answer (status : Z) (hs : Py.Headers) : Outcome * Q :=
  (Responded (mkResponse status hs ""), 1 # 10).

(** Answers 500 to the first [n] calls and 200 to the later ones. *)
Definition flaky (n : nat) : Transport :=
  fun i _ => if (i <? n)%nat then answer 500 [] else answer 200 [].

(** Every call runs into the 30 s timeout. *)
Definition always_timeout : Transport := fun _ _ => (TimedOut, 30).

(** Every call gets the same status and headers. *)
Definition always (status : Z) (hs : Py.Headers) : Transport :=
  fun _ _ => answer status hs.

(** No pacing, two retries, one second of base delay. *)
Definition two_retries : ScraperConfig :=
  {| rate_limit := 0; timeout := 30; max_retries := 2; retry_delay := 1;
     session_headers := default_headers None |}.


Definition test_url : string := "https://example.com/test".

(** A [Retry-After] header in its HTTP-date form. *)
Definition retry_after_date : Py.Headers :=
  [("Retry-After", "Wed, 21 Oct 2015 07:28:00 GMT")].



(** 1 January and 31 December 2023, naive, at midnight. *)
Definition jan_1 : datetime := mkDatetime (738521 * 86400000000) None.
Definition dec_31 : datetime := mkDatetime (738885 * 86400000000) None.

(** A date parser that knows two ISO dates and rejects everything else,
    the empty string included, with a [ValueError]. *)
Definition two_dates (s : string) : Result datetime :=
  if String.eqb s "2023-01-01" then Ok jan_1
  else if String.eqb s "2023-12-31" then Ok dec_31
  else Raise (ValueError "Unknown string format").

(** A tree builder that behaves as [BeautifulSoup] does at its edges:
    it raises [TypeError] on [None] and builds a tree, kept here as the
    markup itself, from every string, the empty one included. *)
Definition lenient_soup (content : option string) (_ : Features)
  : Result string :=
  match content with
  | None => Raise TypeError
  | Some markup => Ok markup
  end.

(** [str.isdigit] as it is on ASCII text: at least one character, and
    all of them ASCII digits. *)
Fixpoint all_digits (s : string) : bool :=
  match s with
  | EmptyString => true
  | String c r => Py.is_digit c && all_digits r
  end.

Definition ascii_isdigit (s : string) : bool :=
  Py.truthy_str s && all_digits s.

(** 31 December 2023 at midnight in UTC, aware. *)
Definition utc : TzInfo := {| tz_object := 0; tz_utcoffset := 0 |}.
Definition dec_31_utc : datetime :=
  mkDatetime (wall_micros dec_31) (Some utc).

(** One clock in New York on 5 November 2023, when the hour from 01:00
    comes twice: 01:45 before the change (UTC-4), and 01:30 after it
    (UTC-5), 45 minutes later.  Both carry the same [tzinfo] object. *)
Definition new_york (offset_hours : Z) : TzInfo :=
  {| tz_object := 1; tz_utcoffset := (offset_hours * 3600000000)%Z |}.
Definition nov_5_0145_edt : datetime :=
  mkDatetime (738829 * 86400000000 + 6300000000) (Some (new_york (-4))).
Definition nov_5_0130_est : datetime :=
  mkDatetime (738829 * 86400000000 + 5400000000) (Some (new_york (-5))).

(** Stand-ins for the per-source collaborators.  A page, a JSON body, a
    located result and a case record are all kept as strings. *)
Definition search_path (a : Adapter) : string :=
  match a with
  | AustLII => "/cgi-bin/sinodisp/au/cases/cth/HCA/"
  | BAILII => "/cgi-bin/markup.cgi"
  | CanLII => "/en/search/"
  | CourtListener => "/api/rest/v3/search/"
  | CuriaEuropa => "/juris/liste.jsf"
  | FindLaw => "/us-supreme-court/"
  | HKLII => "/cgi-bin/sinodisp/hk/cases/hkcfa/"
  | IndianKanoon => "/search/"
  | KenyaLaw => "/caselaw/search"
  | LegalTools => "/doc/search"
  | Legifrance => "/search/juri"
  | SingaporeJudiciary => "/judgment-search"
  | SupremeCourtIndia => "/judgments"
  | SupremeCourtJapan => "/app/hanrei_en/search"
  | WorldLII => "/cgi-bin/sinodisp/int/cases/"
  end.

Definition query_key (a : Adapter) : string :=
  match a with
  | AustLII | BAILII | HKLII | WorldLII => "query"
  | CanLII | CuriaEuropa => "text"
  | CourtListener | FindLaw | LegalTools | SupremeCourtJapan => "q"
  | IndianKanoon => "formInput"
  | KenyaLaw | SingaporeJudiciary => "searchText"
  | Legifrance => "recherche"
  | SupremeCourtIndia => "search_text"
  end.

(** The search URL of each adapter (with its default language or court)
    and the query entry of its [search_params]; the date, court and
    limit entries are left out. *)
Definition demo_build_search (a : Adapter) (query : option string)
  (_ : SearchParams) (_ : option string) (_ : Kwargs)
  : string * list (string * string) :=
  (base_url a ++ search_path a,
   match query with
   | Some q => if Py.truthy_str q then [(query_key a, q)] else []
   | None => []
   end).

(** Every page shows three results, the second of them malformed. *)
Definition demo_find_all (_ : Adapter) (_ : string) : list string :=
  ["Donoghue v Stevenson"; ""; "Carlill v Carbolic Smoke Ball Co"].

(** Extraction fails on the malformed result. *)
Definition demo_parse_search_result (_ : Adapter) (item : string)
  : M (option string) :=
  if Py.truthy_str item then ret (Some item)
  else raise (OtherException "AttributeError").

Definition demo_search_cases (cfg : ScraperConfig) (transport : Transport)
  : Adapter -> SearchMethod string :=
  @search_cases string string string string cfg transport two_dates
    lenient_soup
    demo_build_search demo_find_all (fun item => item)
    (fun response => Ok (text response))
    (fun data => Ok (demo_find_all CourtListener data))
    demo_parse_search_result
    (fun _ url => Ok url).

Definition demo_get_case_by_id (cfg : ScraperConfig) (transport : Transport)
  : Adapter -> SearchMethod string -> string -> M (option string) :=
  @get_case_by_id string string string cfg transport lenient_soup
    (fun _ _ => false) ascii_isdigit
    (fun response => Ok (text response))
    (fun _ _ url => ret (Some url))
    (fun data => ret (Some data))
    (fun data => ret (Some data))
    (fun _ url => Ok url).

(** A search method that finds one case whatever it is asked. *)
Definition finds_one : SearchMethod string :=
  fun _ _ _ _ _ _ => ret ["Roe v. Wade"].

(** A search method that finds a case only under the query [q0]. *)
Definition finds_exactly (q0 : string) : SearchMethod string :=
  fun query _ _ _ _ _ =>
    ret (match query with
         | Some q => if String.eqb q q0 then ["R. v. Oakes"] else []
         | None => []
         end).

(** No pacing and no retries. *)
Definition no_retries : ScraperConfig :=
  {| rate_limit := 0; timeout := 30; max_retries := 0; retry_delay := 1;
     session_headers := default_headers None |}.

(** A search for "human rights", limited to ten results. *)
Definition demo_search (transport : Transport) (a : Adapter)
  : Result (list string) * World :=
  demo_search_cases no_retries transport a (Some "human rights") DNone DNone
    None (LInt 10) [] start.

End Fixtures.

(* ------------------------------------------------------------------ *)
(** ** More readings of a run *)

Module Verdict.

Import Base.
Local Open Scope Q_scope.

(** The time a run spent in backoff sleeps. *)
Definition total_backoff (evs : list Event) : Q :=
  fold_right (fun e t =>
                match e with
                | EvSleep Backoff d => d + t
                | _ => t
                end) 0 evs.

(** What a response that is not retried ends the call with. *)
Definition settled (url : string) (r : Response) : Result Response :=
  let status := status_code r in
  if (status =? 200)%Z then Ok r
  else if (status =? 429)%Z then
    match Py.int (Py.headers_get (headers r) "Retry-After" 60) with
    | Some retry_after => Raise (RateLimitError retry_after url)
    | None => Raise (ValueError "invalid literal for int()")
    end
  else if (status =? 401)%Z || (status =? 403)%Z then
    Raise (AuthenticationError url status)
  else Raise (NetworkError HttpStatus url (Some status)).

(** The error of a retriable outcome on which no attempt is left. *)
Definition exhausted (url : string) (o : Outcome) : Exn :=
  match o with
  | Responded r => NetworkError ServerError url (Some (status_code r))
  | TimedOut => NetworkError RequestTimeout url None
  | ConnectionRefused => NetworkError ConnectionFailed url None
  | RequestBroken => NetworkError RequestFailed url None
  | Crashed e => e
  end.

(** Whether the transport let an exception through that is not one of
    [requests]'. *)
Definition crashed (o : Outcome) : bool :=
  match o with
  | Crashed _ => true
  | _ => false
  end.

End Verdict.

(* ------------------------------------------------------------------ *)
(** ** utils/helpers.py: [build_search_url] *)

Module Helpers.

Local Open Scope string_scope.

Section WithUrlencode.

(** The values of the parameter dictionary, and
    [urllib.parse.urlencode] on a dictionary of them. *)
Variable Value : Type.
Variable urlencode : list (string * Value) -> string.

(** [{k: v for k, v in params.items() if v is not None}] *)
Definition clean (params : list (string * option Value))
  : list (string * Value) :=
  flat_map (fun kv =>
              match snd kv with
              | Some v => [(fst kv, v)]
              | None => []
              end) params.

(** [build_search_url(base_url, params)]; [params] is [None] for
    Python's [None], and a dictionary is the list of its items. *)
Definition build_search_url (base_url : string)
  (params : option (list (string * option Value))) : string :=
  match params with
  | None | Some [] => base_url
  | Some items =>
      match clean items with
      | [] => base_url
      | clean_params =>
          let query_string := urlencode clean_params in
          let separator :=
            if Py.contains_char "?"%char base_url then "&" else "?" in
          base_url ++ separator ++ query_string
      end
  end.

End WithUrlencode.

Arguments clean {Value}.
Arguments build_search_url {Value}.

End Helpers.

(* ------------------------------------------------------------------ *)
(** ** utils/base.py: [get_recent_cases] *)

Module Recent.

Import Base Validation Scrapers.
Local Open Scope Z_scope.

Definition micros_per_day : Z := 86400000000.

(** [datetime.min] and [datetime.max]: the first instant of day 1
    (1 January of year 1) and the last of day 3652059 (31 December
    9999), days being counted as [date.toordinal] counts them. *)
Definition datetime_min : Z := micros_per_day.
Definition datetime_max : Z := 3652060 * micros_per_day - 1.

(** [timedelta(days=days)] for an [int]: the span in microseconds, or
    the [OverflowError] of a span beyond 999999999 days. *)
Definition timedelta_days (days : Z) : Result Z :=
  if Z.abs days <=? 999999999 then Ok (days * micros_per_day)
  else Raise (OtherException "OverflowError").

(** [d - delta] for a naive [d] of wall-clock fields [wall]: the fields
    move; leaving the range of [datetime] raises [OverflowError]. *)
Definition naive_sub (wall delta : Z) : Result datetime :=
  let m := wall - delta in
  if (datetime_min <=? m) && (m <=? datetime_max)
  then Ok (mkDatetime m None)
  else Raise (OtherException "OverflowError").

Section WithClock.

Variable CaseData : Type.

(** The local wall-clock reading of the machine at a given
    [time.time()], in microseconds. *)
Variable wall_clock : Q -> Z.

(** [datetime.now()]: a naive datetime. *)
Definition datetime_now (w : World) : datetime :=
  mkDatetime (wall_clock (now w)) None.

(** [get_recent_cases(days, limit, court)]; [search] is what
    [self.search_cases] dispatches to. *)
Definition get_recent_cases (search : SearchMethod CaseData)
  (days : Z) (limit : LimitArg) (court : option string)
  : M (list CaseData) :=
  fun w =>
    let end_date := datetime_now w in
    match timedelta_days days with
    | Raise e => (Raise e, w)
    | Ok delta =>
        match naive_sub (wall_micros end_date) delta with
        | Raise e => (Raise e, w)
        | Ok start_date =>
            search None (DDatetime start_date) (DDatetime end_date)
              court limit [] w
        end
    end.

End WithClock.

Arguments get_recent_cases {CaseData}.

End Recent.

(* ------------------------------------------------------------------ *)
(** ** More concrete collaborators *)

Module MoreFixtures.

Import Base Validation Scrapers Fixtures.
Local Open Scope string_scope.

(** The wall clock of a machine set to UTC: day 719163 is 1 January
    1970. *)
Definition utc_clock (t : Q) : Z :=
  let micros := (t * 1000000)%Q in
  (719163 * Recent.micros_per_day + Qnum micros / Zpos (Qden micros))%Z.

(** Answers 503 to every call. *)
Definition always_unavailable : Transport := always 503 [].

(** Two timeouts, then a 403. *)
Definition timeouts_then_forbidden : Transport :=
  fun i _ => if (i <? 2)%nat then (TimedOut, 30) else answer 403 [].

(** A configuration with a negative retry count. *)
Definition negative_retries : ScraperConfig :=
  {| rate_limit := 0; timeout := 30; max_retries := -1; retry_delay := 1;
     session_headers := default_headers None |}.

End MoreFixtures.

(* ------------------------------------------------------------------ *)
(** ** Proof steps shared by the case analyses on optional values *)

Ltac settle_options :=
  intros; try discriminate;
  repeat match goal with
         | H : Some _ = Some _ |- _ => injection H as <-
         end;
  try congruence; eauto.

(* ------------------------------------------------------------------ *)
(** ** The retry loop *)

Module PipelineFacts.

Import Base Observe.
Local Open Scope Q_scope.

Lemma Qle_bool_true (x y : Q) : x <= y -> Qle_bool x y = true.
Proof. intro H. apply Qle_bool_iff. exact H. Qed.

Lemma Qlt_bool_true_lt (x y : Q) : Qlt_bool x y = true -> x < y.
Proof.
  unfold Qlt_bool. intro H. apply negb_true_iff in H.
  apply Qnot_le_lt. intro L. apply Qle_bool_iff in L. congruence.
Qed.

Lemma events_since_app (w w' : World) (evs : list Event) :
  trace w' = (trace w ++ evs)%list -> events_since w w' = evs.
Proof.
  intro H. unfold events_since. rewrite H.
  rewrite skipn_app, skipn_all, Nat.sub_diag. reflexivity.
Qed.

Lemma schedule_app (l1 l2 : list Event) :
  schedule (l1 ++ l2) = (schedule l1 ++ schedule l2)%list.
Proof. unfold schedule. apply filter_app. Qed.

Lemma count_await_app (l1 l2 : list Event) :
  count_await (l1 ++ l2) = (count_await l1 + count_await l2)%nat.
Proof. unfold count_await. rewrite filter_app, length_app. reflexivity. Qed.

Lemma count_requests_app (l1 l2 : list Event) :
  count_requests (l1 ++ l2) = (count_requests l1 + count_requests l2)%nat.
Proof. unfold count_requests. rewrite filter_app, length_app. reflexivity. Qed.

Lemma last_stamp_app (t : Q) (l1 l2 : list Event) :
  last_stamp t (l1 ++ l2) = last_stamp (last_stamp t l1) l2.
Proof. unfold last_stamp. apply fold_left_app. Qed.

Section Loop.

Variable cfg : ScraperConfig.
Variable transport : Transport.

Lemma backoff_delay_double (a : nat) :
  backoff_delay cfg (S a) == 2 * backoff_delay cfg a.
Proof.
  unfold backoff_delay.
  rewrite Nat2Z.inj_succ, Z.pow_succ_r by lia.
  rewrite inject_Z_mult. ring.
Qed.

Lemma backoff_delay_nonneg (a : nat) :
  0 <= retry_delay cfg -> 0 <= backoff_delay cfg a.
Proof.
  intro H. unfold backoff_delay.
  apply Qmult_le_0_compat; [exact H|].
  change 0 with (inject_Z 0). rewrite <- Zle_Qle.
  apply Z.pow_nonneg. lia.
Qed.

Lemma backoff_delay_pos (a : nat) :
  0 < retry_delay cfg -> 0 < backoff_delay cfg a.
Proof.
  intro H. unfold backoff_delay.
  apply Qmult_lt_0_compat; [exact H|].
  change 0 with (inject_Z 0). rewrite <- Zlt_Qlt.
  apply Z.pow_pos_nonneg; lia.
Qed.

Lemma backoff_delay_increasing (a : nat) :
  0 < retry_delay cfg -> backoff_delay cfg a < backoff_delay cfg (S a).
Proof.
  intro H. rewrite backoff_delay_double.
  pose proof (backoff_delay_pos a H) as P.
  rewrite <- (Qplus_0_l (backoff_delay cfg a)) at 1.
  setoid_replace (2 * backoff_delay cfg a)
    with (backoff_delay cfg a + backoff_delay cfg a) by ring.
  apply Qplus_lt_l. exact P.
Qed.

(** The pacing step always returns, leaves the call counter and the
    stamp alone, and logs its entry first. *)
Lemma respect_rate_limit_runs (w : World) :
  exists w1 pacing,
    _respect_rate_limit cfg w = (Ok tt, w1)
    /\ calls w1 = calls w
    /\ _last_request_time w1 = _last_request_time w
    /\ trace w1 = (trace w ++ EvAwaitSlot :: pacing)%list
    /\ (pacing = [] \/ exists d, pacing = [EvSleep Pacing d]).
Proof.
  unfold _respect_rate_limit.
  destruct (Qlt_bool 0 (rate_limit cfg)).
  - cbn [log now _last_request_time].
    destruct (Qlt_bool (now w - _last_request_time w) (rate_limit cfg)) eqn:E.
    + unfold sleep. cbn [log now _last_request_time calls trace].
      apply Qlt_bool_true_lt in E.
      rewrite Qle_bool_true.
      * eexists; exists [EvSleep Pacing
                           (rate_limit cfg - (now w - _last_request_time w))].
        repeat split; cbn; eauto.
        rewrite <- app_assoc. reflexivity.
      * apply Qlt_minus_iff in E. apply Qlt_le_weak. exact E.
    + eexists; exists []. repeat split; cbn; eauto.
  - eexists; exists []. repeat split; cbn; eauto.
Qed.

(** One retried attempt: the loop moves to the next index, one call
    was issued, and the log gained the attempt and its backoff. *)
Lemma attempts_retry_step (req : Request) (rem a : nat) (w : World) :
  retriable (fst (transport (calls w) req)) = true ->
  (Z.of_nat a < max_retries cfg)%Z ->
  0 <= retry_delay cfg ->
  exists w' evs,
    attempts cfg transport req (S rem) a w
    = attempts cfg transport req rem (S a) w'
    /\ calls w' = S (calls w)
    /\ trace w' = (trace w ++ evs)%list
    /\ schedule evs
       = [EvRequest a (req_url req); EvSleep Backoff (backoff_delay cfg a)]
    /\ count_await evs = 0%nat.
Proof.
  intros R L D.
  pose proof (backoff_delay_nonneg a D) as N.
  apply Qle_bool_true in N.
  apply Z.ltb_lt in L.
  cbn [attempts]. unfold session_request.
  destruct (transport (calls w) req) as [out took].
  cbn [fst] in R.
  destruct out as [r| | | |e]; cbn [retriable] in R; try discriminate.
  - apply Z.leb_le in R.
    replace (status_code r =? 200)%Z with false
      by (symmetry; apply Z.eqb_neq; lia).
    replace (status_code r =? 429)%Z with false
      by (symmetry; apply Z.eqb_neq; lia).
    replace (status_code r =? 401)%Z with false
      by (symmetry; apply Z.eqb_neq; lia).
    replace (status_code r =? 403)%Z with false
      by (symmetry; apply Z.eqb_neq; lia).
    replace (500 <=? status_code r)%Z with true
      by (symmetry; apply Z.leb_le; lia).
    cbn [orb]. unfold retry_or. rewrite L. unfold bind, sleep. rewrite N.
    eexists; eexists. split; [reflexivity|].
    unfold stamp; cbn [calls trace now _last_request_time].
    repeat split.
    + repeat rewrite <- app_assoc. reflexivity.
    + reflexivity.
    + reflexivity.
  - unfold retry_or. rewrite L. unfold bind, sleep. rewrite N.
    eexists; eexists. split; [reflexivity|].
    cbn [calls trace now _last_request_time].
    repeat split.
    + repeat rewrite <- app_assoc. reflexivity.
    + reflexivity.
    + reflexivity.
  - unfold retry_or. rewrite L. unfold bind, sleep. rewrite N.
    eexists; eexists. split; [reflexivity|].
    cbn [calls trace now _last_request_time].
    repeat split.
    + repeat rewrite <- app_assoc. reflexivity.
    + reflexivity.
    + reflexivity.
Qed.

(** [k] retried attempts in a row. *)
Lemma attempts_retries (req : Request) (k : nat) :
  forall (rem a : nat) (w : World),
    (forall i, (i < k)%nat ->
               retriable (fst (transport (calls w + i)%nat req)) = true) ->
    (Z.of_nat (a + k) <= max_retries cfg)%Z ->
    0 <= retry_delay cfg ->
    exists w' evs,
      attempts cfg transport req (k + rem) a w
      = attempts cfg transport req rem (a + k) w'
      /\ calls w' = (calls w + k)%nat
      /\ trace w' = (trace w ++ evs)%list
      /\ schedule evs = retry_schedule cfg (req_url req) a k
      /\ count_await evs = 0%nat.
Proof.
  induction k as [|k IH]; intros rem a w R L D.
  - exists w, []. rewrite !Nat.add_0_r, app_nil_r. cbn. auto.
  - destruct (attempts_retry_step req (k + rem) a w)
      as (w1 & e1 & S1 & C1 & T1 & Sch1 & A1).
    + specialize (R 0%nat). rewrite Nat.add_0_r in R. apply R. lia.
    + lia.
    + exact D.
    + destruct (IH rem (S a) w1) as (w2 & e2 & S2 & C2 & T2 & Sch2 & A2).
      * intros i Hi. rewrite C1.
        replace (S (calls w) + i)%nat with (calls w + S i)%nat by lia.
        apply R. lia.
      * lia.
      * exact D.
      * exists w2, (e1 ++ e2)%list.
        replace (S k + rem)%nat with (S (k + rem)) by lia.
        rewrite S1, S2.
        replace (S a + k)%nat with (a + S k)%nat by lia.
        split; [reflexivity|].
        split; [lia|].
        split; [rewrite T2, T1, app_assoc; reflexivity|].
        split.
        -- rewrite schedule_app, Sch1, Sch2. reflexivity.
        -- rewrite count_await_app, A1, A2. reflexivity.
Qed.

End Loop.

End PipelineFacts.

(* ------------------------------------------------------------------ *)
(** ** RequestExecutor: [_make_request] *)

Module RequestExecutor.

Import Base Observe PipelineFacts.
Local Open Scope Q_scope.

Section Executor.

Variable cfg : ScraperConfig.
Variable transport : Transport.

Lemma to_nat_retries_succ :
  (0 <= max_retries cfg)%Z ->
  Z.to_nat (max_retries cfg + 1)
  = (Z.to_nat (max_retries cfg) + 1)%nat.
Proof. intro H. lia. Qed.

Lemma schedule_pacing (pacing : list Event) :
  pacing = [] \/ (exists d, pacing = [EvSleep Pacing d]) ->
  schedule (EvAwaitSlot :: pacing) = []
  /\ count_requests (EvAwaitSlot :: pacing) = 0%nat
  /\ count_await (EvAwaitSlot :: pacing) = 1%nat.
Proof. intros [-> | [d ->]]; repeat split. Qed.

Lemma count_requests_schedule (evs : list Event) :
  count_requests (schedule evs) = count_requests evs.
Proof.
  unfold count_requests, schedule.
  induction evs as [|e evs IH]; [reflexivity|].
  destruct e as [|[|] d|a u|t]; cbn; rewrite ?IH; try reflexivity;
    cbn in IH; rewrite ?IH; reflexivity.
Qed.

Lemma count_requests_retry_schedule (url : string) (k : nat) :
  forall a, count_requests (retry_schedule cfg url a k) = k.
Proof.
  induction k as [|k IH]; intro a; [reflexivity|].
  unfold retry_schedule in *. cbn [seq flat_map].
  rewrite count_requests_app, IH. reflexivity.
Qed.


(** What a call does once the pacing step is over: the loop runs
    from attempt 0 in the world the pacing step left. *)
Lemma make_request_unfold (url method : string)
  (params data : list (string * string)) (hdrs : Py.Headers) (w : World) :
  exists w1 pacing,
    _make_request cfg transport url method params data hdrs w
    = attempts cfg transport (build_request cfg url method params data hdrs)
        (Z.to_nat (max_retries cfg + 1)) 0 w1
    /\ calls w1 = calls w
    /\ _last_request_time w1 = _last_request_time w
    /\ trace w1 = (trace w ++ EvAwaitSlot :: pacing)%list
    /\ (pacing = [] \/ exists d, pacing = [EvSleep Pacing d]).
Proof.
  destruct (respect_rate_limit_runs cfg w) as (w1 & pacing & E & R).
  exists w1, pacing. split; [|exact R].
  unfold _make_request, bind. rewrite E. reflexivity.
Qed.

(** C1.  With at least one retry configured and a positive base delay,
    when the transport answers the first [max_retries] attempts with a
    status of 500 (or any status from 500 up) and the last attempt with
    200, [_make_request] returns that response; the log shows attempt
    [a] followed by a sleep of [retry_delay * 2^a] for every retried
    attempt and then the final attempt; each backoff is twice the one
    before and strictly longer. *)
Theorem make_request_recovers_with_doubling_backoff
  (url method : string) (params data : list (string * string))
  (hdrs : Py.Headers) (w : World) (ok : Response) :
  (1 <= max_retries cfg)%Z ->
  0 < retry_delay cfg ->
  (forall a, (a < Z.to_nat (max_retries cfg))%nat ->
             exists r,
               fst (transport (calls w + a)%nat
                      (build_request cfg url method params data hdrs))
               = Responded r
               /\ (500 <= status_code r)%Z) ->
  fst (transport (calls w + Z.to_nat (max_retries cfg))%nat
         (build_request cfg url method params data hdrs))
  = Responded ok ->
  status_code ok = 200%Z ->
  fst (_make_request cfg transport url method params data hdrs w) = Ok ok
  /\ schedule
       (events_since w
          (snd (_make_request cfg transport url method params data hdrs w)))
     = (flat_map
          (fun a =>
             [EvRequest a url;
              EvSleep Backoff
                (retry_delay cfg * inject_Z (2 ^ Z.of_nat a))])
          (seq 0 (Z.to_nat (max_retries cfg)))
        ++ [EvRequest (Z.to_nat (max_retries cfg)) url])%list
  /\ forall a,
       retry_delay cfg * inject_Z (2 ^ Z.of_nat (S a))
       == 2 * (retry_delay cfg * inject_Z (2 ^ Z.of_nat a))
       /\ retry_delay cfg * inject_Z (2 ^ Z.of_nat a)
          < retry_delay cfg * inject_Z (2 ^ Z.of_nat (S a)).
Proof.
  intros Hm Hd H5 H2 Hs.
  set (req := build_request cfg url method params data hdrs) in *.
  destruct (make_request_unfold url method params data hdrs w)
    as (w1 & pacing & E1 & C1 & _ & T1 & P1).
  fold req in E1. rewrite E1.
  destruct (attempts_retries cfg transport req
              (Z.to_nat (max_retries cfg)) 1 0 w1)
    as (w2 & evs & E2 & C2 & T2 & S2 & A2).
  - intros i Hi. rewrite C1. destruct (H5 i Hi) as (r & Hr & Hst).
    rewrite Hr. cbn. apply Z.leb_le. exact Hst.
  - lia.
  - apply Qlt_le_weak. exact Hd.
  - rewrite to_nat_retries_succ by lia. rewrite E2.
    cbn [attempts Nat.add]. unfold session_request.
    rewrite C2, C1.
    destruct (transport (calls w + Z.to_nat (max_retries cfg))%nat req)
      as [out took].
    cbn [fst] in H2. subst out. rewrite Hs. cbn [Z.eqb Pos.eqb fst snd].
    split; [reflexivity|]. split.
    + erewrite events_since_app.
      2:{ unfold stamp. cbn [trace]. rewrite T2, T1.
          repeat rewrite <- app_assoc. reflexivity. }
      rewrite !schedule_app, S2.
      destruct (schedule_pacing pacing P1) as (-> & _ & _).
      reflexivity.
    + intro a. split.
      * apply (backoff_delay_double cfg a).
      * apply (backoff_delay_increasing cfg a Hd).
Qed.

(** C2.  With a non-negative retry count and a non-negative base
    delay, when every attempt runs into a timeout, [_make_request]
    raises the [NetworkError] of the exhausted timeout, and by then the
    session has issued exactly [max_retries + 1] requests. *)
Theorem make_request_gives_up_after_all_attempts
  (url method : string) (params data : list (string * string))
  (hdrs : Py.Headers) (w : World) :
  (0 <= max_retries cfg)%Z ->
  0 <= retry_delay cfg ->
  (forall n, fst (transport n
                    (build_request cfg url method params data hdrs))
             = TimedOut) ->
  fst (_make_request cfg transport url method params data hdrs w)
  = Raise (NetworkError RequestTimeout url None)
  /\ calls (snd (_make_request cfg transport url method params data hdrs w))
     = (calls w + Z.to_nat (max_retries cfg + 1))%nat
  /\ count_requests
       (events_since w
          (snd (_make_request cfg transport url method params data hdrs w)))
     = Z.to_nat (max_retries cfg + 1).
Proof.
  intros Hm Hd Ht.
  set (req := build_request cfg url method params data hdrs) in *.
  destruct (make_request_unfold url method params data hdrs w)
    as (w1 & pacing & E1 & C1 & _ & T1 & P1).
  fold req in E1. rewrite E1.
  destruct (attempts_retries cfg transport req
              (Z.to_nat (max_retries cfg)) 1 0 w1)
    as (w2 & evs & E2 & C2 & T2 & S2 & A2).
  - intros i _. rewrite Ht. reflexivity.
  - lia.
  - exact Hd.
  - rewrite to_nat_retries_succ by lia. rewrite E2.
    cbn [attempts Nat.add]. unfold session_request.
    pose proof (Ht (calls w2)) as Hout.
    destruct (transport (calls w2) req) as [out took].
    cbn [fst] in Hout. subst out. unfold retry_or.
    replace (Z.of_nat (Z.to_nat (max_retries cfg)) <? max_retries cfg)%Z
      with false by (symmetry; apply Z.ltb_ge; lia).
    unfold raise. cbn [fst snd calls].
    split; [reflexivity|]. split; [lia|].
    erewrite events_since_app.
    2:{ cbn [trace]. rewrite T2, T1.
        repeat rewrite <- app_assoc. reflexivity. }
    rewrite !count_requests_app.
    destruct (schedule_pacing pacing P1) as (_ & -> & _).
    rewrite <- (count_requests_schedule evs), S2,
      count_requests_retry_schedule.
    reflexivity.
Qed.

(** HTTP 429 with a [Retry-After] value [int()] accepts: the error
    carries that value and the one request was the only one. *)
Lemma make_request_rate_limited
  (url method : string) (params data : list (string * string))
  (hdrs : Py.Headers) (w : World) (r : Response) (retry_after : Z) :
  (0 <= max_retries cfg)%Z ->
  fst (transport (calls w)
         (build_request cfg url method params data hdrs))
  = Responded r ->
  status_code r = 429%Z ->
  Py.int (Py.headers_get (headers r) "Retry-After" 60) = Some retry_after ->
  fst (_make_request cfg transport url method params data hdrs w)
  = Raise (RateLimitError retry_after url)
  /\ calls (snd (_make_request cfg transport url method params data hdrs w))
     = S (calls w).
Proof.
  intros Hm Hr Hs Hi.
  destruct (make_request_unfold url method params data hdrs w)
    as (w1 & pacing & E1 & C1 & _ & T1 & P1).
  rewrite E1, to_nat_retries_succ by lia.
  rewrite Nat.add_1_r. cbn [attempts]. unfold session_request.
  rewrite C1.
  destruct (transport (calls w)
              (build_request cfg url method params data hdrs))
    as [out took].
  cbn [fst] in Hr. subst out. rewrite Hs. cbn [Z.eqb Pos.eqb].
  rewrite Hi. cbn. auto.
Qed.

(** Without a [Retry-After] header the default of 60 is carried. *)
Lemma make_request_rate_limited_default
  (url method : string) (params data : list (string * string))
  (hdrs : Py.Headers) (w : World) (r : Response) :
  (0 <= max_retries cfg)%Z ->
  fst (transport (calls w)
         (build_request cfg url method params data hdrs))
  = Responded r ->
  status_code r = 429%Z ->
  Py.headers_lookup (headers r) "Retry-After" = None ->
  fst (_make_request cfg transport url method params data hdrs w)
  = Raise (RateLimitError 60 url).
Proof.
  intros Hm Hr Hs Hn.
  apply (make_request_rate_limited url method params data hdrs w r 60 Hm Hr Hs).
  unfold Py.headers_get. rewrite Hn. reflexivity.
Qed.

(** A [Retry-After] value [int()] rejects: the [ValueError] of the
    conversion leaves [_make_request], not a [RateLimitError]. *)
Lemma make_request_rate_limited_unparseable
  (url method : string) (params data : list (string * string))
  (hdrs : Py.Headers) (w : World) (r : Response) (v : string) :
  (0 <= max_retries cfg)%Z ->
  fst (transport (calls w)
         (build_request cfg url method params data hdrs))
  = Responded r ->
  status_code r = 429%Z ->
  Py.headers_lookup (headers r) "Retry-After" = Some v ->
  Py.int_of_str v = None ->
  fst (_make_request cfg transport url method params data hdrs w)
  = Raise (ValueError "invalid literal for int()").
Proof.
  intros Hm Hr Hs Hv Hi.
  destruct (make_request_unfold url method params data hdrs w)
    as (w1 & pacing & E1 & C1 & _ & T1 & P1).
  rewrite E1, to_nat_retries_succ by lia.
  rewrite Nat.add_1_r. cbn [attempts]. unfold session_request.
  rewrite C1.
  destruct (transport (calls w)
              (build_request cfg url method params data hdrs))
    as [out took].
  cbn [fst] in Hr. subst out. rewrite Hs. cbn [Z.eqb Pos.eqb].
  unfold Py.headers_get. rewrite Hv. cbn [Py.int]. rewrite Hi.
  reflexivity.
Qed.


End Executor.

Import Fixtures.

Lemma make_request_recovers_witness :
  fst (_make_request two_retries (flaky 2) test_url "GET" [] [] []
         start)
  = Ok (mkResponse 200 [] "")
  /\ schedule
       (events_since start
          (snd (_make_request two_retries (flaky 2) test_url "GET" [] [] []
                  start)))
     = (flat_map
          (fun a =>
             [EvRequest a test_url;
              EvSleep Backoff
                (retry_delay two_retries * inject_Z (2 ^ Z.of_nat a))])
          (seq 0 (Z.to_nat (max_retries two_retries)))
        ++ [EvRequest (Z.to_nat (max_retries two_retries)) test_url])%list
  /\ forall a,
       retry_delay two_retries * inject_Z (2 ^ Z.of_nat (S a))
       == 2 * (retry_delay two_retries * inject_Z (2 ^ Z.of_nat a))
       /\ retry_delay two_retries * inject_Z (2 ^ Z.of_nat a)
          < retry_delay two_retries * inject_Z (2 ^ Z.of_nat (S a)).
Proof.
  apply (make_request_recovers_with_doubling_backoff two_retries (flaky 2)
           test_url "GET" [] [] [] start (mkResponse 200 [] "")).
  - cbn. lia.
  - reflexivity.
  - intros a Ha. cbn in Ha.
    destruct a as [|[|a]]; [ | | lia];
      (eexists; split; [reflexivity | cbn; lia]).
  - reflexivity.
  - reflexivity.
Defined.

Lemma make_request_gives_up_witness :
  fst (_make_request default_config always_timeout test_url "GET" [] [] []
         start)
  = Raise (NetworkError RequestTimeout test_url None)
  /\ calls (snd (_make_request default_config always_timeout test_url "GET"
                   [] [] [] start))
     = (calls start + Z.to_nat (max_retries default_config + 1))%nat
  /\ count_requests
       (events_since start
          (snd (_make_request default_config always_timeout test_url "GET"
                  [] [] [] start)))
     = Z.to_nat (max_retries default_config + 1).
Proof.
  apply (make_request_gives_up_after_all_attempts default_config
           always_timeout test_url "GET" [] [] [] start).
  - cbn. lia.
  - cbn. discriminate.
  - intro n. reflexivity.
Defined.

(** A 429 with [Retry-After: 60], and one without the header: a
    [RateLimitError] carrying 60 after the one request. *)
Example rate_limited_with_and_without_header :
  fst (_make_request default_config
         (always 429 [("Retry-After"%string, "60"%string)])
         test_url "GET" [] [] [] start)
  = Raise (RateLimitError 60 test_url)
  /\ fst (_make_request default_config (always 429
                              [("retry-after"%string, " 120 "%string)])
            test_url "GET" [] [] [] start)
     = Raise (RateLimitError 120 test_url)
  /\ fst (_make_request default_config (always 429 [])
            test_url "GET" [] [] [] start)
     = Raise (RateLimitError 60 test_url)
  /\ calls (snd (_make_request default_config (always 429 [])
                   test_url "GET" [] [] [] start))
     = 1%nat.
Proof. vm_compute. repeat split. Qed.

(** C3, where the code departs from it.  A 429 whose [Retry-After] header
    holds an HTTP date, which [int()] rejects: the call ends with the
    [ValueError] of the conversion after its one request, not with a
    [RateLimitError] carrying 60. *)
Theorem retry_after_http_date_raises_value_error :
  Py.int (Py.headers_get retry_after_date "Retry-After" 60) = None
  /\ fst (_make_request default_config (always 429 retry_after_date)
            test_url "GET" [] [] [] start)
     = Raise (ValueError "invalid literal for int()")
  /\ calls (snd (_make_request default_config (always 429 retry_after_date)
                   test_url "GET" [] [] [] start))
     = 1%nat.
Proof. vm_compute. repeat split. Qed.


End RequestExecutor.

(* ------------------------------------------------------------------ *)
(** ** ParameterValidator: [validate_search_params] *)

Module ParameterValidator.

Import Validation.
Local Open Scope string_scope.
Local Open Scope Z_scope.

Section Validator.

Variable parse : string -> Result datetime.

Lemma truthy_of_nonempty (s : string) :
  s <> "" -> Py.truthy_str s = true.
Proof. destruct s; [congruence | reflexivity]. Qed.

(** An argument that resolves is truthy, as the parser rejects the
    empty string. *)
Lemma resolves_truthy (i : DateInput) (d : datetime) :
  (forall d', parse "" <> Ok d') ->
  resolves_to parse i d ->
  truthy_date i = true /\ validate_date parse i = Ok (Some d).
Proof.
  intros Hempty H. destruct i as [|s|d'|b]; cbn in H; try contradiction.
  - split.
    + apply truthy_of_nonempty. intros ->. exact (Hempty d H).
    + cbn. rewrite H. reflexivity.
  - subst. split; reflexivity.
Qed.

(** The limit is looked at last, on the parameters the dates left. *)
Lemma validate_limit_last (start_date end_date : DateInput)
  (limit : LimitArg) :
  validate_search_params parse start_date end_date limit
  = and_then (validate_search_params parse start_date end_date LNone)
      (set_limit limit).
Proof.
  unfold validate_search_params.
  destruct (set_start_date parse start_date empty_params) as [p1|e];
    [|reflexivity].
  cbn [and_then].
  destruct (set_end_date parse end_date p1) as [p2|e]; [|reflexivity].
  cbn [and_then].
  destruct (check_order p2) as [p3|e]; reflexivity.
Qed.

(** Two date arguments that are taken and resolve reach the
    comparison. *)
Lemma validate_two_dates (start_date end_date : DateInput)
  (s e : datetime) (limit : LimitArg) :
  truthy_date start_date = true ->
  truthy_date end_date = true ->
  resolves_to parse start_date s ->
  resolves_to parse end_date e ->
  validate_search_params parse start_date end_date limit
  = and_then
      (check_order {| p_start_date := Some (Some s);
                      p_end_date := Some (Some e);
                      p_limit := None |})
      (set_limit limit).
Proof.
  intros Ts Te Hs He.
  assert (Vs : validate_date parse start_date = Ok (Some s)).
  { destruct start_date as [|x|d|b]; cbn in Hs; try contradiction.
    - cbn. rewrite Hs. reflexivity.
    - subst. reflexivity. }
  assert (Ve : validate_date parse end_date = Ok (Some e)).
  { destruct end_date as [|x|d|b]; cbn in He; try contradiction.
    - cbn. rewrite He. reflexivity.
    - subst. reflexivity. }
  unfold validate_search_params, set_start_date, set_end_date.
  rewrite Ts, Vs. cbn [and_then]. rewrite Te, Ve. reflexivity.
Qed.

(** What the validator does once the comparison has answered. *)
Lemma validate_after_comparison (start_date end_date : DateInput)
  (s e : datetime) (after : bool) :
  truthy_date start_date = true ->
  truthy_date end_date = true ->
  resolves_to parse start_date s ->
  resolves_to parse end_date e ->
  datetime_gt s e = Ok after ->
  (after = true ->
   forall limit,
     validate_search_params parse start_date end_date limit
     = Raise (ValueError "Start date must be before end date"))
  /\ (after = false ->
      forall limit,
        limit = LNone \/ (exists n, limit = LInt n /\ 0 < n) ->
        exists p,
          validate_search_params parse start_date end_date limit = Ok p
          /\ p_start_date p = Some (Some s)
          /\ p_end_date p = Some (Some e)).
Proof.
  intros Ts Te Hs He G. split; intros -> limit.
  - rewrite (validate_two_dates _ _ s e limit Ts Te Hs He).
    unfold check_order. cbn [get_date p_start_date p_end_date].
    rewrite G. reflexivity.
  - intros Hl. rewrite (validate_two_dates _ _ s e limit Ts Te Hs He).
    unfold check_order. cbn [get_date p_start_date p_end_date].
    rewrite G. cbn [and_then].
    destruct Hl as [-> | (n & -> & Hn)].
    + eexists. split; [reflexivity|]. split; reflexivity.
    + unfold set_limit. cbn [int_value].
      replace (n <=? 0) with false by (symmetry; apply Z.leb_gt; lia).
      eexists. split; [reflexivity|]. split; reflexivity.
Qed.

(** C6, as the code has it.  Two date arguments that are taken (not
    falsy) and resolve to [s] and [e] are ordered as Python orders
    datetimes: by their wall-clock fields when both are naive or both
    carry the same [tzinfo] object, by their instants when they carry
    different ones.  When [s > e] in that order the validator raises
    the [ValueError] of the date order, whatever the limit; when not,
    it returns, for an absent or positive integer limit, parameters
    that hold both resolved dates.  A naive and an aware datetime are
    not ordered: the call ends with the [TypeError] of the
    comparison, whatever the limit. *)
Theorem validate_orders_dates (start_date end_date : DateInput)
  (s e : datetime) :
  truthy_date start_date = true ->
  truthy_date end_date = true ->
  resolves_to parse start_date s ->
  resolves_to parse end_date e ->
  let by_order (after : bool) : Prop :=
    (after = true ->
     forall limit,
       validate_search_params parse start_date end_date limit
       = Raise (ValueError "Start date must be before end date"))
    /\ (after = false ->
        forall limit,
          limit = LNone \/ (exists n, limit = LInt n /\ 0 < n) ->
          exists p,
            validate_search_params parse start_date end_date limit = Ok p
            /\ p_start_date p = Some (Some s)
            /\ p_end_date p = Some (Some e)) in
  match tzinfo s, tzinfo e with
  | None, None => by_order (wall_micros e <? wall_micros s)
  | Some zs, Some ze =>
      if tz_object zs =? tz_object ze
      then by_order (wall_micros e <? wall_micros s)
      else by_order (wall_micros e - tz_utcoffset ze
                     <? wall_micros s - tz_utcoffset zs)
  | _, _ =>
      forall limit,
        validate_search_params parse start_date end_date limit
        = Raise TypeError
  end.
Proof.
  intros Ts Te Hs He by_order. subst by_order.
  pose proof (validate_after_comparison start_date end_date s e) as A.
  pose proof (fun limit =>
                validate_two_dates start_date end_date s e limit
                  Ts Te Hs He) as D.
  destruct s as [ws [zs|]], e as [we [ze|]];
    cbn [tzinfo wall_micros] in *.
  - destruct (tz_object zs =? tz_object ze) eqn:Same.
    + apply A; try assumption.
      unfold datetime_gt, same_tzinfo. cbn [tzinfo wall_micros].
      rewrite Same. reflexivity.
    + apply A; try assumption.
      unfold datetime_gt, same_tzinfo, utcoffset.
      cbn [tzinfo wall_micros option_map]. rewrite Same.
      destruct (tz_utcoffset zs =? tz_utcoffset ze) eqn:Off;
        [|reflexivity].
      apply Z.eqb_eq in Off. rewrite Off. f_equal.
      destruct (we <? ws) eqn:L1;
        destruct (we - tz_utcoffset ze <? ws - tz_utcoffset ze) eqn:L2;
        try reflexivity;
        rewrite ?Z.ltb_lt, ?Z.ltb_ge in *; lia.
  - intro limit. rewrite D. reflexivity.
  - intro limit. rewrite D. reflexivity.
  - apply A; try assumption. reflexivity.
Qed.

(** C7.  With date arguments that pass on their own, a limit that is
    present fails with the [ValueError] of the limit when it is not an
    [int] or is zero or negative; otherwise the returned limit is
    [min(limit, 1000)], so exactly 1000 for every limit above 1000, and
    the dates are returned as the date arguments left them. *)
Theorem validate_caps_limit (start_date end_date : DateInput)
  (limit : LimitArg) (p : SearchParams) :
  validate_search_params parse start_date end_date LNone = Ok p ->
  limit <> LNone ->
  match as_int limit with
  | None =>
      validate_search_params parse start_date end_date limit
      = Raise (ValueError "Limit must be a positive integer")
  | Some v =>
      if int_value v <=? 0 then
        validate_search_params parse start_date end_date limit
        = Raise (ValueError "Limit must be a positive integer")
      else
        exists v',
          validate_search_params parse start_date end_date limit
          = Ok {| p_start_date := p_start_date p;
                  p_end_date := p_end_date p;
                  p_limit := Some v' |}
          /\ int_value v' = Z.min (int_value v) 1000
          /\ (1000 < int_value v -> v' = IInt 1000)
  end.
Proof.
  intros Hd Hl. rewrite validate_limit_last, Hd. cbn [and_then].
  destruct limit as [|z|b|q|t]; cbn [as_int set_limit];
    try reflexivity; try congruence.
  - cbn [int_value]. destruct (z <=? 0) eqn:E; [reflexivity|].
    apply Z.leb_gt in E. eexists. split; [reflexivity|].
    unfold py_min_1000. cbn [int_value].
    destruct (1000 <? z) eqn:F.
    + apply Z.ltb_lt in F. cbn [int_value]. split; [lia|reflexivity].
    + apply Z.ltb_ge in F. cbn [int_value]. split; [lia|lia].
  - destruct b; cbn; [|reflexivity].
    eexists. split; [reflexivity|]. split; [reflexivity|lia].
Qed.

(** A falsy argument leaves the parameters as they are. *)
Lemma set_start_date_falsy (i : DateInput) (params : SearchParams) :
  truthy_date i = false -> set_start_date parse i params = Ok params.
Proof. intro F. unfold set_start_date. rewrite F. reflexivity. Qed.

Lemma set_end_date_falsy (i : DateInput) (params : SearchParams) :
  truthy_date i = false -> set_end_date parse i params = Ok params.
Proof. intro F. unfold set_end_date. rewrite F. reflexivity. Qed.

(** What the later statements keep of the two date keys. *)
Lemma check_order_keeps (params p : SearchParams) :
  check_order params = Ok p -> p = params.
Proof.
  unfold check_order.
  destruct (get_date (p_start_date params)) as [s|];
    [destruct (get_date (p_end_date params)) as [e|];
     [destruct (datetime_gt s e) as [[|]|]|]|];
    intro H; try discriminate H; injection H as <-; reflexivity.
Qed.

Lemma set_limit_keeps_dates (limit : LimitArg) (params p : SearchParams) :
  set_limit limit params = Ok p ->
  p_start_date p = p_start_date params
  /\ p_end_date p = p_end_date params.
Proof.
  unfold set_limit.
  destruct limit as [|z|b|q|x]; try discriminate.
  - intro H. injection H as <-. split; reflexivity.
  - destruct (int_value (IInt z) <=? 0); [discriminate|].
    intro H. injection H as <-. split; reflexivity.
  - destruct (int_value (IBool b) <=? 0); [discriminate|].
    intro H. injection H as <-. split; reflexivity.
Qed.

(** The validator asks the parser about non-empty strings only. *)
Lemma validate_date_of_nonempty (parse' : string -> Result datetime)
  (i : DateInput) :
  (forall x, x <> "" -> parse' x = parse x) ->
  truthy_date i = true ->
  validate_date parse' i = validate_date parse i.
Proof.
  intros Agree T. destruct i as [|x|d|b]; try reflexivity.
  cbn [validate_date]. rewrite Agree; [reflexivity|].
  intros ->. discriminate T.
Qed.

(** C10.  A falsy date argument ([None], the empty string, a falsy
    value of another type) is treated as no date at all, as start
    date and as end date: the call does what it does for [None], its
    key is left out of what is returned, and it fails nothing,
    although [validate_date] itself rejects the empty string.  A
    non-empty string reaches the parser in either position: one the
    parser rejects fails the call with the [ValueError] of the date
    format, one it accepts is stored.  The parser is asked about no
    other string: what it says of the empty string changes
    nothing. *)
Theorem validate_skips_empty_date_string (falsy : DateInput)
  (s : string) (e : Exn) :
  truthy_date falsy = false ->
  s <> "" ->
  parse s = Raise e ->
  class_of e = CValueError \/ class_of e = CTypeError ->
  (truthy_date (DStr "") = false
   /\ forall x,
        parse "" = Raise x -> class_of x = CValueError ->
        validate_date parse (DStr "")
        = Raise (ValueError "Invalid date format: "))
  /\ (forall end_date limit,
         validate_search_params parse falsy end_date limit
         = validate_search_params parse DNone end_date limit)
  /\ (forall start_date limit,
         validate_search_params parse start_date falsy limit
         = validate_search_params parse start_date DNone limit)
  /\ (forall other limit p,
         validate_search_params parse falsy other limit = Ok p ->
         p_start_date p = None)
  /\ (forall other limit p,
         validate_search_params parse other falsy limit = Ok p ->
         p_end_date p = None)
  /\ validate_search_params parse falsy falsy LNone = Ok empty_params
  /\ (forall end_date limit,
         validate_search_params parse (DStr s) end_date limit
         = Raise (ValueError ("Invalid date format: " ++ s)))
  /\ (forall start_date limit,
         truthy_date start_date = false
         \/ (exists d, validate_date parse start_date = Ok d) ->
         validate_search_params parse start_date (DStr s) limit
         = Raise (ValueError ("Invalid date format: " ++ s)))
  /\ (forall x d,
         x <> "" -> parse x = Ok d ->
         validate_search_params parse (DStr x) falsy LNone
         = Ok {| p_start_date := Some (Some d); p_end_date := None;
                 p_limit := None |}
         /\ validate_search_params parse falsy (DStr x) LNone
            = Ok {| p_start_date := None; p_end_date := Some (Some d);
                    p_limit := None |})
  /\ (forall parse' : string -> Result datetime,
         (forall x, x <> "" -> parse' x = parse x) ->
         forall start_date end_date limit,
           validate_search_params parse' start_date end_date limit
           = validate_search_params parse start_date end_date limit).
Proof.
  intros F Hs He Ce.
  assert (Vs : validate_date parse (DStr s)
               = Raise (ValueError ("Invalid date format: " ++ s))).
  { cbn [validate_date]. rewrite He.
    destruct Ce as [-> | ->]; reflexivity. }
  assert (Start : forall end_date limit,
             validate_search_params parse falsy end_date limit
             = validate_search_params parse DNone end_date limit).
  { intros end_date limit. unfold validate_search_params.
    rewrite (set_start_date_falsy falsy _ F). reflexivity. }
  assert (End : forall start_date limit,
             validate_search_params parse start_date falsy limit
             = validate_search_params parse start_date DNone limit).
  { intros start_date limit. unfold validate_search_params.
    destruct (set_start_date parse start_date empty_params) as [p1|];
      [|reflexivity].
    cbn [and_then]. rewrite (set_end_date_falsy falsy _ F).
    reflexivity. }
  split; [|split; [|split; [|split; [|split; [|split; [|split;
    [|split; [|split]]]]]]]].
  - split; [reflexivity|]. intros x Hx Cx. cbn [validate_date].
    rewrite Hx, Cx. reflexivity.
  - exact Start.
  - exact End.
  - intros other limit p. rewrite Start.
    unfold validate_search_params.
    cbn [set_start_date truthy_date and_then].
    destruct (set_end_date parse other empty_params) as [p2|] eqn:E2;
      [|discriminate].
    cbn [and_then].
    destruct (check_order p2) as [p3|] eqn:E3; [|discriminate].
    cbn [and_then]. intro L.
    destruct (set_limit_keeps_dates _ _ _ L) as [-> _].
    rewrite (check_order_keeps _ _ E3).
    unfold set_end_date in E2.
    destruct (truthy_date other).
    + destruct (validate_date parse other); [|discriminate].
      injection E2 as <-. reflexivity.
    + injection E2 as <-. reflexivity.
  - intros other limit p. rewrite End.
    unfold validate_search_params.
    destruct (set_start_date parse other empty_params) as [p1|] eqn:E1;
      [|discriminate].
    cbn [and_then set_end_date truthy_date].
    destruct (check_order p1) as [p3|] eqn:E3; [|discriminate].
    cbn [and_then]. intro L.
    destruct (set_limit_keeps_dates _ _ _ L) as [_ ->].
    rewrite (check_order_keeps _ _ E3).
    unfold set_start_date in E1.
    destruct (truthy_date other).
    + destruct (validate_date parse other); [|discriminate].
      injection E1 as <-. reflexivity.
    + injection E1 as <-. reflexivity.
  - rewrite Start, End. reflexivity.
  - intros end_date limit.
    unfold validate_search_params, set_start_date.
    cbn [truthy_date]. rewrite (truthy_of_nonempty s Hs), Vs.
    reflexivity.
  - intros start_date limit Hstart.
    unfold validate_search_params.
    assert (S1 : exists p1,
               set_start_date parse start_date empty_params = Ok p1).
    { unfold set_start_date. destruct Hstart as [Fs | (d & Vd)].
      - rewrite Fs. eauto.
      - destruct (truthy_date start_date); [rewrite Vd|]; eauto. }
    destruct S1 as (p1 & ->). cbn [and_then].
    unfold set_end_date. cbn [truthy_date].
    rewrite (truthy_of_nonempty s Hs), Vs. reflexivity.
  - intros x d Hx Px. split.
    + rewrite End. unfold validate_search_params, set_start_date.
      cbn [truthy_date validate_date].
      rewrite (truthy_of_nonempty x Hx), Px. reflexivity.
    + rewrite Start. unfold validate_search_params.
      cbn [set_start_date truthy_date and_then].
      unfold set_end_date. cbn [truthy_date validate_date].
      rewrite (truthy_of_nonempty x Hx), Px. reflexivity.
  - intros parse' Agree start_date end_date limit.
    unfold validate_search_params, set_start_date, set_end_date.
    destruct (truthy_date start_date) eqn:T1;
      [rewrite (validate_date_of_nonempty parse' _ Agree T1)|];
      (destruct (truthy_date end_date) eqn:T2;
       [rewrite (validate_date_of_nonempty parse' _ Agree T2)|]);
      reflexivity.
Qed.

End Validator.

Import Fixtures.

Lemma two_dates_rejects_empty : forall d, two_dates "" <> Ok d.
Proof. intros d H. discriminate H. Qed.

Lemma validate_orders_dates_witness :
  validate_search_params two_dates (DStr "2023-12-31") (DDatetime jan_1)
    (LInt 100)
  = Raise (ValueError "Start date must be before end date")
  /\ exists p,
       validate_search_params two_dates (DStr "2023-01-01")
         (DStr "2023-12-31") (LInt 100) = Ok p
       /\ p_start_date p = Some (Some jan_1)
       /\ p_end_date p = Some (Some dec_31).
Proof.
  split.
  - apply (proj1 (validate_orders_dates two_dates (DStr "2023-12-31")
                    (DDatetime jan_1) dec_31 jan_1
                    eq_refl eq_refl eq_refl eq_refl)).
    reflexivity.
  - apply (proj2 (validate_orders_dates two_dates (DStr "2023-01-01")
                    (DStr "2023-12-31") jan_1 dec_31
                    eq_refl eq_refl eq_refl eq_refl)).
    + reflexivity.
    + right. exists 100. split; [reflexivity | lia].
Defined.

(** C6 fails as stated.  Both arguments are dates, the earlier one
    naive and the later one aware: in either order the call neither
    returns nor raises the [ValueError] of the date order, it ends with
    the [TypeError] of the comparison.  And of two readings of one New
    York clock in the repeated hour, the start date is the later
    instant, yet its fields are the smaller ones and the call
    returns. *)
Lemma validate_does_not_order_naive_and_aware :
  resolves_to two_dates (DStr "2023-01-01") jan_1
  /\ resolves_to two_dates (DDatetime dec_31_utc) dec_31_utc
  /\ validate_search_params two_dates (DStr "2023-01-01")
       (DDatetime dec_31_utc) LNone
     = Raise TypeError
  /\ validate_search_params two_dates (DDatetime dec_31_utc)
       (DStr "2023-01-01") LNone
     = Raise TypeError
  /\ (match utcoffset nov_5_0130_est, utcoffset nov_5_0145_edt with
      | Some start_offset, Some end_offset =>
          wall_micros nov_5_0145_edt - end_offset
          < wall_micros nov_5_0130_est - start_offset
      | _, _ => False
      end)
  /\ validate_search_params two_dates (DDatetime nov_5_0130_est)
       (DDatetime nov_5_0145_edt) LNone
     = Ok {| p_start_date := Some (Some nov_5_0130_est);
             p_end_date := Some (Some nov_5_0145_edt);
             p_limit := None |}.
Proof.
  split; [reflexivity|]. split; [reflexivity|]. split; [reflexivity|].
  split; [reflexivity|]. split; [|reflexivity].
  vm_compute. reflexivity.
Qed.

Lemma validate_caps_limit_witness :
  exists v',
    validate_search_params two_dates (DStr "2023-01-01") (DStr "2023-12-31")
      (LInt 5000)
    = Ok {| p_start_date := Some (Some jan_1);
            p_end_date := Some (Some dec_31);
            p_limit := Some v' |}
    /\ int_value v' = Z.min 5000 1000
    /\ (1000 < 5000 -> v' = IInt 1000).
Proof.
  apply (validate_caps_limit two_dates (DStr "2023-01-01")
           (DStr "2023-12-31") (LInt 5000)
           {| p_start_date := Some (Some jan_1);
              p_end_date := Some (Some dec_31);
              p_limit := None |}).
  - reflexivity.
  - discriminate.
Defined.

Lemma validate_skips_empty_date_string_witness :
  validate_search_params two_dates (DStr "") (DStr "") LNone
  = Ok empty_params
  /\ validate_date two_dates (DStr "")
     = Raise (ValueError "Invalid date format: ")
  /\ validate_search_params two_dates (DStr "next week") DNone LNone
     = Raise (ValueError "Invalid date format: next week")
  /\ validate_search_params two_dates DNone (DStr "next week") LNone
     = Raise (ValueError "Invalid date format: next week")
  /\ validate_search_params two_dates (DStr "") (DStr "2023-12-31") LNone
     = Ok {| p_start_date := None; p_end_date := Some (Some dec_31);
             p_limit := None |}.
Proof.
  destruct (validate_skips_empty_date_string two_dates (DStr "")
              "next week" (ValueError "Unknown string format"))
    as ((_ & H0) & _ & _ & _ & _ & H5 & H6 & H7 & H8 & _).
  - reflexivity.
  - discriminate.
  - reflexivity.
  - left. reflexivity.
  - split; [exact H5|]. split.
    + apply (H0 (ValueError "Unknown string format")); reflexivity.
    + split; [exact (H6 DNone LNone)|]. split.
      * apply (H7 DNone LNone). left. reflexivity.
      * apply (H8 "2023-12-31" dec_31); [discriminate | reflexivity].
Defined.

End ParameterValidator.

(* ------------------------------------------------------------------ *)
(** ** DocumentParser: [_parse_html] *)

Module DocumentParser.

Import Validation.
Local Open Scope string_scope.

Section Parser.

Variable Soup : Type.
Variable BeautifulSoup : option string -> Features -> Result Soup.

(** The only exception [_parse_html] raises is [ParsingError], and it
    raises it exactly when both builders raise. *)
Lemma parse_html_fails_iff (content : option string) (e : Exn) :
  _parse_html BeautifulSoup content = Raise e
  <-> (exists e1 e2,
          BeautifulSoup content Lxml = Raise e1
          /\ BeautifulSoup content HtmlParser = Raise e2
          /\ e = ParsingError (Some e2)).
Proof.
  unfold _parse_html.
  destruct (BeautifulSoup content Lxml) as [t1|e1].
  - split; [discriminate|]. intros (x & y & H & _). discriminate H.
  - destruct (BeautifulSoup content HtmlParser) as [t2|e2].
    + split; [discriminate|]. intros (x & y & _ & H & _). discriminate H.
    + split.
      * intro H. injection H as <-. exists e1, e2. auto.
      * intros (x & y & _ & H & ->). injection H as <-. reflexivity.
Qed.

(** C8, as the code has it.  [_parse_html] fails with [ParsingError]
    on the null input when both builders raise on it.  On every
    string the fallback builder accepts, malformed or well-formed, and
    on the empty string too, as there is no check for emptiness, it
    returns a tree and does not raise: the primary builder's when
    that succeeds, the fallback's otherwise.  It raises on no input
    one of the builders accepts, and what it raises is the
    [ParsingError] that wraps the fallback's exception. *)
Theorem parse_html_fails_on_null_and_builds_every_string :
  ((exists e, BeautifulSoup None Lxml = Raise e) ->
   (exists e, BeautifulSoup None HtmlParser = Raise e) ->
   exists e,
     _parse_html BeautifulSoup None = Raise (ParsingError (Some e)))
  /\ (forall markup t,
         BeautifulSoup (Some markup) HtmlParser = Ok t ->
         exists t',
           _parse_html BeautifulSoup (Some markup) = Ok t'
           /\ (BeautifulSoup (Some markup) Lxml = Ok t'
               \/ ((exists e, BeautifulSoup (Some markup) Lxml = Raise e)
                   /\ t' = t)))
  /\ (forall content t,
         BeautifulSoup content Lxml = Ok t ->
         _parse_html BeautifulSoup content = Ok t)
  /\ (forall content e,
         _parse_html BeautifulSoup content = Raise e ->
         exists e1 e2,
           BeautifulSoup content Lxml = Raise e1
           /\ BeautifulSoup content HtmlParser = Raise e2
           /\ e = ParsingError (Some e2)).
Proof.
  split; [|split; [|split]].
  - intros [e1 H1] [e2 H2]. exists e2.
    unfold _parse_html. rewrite H1, H2. reflexivity.
  - intros markup t H2. unfold _parse_html.
    destruct (BeautifulSoup (Some markup) Lxml) as [t1|e1] eqn:E1.
    + exists t1. auto.
    + rewrite H2. exists t. split; [reflexivity|]. right.
      split; [eauto | reflexivity].
  - intros content t H1. unfold _parse_html. rewrite H1. reflexivity.
  - intros content e. unfold _parse_html.
    destruct (BeautifulSoup content Lxml) as [t1|e1]; [discriminate|].
    destruct (BeautifulSoup content HtmlParser) as [t2|e2];
      [discriminate|].
    intro H. injection H as <-. exists e1, e2. auto.
Qed.

End Parser.

Import Fixtures.

Lemma parse_html_witness :
  (exists e, _parse_html lenient_soup None = Raise (ParsingError (Some e)))
  /\ (forall markup,
         exists t,
           _parse_html lenient_soup (Some markup) = Ok t
           /\ (lenient_soup (Some markup) Lxml = Ok t
               \/ ((exists e, lenient_soup (Some markup) Lxml = Raise e)
                   /\ t = markup))).
Proof.
  destruct (parse_html_fails_on_null_and_builds_every_string string
              lenient_soup) as (Hnull & Hstr & _).
  split.
  - apply Hnull; exists TypeError; reflexivity.
  - intro markup. apply Hstr. reflexivity.
Defined.

(** C8 fails as stated.  The empty string is not rejected: with builders
    that accept every string, [_parse_html] returns the tree they build
    from it. *)
Lemma parse_html_accepts_empty_string :
  _parse_html lenient_soup (Some "") = Ok ""
  /\ raised_class (_parse_html lenient_soup (Some "")) = None.
Proof. split; reflexivity. Qed.

End DocumentParser.

(* ------------------------------------------------------------------ *)
(** ** SourceAdapter: [search_cases] and [get_case_by_id] *)

Module SourceAdapter.

Import Base Validation Scrapers.
Local Open Scope string_scope.
Local Open Scope monad_scope.

Section Adapters.

Variables Soup Json Item CaseData : Type.
Variable cfg : ScraperConfig.
Variable transport : Transport.
Variable parse : string -> Result datetime.
Variable BeautifulSoup : option string -> Features -> Result Soup.
Variable re_match : string -> string -> bool.
Variable isdigit : string -> bool.
Variable build_search :
  Adapter -> option string -> SearchParams -> option string -> Kwargs ->
  string * list (string * string).
Variable find_all : Adapter -> Soup -> list Item.
Variable href : Item -> string.
Variable response_json : Response -> Result Json.
Variable json_results : Json -> Result (list Item).
Variable parse_search_result : Adapter -> Item -> M (option CaseData).
Variable parse_case_detail : Adapter -> Soup -> string -> M (option CaseData).
Variable parse_opinion_detail : Json -> M (option CaseData).
Variable parse_cluster_detail : Json -> M (option CaseData).
Variable findlaw_case : Soup -> string -> Result CaseData.

(** One turn of the result loop: a record is kept, a record that is
    [None] or whose extraction raised is skipped, and the loop goes on
    in either case. *)
Lemma collect_step (a : Adapter) (item : Item) (rest : list Item)
  (cases : list CaseData) (w : World) :
  collect cfg transport BeautifulSoup href parse_search_result
    findlaw_case a (item :: rest) cases w
  = match extract cfg transport BeautifulSoup href parse_search_result
            findlaw_case a item w with
    | (Ok (Some c), w1) =>
        collect cfg transport BeautifulSoup href parse_search_result
          findlaw_case a rest (cases ++ [c])%list w1
    | (Ok None, w1) | (Raise _, w1) =>
        collect cfg transport BeautifulSoup href parse_search_result
          findlaw_case a rest cases w1
    end.
Proof.
  cbn [collect]. unfold bind at 1. unfold try_except, bind, ret.
  destruct (extract cfg transport BeautifulSoup href parse_search_result
              findlaw_case a item w) as [[[c|]|e] w1]; reflexivity.
Qed.

(** The result loop never raises. *)
Lemma collect_returns (a : Adapter) (items : list Item) :
  forall (cases : list CaseData) (w : World),
  exists cases' w',
    collect cfg transport BeautifulSoup href parse_search_result
      findlaw_case a items cases w = (Ok cases', w').
Proof.
  induction items as [|item rest IH]; intros cases w.
  - exists cases, w. reflexivity.
  - rewrite collect_step.
    destruct (extract cfg transport BeautifulSoup href parse_search_result
                findlaw_case a item w) as [[[c|]|e] w1]; apply IH.
Qed.

(** C5, as the code has it.  In every adapter's [search_cases]:
    an error of the parameter validation propagates unchanged; an
    exception of the request propagates unchanged from CourtListener
    (a JSON decoding error apart) and is re-raised as a [ParsingError]
    that wraps it by every other adapter, as is a failure to parse the
    page; once the results are located the call returns, each record
    whose extraction raised or gave [None] being skipped and each
    extracted record kept in order. *)
Theorem search_cases_error_policy (a : Adapter) (query : option string)
  (start_date end_date : DateInput) (court : option string)
  (limit : LimitArg) (kwargs : Kwargs) (w : World) :
  (forall e,
      validate_search_params parse start_date end_date limit = Raise e ->
      search_cases cfg transport parse BeautifulSoup build_search find_all
        href response_json json_results parse_search_result findlaw_case
        a query start_date end_date court limit kwargs w
      = (Raise e, w))
  /\ (forall p url search_params,
         validate_search_params parse start_date end_date limit = Ok p ->
         build_search a query p court kwargs = (url, search_params) ->
         (forall e w1,
             get cfg transport url search_params w = (Raise e, w1) ->
             (a = CourtListener -> e <> JSONDecodeError ->
              search_cases cfg transport parse BeautifulSoup build_search
                find_all href response_json json_results
                parse_search_result findlaw_case
                a query start_date end_date court limit kwargs w
              = (Raise e, w1))
             /\ (a <> CourtListener ->
                 search_cases cfg transport parse BeautifulSoup
                   build_search find_all href response_json json_results
                   parse_search_result findlaw_case
                   a query start_date end_date court limit kwargs w
                 = (Raise (ParsingError (Some e)), w1)))
         /\ (forall response w1 e,
                a <> CourtListener ->
                get cfg transport url search_params w = (Ok response, w1) ->
                _parse_html BeautifulSoup (Some (text response)) = Raise e ->
                search_cases cfg transport parse BeautifulSoup build_search
                  find_all href response_json json_results
                  parse_search_result findlaw_case
                  a query start_date end_date court limit kwargs w
                = (Raise (ParsingError (Some e)), w1))
         /\ (forall items w1,
                fetch_results cfg transport BeautifulSoup find_all
                  response_json json_results a url search_params p w
                = (Ok items, w1) ->
                search_cases cfg transport parse BeautifulSoup build_search
                  find_all href response_json json_results
                  parse_search_result findlaw_case
                  a query start_date end_date court limit kwargs w
                = collect cfg transport BeautifulSoup href
                    parse_search_result findlaw_case a items [] w1
                /\ exists cases w2,
                    collect cfg transport BeautifulSoup href
                      parse_search_result findlaw_case a items [] w1
                    = (Ok cases, w2)))
  /\ (forall item rest cases w0,
         collect cfg transport BeautifulSoup href parse_search_result
           findlaw_case a (item :: rest) cases w0
         = match extract cfg transport BeautifulSoup href
                   parse_search_result findlaw_case a item w0 with
           | (Ok (Some c), w1) =>
               collect cfg transport BeautifulSoup href
                 parse_search_result findlaw_case a rest
                 (cases ++ [c])%list w1
           | (Ok None, w1) | (Raise _, w1) =>
               collect cfg transport BeautifulSoup href
                 parse_search_result findlaw_case a rest cases w1
           end).
Proof.
  split; [|split].
  - intros e V. unfold search_cases, bind, lift. rewrite V. reflexivity.
  - intros p url sp V B.
    assert (S : search_cases cfg transport parse BeautifulSoup build_search
                  find_all href response_json json_results
                  parse_search_result findlaw_case
                  a query start_date end_date court limit kwargs w
                = (items <- fetch_results cfg transport BeautifulSoup
                              find_all response_json json_results a url sp
                              p ;;
                   collect cfg transport BeautifulSoup href
                     parse_search_result findlaw_case a items []) w).
    { unfold search_cases. unfold bind at 1. unfold lift.
      rewrite V, B. reflexivity. }
    rewrite S. clear S. split; [|split].
    + intros e w1 G. split.
      * intros -> Hj. unfold bind at 1. unfold fetch_results.
        unfold bind at 1. unfold bind at 1. rewrite G.
        destruct e; try reflexivity. congruence.
      * intro Hn. unfold bind at 1.
        destruct a; try congruence;
          unfold fetch_results, bind, try_except, raise;
          rewrite G; reflexivity.
    + intros response w1 e Hn G P. unfold bind at 1.
      destruct a; try congruence;
        unfold fetch_results, bind, try_except, raise, lift;
        rewrite G, P; reflexivity.
    + intros items w1 F. unfold bind at 1. rewrite F.
      split; [reflexivity|]. apply collect_returns.
  - intros item rest cases w0. apply collect_step.
Qed.

(** C9, as the code has it.  For a [case_id] that is not empty, does
    not start with "http" and is not of the form the adapter turns into
    a page URL of its own (a path prefix of the site, a "/", a
    [case_id] of digits only as [str.isdigit] tells it, whatever the
    Unicode database counts as digits; so for no [case_id] with
    CourtListener and FindLaw, which always build a URL),
    [get_case_by_id] calls
    [search_cases] with [limit = 1] and with the [case_id] as query,
    CanLII with the query [citation:"case_id"]; it returns the first
    case of the result, [None] when the result is empty, and lets an
    exception of the search through. *)
Theorem get_case_by_id_search_fallback (a : Adapter)
  (search : SearchMethod CaseData) (case_id : string) (w : World) :
  case_id <> "" ->
  Py.startswith case_id "http" = false ->
  url_form isdigit a case_id = false ->
  get_case_by_id cfg transport BeautifulSoup re_match isdigit
    response_json parse_case_detail parse_opinion_detail
    parse_cluster_detail findlaw_case a search case_id w
  = match search (Some (fallback_query a case_id)) DNone DNone None
            (LInt 1) [] w with
    | (Ok cases, w') => (Ok (hd_error cases), w')
    | (Raise e, w') => (Raise e, w')
    end.
Proof.
  intros Hne Hh Hu. unfold get_case_by_id.
  destruct case_id as [|c s]; [congruence|]. cbn [Py.truthy_str negb].
  assert (R : a <> CourtListener -> a <> FindLaw ->
              resolve re_match isdigit a (String c s)
              = Search (fallback_query a (String c s))).
  { intros _ _. unfold resolve. rewrite Hh.
    destruct a; cbn [url_form] in Hu; rewrite ?Hu;
      try reflexivity; try discriminate;
      match goal with
      | |- (if ?b then _ else _) = _ => destruct b; reflexivity
      end. }
  destruct a; cbn [url_form] in Hu; try discriminate;
    (rewrite R by discriminate; unfold first_hit, bind, ret;
     destruct (search _ _ _ _ _ _ w) as [[cases|e] w']; reflexivity).
Qed.

(** A [case_id] that starts with "http" or has the form the adapter
    turns into a URL is never searched for; CourtListener and FindLaw
    never call [search_cases]. *)
Lemma get_case_by_id_without_search (a : Adapter)
  (search search' : SearchMethod CaseData) (case_id : string) :
  a = CourtListener \/ a = FindLaw
  \/ Py.startswith case_id "http" = true
  \/ url_form isdigit a case_id = true ->
  get_case_by_id cfg transport BeautifulSoup re_match isdigit
    response_json parse_case_detail parse_opinion_detail
    parse_cluster_detail findlaw_case a search case_id
  = get_case_by_id cfg transport BeautifulSoup re_match isdigit
      response_json parse_case_detail parse_opinion_detail
      parse_cluster_detail findlaw_case a search' case_id.
Proof.
  intros [-> | [-> | H]]; try reflexivity.
  unfold get_case_by_id.
  destruct (negb (Py.truthy_str case_id)); [reflexivity|].
  assert (R : a <> CourtListener -> a <> FindLaw ->
              exists url, resolve re_match isdigit a case_id = Fetch url).
  { intros _ _. unfold resolve.
    destruct (Py.startswith case_id "http") eqn:Hh;
      [destruct a; eauto|].
    destruct H as [H|H]; [discriminate H|].
    destruct a; cbn [url_form] in H; try discriminate H;
      rewrite ?H; eauto. }
  destruct a; try reflexivity;
    (destruct R as [url ->]; [discriminate | discriminate | reflexivity]).
Qed.

End Adapters.

Import Fixtures.

Lemma search_cases_error_policy_witness :
  fst (demo_search (always 404 []) CourtListener)
  = Raise (NetworkError HttpStatus
             "https://www.courtlistener.com/api/rest/v3/search/" (Some 404%Z))
  /\ fst (demo_search (always 404 []) BAILII)
     = Raise (ParsingError
                (Some (NetworkError HttpStatus
                         "https://www.bailii.org/cgi-bin/markup.cgi"
                         (Some 404%Z))))
  /\ fst (demo_search (always 200 []) AustLII)
     = Ok ["Donoghue v Stevenson"; "Carlill v Carbolic Smoke Ball Co"].
Proof.
  unfold demo_search, demo_search_cases.
  split; [|split].
  - destruct (search_cases_error_policy string string string string
                no_retries (always 404 []) two_dates
                lenient_soup demo_build_search demo_find_all
                (fun item => item) (fun response => Ok (text response))
                (fun data => Ok (demo_find_all CourtListener data))
                demo_parse_search_result (fun _ url => Ok url)
                CourtListener (Some "human rights") DNone DNone None
                (LInt 10) [] start) as (_ & H & _).
    edestruct H as (G & _); [reflexivity | reflexivity |].
    edestruct G as (Gc & _); [reflexivity|].
    rewrite Gc; [reflexivity | reflexivity | discriminate].
  - destruct (search_cases_error_policy string string string string
                no_retries (always 404 []) two_dates
                lenient_soup demo_build_search demo_find_all
                (fun item => item) (fun response => Ok (text response))
                (fun data => Ok (demo_find_all CourtListener data))
                demo_parse_search_result (fun _ url => Ok url)
                BAILII (Some "human rights") DNone DNone None
                (LInt 10) [] start) as (_ & H & _).
    edestruct H as (G & _); [reflexivity | reflexivity |].
    edestruct G as (_ & Gn); [reflexivity|].
    rewrite Gn; [reflexivity | discriminate].
  - destruct (search_cases_error_policy string string string string
                no_retries (always 200 []) two_dates
                lenient_soup demo_build_search demo_find_all
                (fun item => item) (fun response => Ok (text response))
                (fun data => Ok (demo_find_all CourtListener data))
                demo_parse_search_result (fun _ url => Ok url)
                AustLII (Some "human rights") DNone DNone None
                (LInt 10) [] start) as (_ & H & _).
    edestruct H as (_ & _ & G); [reflexivity | reflexivity |].
    edestruct G as (Gs & _); [reflexivity|].
    rewrite Gs. reflexivity.
Defined.

(** C5 fails as stated.  With BAILII, a 404 makes the request raise a
    [NetworkError] and a 429 a [RateLimitError], and [search_cases]
    raises a [ParsingError] in both cases. *)
Lemma search_cases_rewraps_request_errors :
  raised_class
    (fst (get no_retries (always 404 [])
            "https://www.bailii.org/cgi-bin/markup.cgi"
            [("query", "human rights")] start))
  = Some CNetworkError
  /\ raised_class (fst (demo_search (always 404 []) BAILII))
     = Some CParsingError
  /\ raised_class
       (fst (get no_retries (always 429 [("Retry-After", "60")])
               "https://www.bailii.org/cgi-bin/markup.cgi"
               [("query", "human rights")] start))
     = Some CRateLimitError
  /\ raised_class
       (fst (demo_search (always 429 [("Retry-After", "60")]) BAILII))
     = Some CParsingError.
Proof. vm_compute. repeat split. Qed.

Lemma get_case_by_id_search_fallback_witness :
  demo_get_case_by_id no_retries (always 404 []) SupremeCourtJapan finds_one
    "2020 (Ju) 123" start
  = (Ok (Some "Roe v. Wade"), start)
  /\ demo_get_case_by_id no_retries (always 404 []) IndianKanoon
       (finds_exactly "AIR 1973 SC 1461") "AIR 1973 SC 1461" start
     = (Ok (Some "R. v. Oakes"), start).
Proof.
  unfold demo_get_case_by_id. split.
  - rewrite get_case_by_id_search_fallback;
      [reflexivity | discriminate | reflexivity | reflexivity].
  - rewrite get_case_by_id_search_fallback;
      [reflexivity | discriminate | reflexivity | reflexivity].
Defined.

(** C9 fails as stated.  CourtListener requests its two endpoints and
    returns [None] although a search for the identifier would find a
    case; CanLII searches, but for [citation:"2023scc15"], not for the
    identifier, and misses the case filed under it. *)
Lemma get_case_by_id_is_not_always_a_search :
  fst (demo_get_case_by_id no_retries (always 404 []) CourtListener
         finds_one "12345" start)
  = Ok None
  /\ fst (first_hit finds_one "12345" start)
     = Ok (Some "Roe v. Wade")
  /\ fst (demo_get_case_by_id no_retries (always 404 []) CanLII
            (finds_exactly "2023scc15") "2023scc15" start)
     = Ok None
  /\ fst (first_hit (finds_exactly "2023scc15") "2023scc15" start)
     = Ok (Some "R. v. Oakes").
Proof. vm_compute. repeat split. Qed.

End SourceAdapter.

(* ------------------------------------------------------------------ *)
(** ** RateLimiter: [_respect_rate_limit] *)

Module RateLimiter.

Import Base Observe PipelineFacts.
Local Open Scope Q_scope.

Lemma Qlt_bool_le_false (x y : Q) : y <= x -> Qlt_bool x y = false.
Proof.
  intro H. unfold Qlt_bool. apply negb_false_iff.
  apply Qle_bool_iff. exact H.
Qed.

(** X2.  [_respect_rate_limit] does not sleep when [rate_limit] is zero
    or negative, nor when [rate_limit] seconds have passed since
    [_last_request_time]: the world is left as it was, the log entry
    apart. *)
Theorem respect_rate_limit_does_not_block (cfg : ScraperConfig)
  (w : World) :
  rate_limit cfg <= 0
  \/ rate_limit cfg <= now w - _last_request_time w ->
  _respect_rate_limit cfg w = (Ok tt, log EvAwaitSlot w).
Proof.
  intro H. unfold _respect_rate_limit.
  destruct (Qlt_bool 0 (rate_limit cfg)) eqn:E0; [|reflexivity].
  apply Qlt_bool_true_lt in E0.
  destruct H as [H|H]; [lra|].
  cbn [log now _last_request_time].
  rewrite (Qlt_bool_le_false _ _ H). reflexivity.
Qed.

Import Fixtures.

Lemma respect_rate_limit_does_not_block_witness :
  _respect_rate_limit default_config start = (Ok tt, log EvAwaitSlot start).
Proof.
  apply respect_rate_limit_does_not_block.
  right. cbn. unfold Qle. cbn. lia.
Defined.

End RateLimiter.

(* ------------------------------------------------------------------ *)
(** ** RequestExecutor: the retry loop on every transport *)

Module RetryLoop.

Import Base Observe Verdict PipelineFacts RequestExecutor RateLimiter.
Local Open Scope Q_scope.

Lemma total_backoff_app (l1 l2 : list Event) :
  total_backoff (l1 ++ l2) == total_backoff l1 + total_backoff l2.
Proof.
  induction l1 as [|e l1 IH]; cbn [app total_backoff fold_right].
  - fold (total_backoff l2). lra.
  - fold (total_backoff (l1 ++ l2)). fold (total_backoff l1).
    destruct e as [|[|] d|a u|t]; lra.
Qed.

Lemma total_backoff_schedule (evs : list Event) :
  total_backoff (schedule evs) == total_backoff evs.
Proof.
  induction evs as [|e evs IH]; [reflexivity|].
  destruct e as [|[|] d|a u|t]; cbn [schedule filter total_backoff fold_right];
    fold (schedule evs); fold (total_backoff (schedule evs));
    fold (total_backoff evs); lra.
Qed.

Section Loop.

Variable cfg : ScraperConfig.
Variable transport : Transport.

Lemma backoff_delay_mono (a b : nat) :
  0 <= retry_delay cfg -> (a <= b)%nat ->
  backoff_delay cfg a <= backoff_delay cfg b.
Proof.
  intros D L. induction L as [|b L IH]; [lra|].
  pose proof (backoff_delay_double cfg b) as Hd.
  pose proof (backoff_delay_nonneg cfg b D) as Hn.
  lra.
Qed.

Lemma total_backoff_retry_schedule (url : string) (k : nat) :
  forall a,
    total_backoff (retry_schedule cfg url a k)
    == backoff_delay cfg (a + k) - backoff_delay cfg a.
Proof.
  induction k as [|k IH]; intro a.
  - rewrite Nat.add_0_r. cbn. lra.
  - unfold retry_schedule in *. cbn [seq flat_map app].
    cbn [total_backoff fold_right].
    fold (total_backoff
            (flat_map
               (fun a0 => [EvRequest a0 url;
                           EvSleep Backoff (backoff_delay cfg a0)])
               (seq (S a) k))).
    rewrite IH.
    replace (a + S k)%nat with (S a + k)%nat by lia.
    pose proof (backoff_delay_double cfg a) as Hd. lra.
Qed.

(** One iteration of the loop: it issues one request, and then either
    ends the call, with the verdict on the outcome, or sleeps and goes
    on with the next attempt. *)
Lemma attempts_step (req : Request) (rem a : nat) (w : World) :
  exists w1 evs1,
    calls w1 = S (calls w)
    /\ trace w1 = (trace w ++ evs1)%list
    /\ total_backoff evs1 == 0
    /\ ((retriable (fst (transport (calls w) req)) = false
         /\ attempts cfg transport req (S rem) a w
            = (match fst (transport (calls w) req) with
               | Responded r => settled (req_url req) r
               | o => Raise (exhausted (req_url req) o)
               end, w1))
        \/ (retriable (fst (transport (calls w) req)) = true
            /\ (Z.of_nat a <? max_retries cfg)%Z = false
            /\ attempts cfg transport req (S rem) a w
               = (Raise (exhausted (req_url req)
                           (fst (transport (calls w) req))), w1))
        \/ (retriable (fst (transport (calls w) req)) = true
            /\ (Z.of_nat a <? max_retries cfg)%Z = true
            /\ Qle_bool 0 (backoff_delay cfg a) = false
            /\ attempts cfg transport req (S rem) a w
               = (Raise (ValueError "sleep length must be non-negative"),
                  w1))
        \/ (retriable (fst (transport (calls w) req)) = true
            /\ (Z.of_nat a <? max_retries cfg)%Z = true
            /\ Qle_bool 0 (backoff_delay cfg a) = true
            /\ exists w2,
                attempts cfg transport req (S rem) a w
                = attempts cfg transport req rem (S a) w2
                /\ calls w2 = S (calls w)
                /\ trace w2
                   = (trace w1
                      ++ [EvSleep Backoff (backoff_delay cfg a)])%list)).
Proof.
  cbn [attempts]. unfold session_request.
  destruct (transport (calls w) req) as [out took]. cbn [fst].
  assert (Retry : forall (w1 : World) (e : Exn),
             ((Z.of_nat a <? max_retries cfg)%Z = false
              /\ retry_or cfg a (attempts cfg transport req rem (S a)) e w1
                 = (Raise e, w1))
             \/ ((Z.of_nat a <? max_retries cfg)%Z = true
                 /\ Qle_bool 0 (backoff_delay cfg a) = false
                 /\ retry_or cfg a (attempts cfg transport req rem (S a))
                      e w1
                    = (Raise (ValueError "sleep length must be non-negative"),
                       w1))
             \/ ((Z.of_nat a <? max_retries cfg)%Z = true
                 /\ Qle_bool 0 (backoff_delay cfg a) = true
                 /\ exists w2,
                     retry_or cfg a (attempts cfg transport req rem (S a))
                       e w1
                     = attempts cfg transport req rem (S a) w2
                     /\ calls w2 = calls w1
                     /\ trace w2
                        = (trace w1
                           ++ [EvSleep Backoff (backoff_delay cfg a)])%list)).
  { intros w1 e. unfold retry_or.
    destruct (Z.of_nat a <? max_retries cfg)%Z; [|left; auto].
    right. unfold bind, sleep.
    destruct (Qle_bool 0 (backoff_delay cfg a)); [right|left; auto].
    repeat split. eexists. split; [reflexivity|]. split; reflexivity. }
  destruct out as [r| | | |e].
  - exists (stamp
              {| now := now w + took;
                 _last_request_time := _last_request_time w;
                 calls := S (calls w);
                 trace := trace w ++ [EvRequest a (req_url req)] |}),
      [EvRequest a (req_url req); EvStamp (now w + took)].
    split; [reflexivity|].
    split; [cbn; rewrite <- app_assoc; reflexivity|].
    split; [reflexivity|].
    cbn [retriable]. unfold settled.
    destruct (status_code r =? 200)%Z eqn:E200.
    { left. apply Z.eqb_eq in E200.
      split; [apply Z.leb_gt; lia | reflexivity]. }
    destruct (status_code r =? 429)%Z eqn:E429.
    { left. apply Z.eqb_eq in E429.
      split; [apply Z.leb_gt; lia|].
      destruct (Py.int _); reflexivity. }
    destruct ((status_code r =? 401)%Z || (status_code r =? 403)%Z)
      eqn:Eauth.
    { left. split; [|reflexivity].
      apply Z.leb_gt. apply orb_true_iff in Eauth.
      destruct Eauth as [E|E]; apply Z.eqb_eq in E; lia. }
    destruct (500 <=? status_code r)%Z eqn:E500; [|left; auto].
    right.
    destruct (Retry
                (stamp
                   {| now := now w + took;
                      _last_request_time := _last_request_time w;
                      calls := S (calls w);
                      trace := trace w ++ [EvRequest a (req_url req)] |})
                (NetworkError ServerError (req_url req)
                   (Some (status_code r))))
      as [(L & R)|[(L & N & R)|(L & N & w2 & R & C & T)]].
    + left. auto.
    + right. left. auto.
    + right. right. repeat split; auto. exists w2. auto.
  - exists {| now := now w + took;
              _last_request_time := _last_request_time w;
              calls := S (calls w);
              trace := trace w ++ [EvRequest a (req_url req)] |},
      [EvRequest a (req_url req)].
    split; [reflexivity|]. split; [reflexivity|]. split; [reflexivity|].
    right. cbn [retriable exhausted].
    destruct (Retry
                {| now := now w + took;
                   _last_request_time := _last_request_time w;
                   calls := S (calls w);
                   trace := trace w ++ [EvRequest a (req_url req)] |}
                (NetworkError RequestTimeout (req_url req) None))
      as [(L & R)|[(L & N & R)|(L & N & w2 & R & C & T)]].
    + left. auto.
    + right. left. auto.
    + right. right. repeat split; auto. exists w2. auto.
  - exists {| now := now w + took;
              _last_request_time := _last_request_time w;
              calls := S (calls w);
              trace := trace w ++ [EvRequest a (req_url req)] |},
      [EvRequest a (req_url req)].
    split; [reflexivity|]. split; [reflexivity|]. split; [reflexivity|].
    right. cbn [retriable exhausted].
    destruct (Retry
                {| now := now w + took;
                   _last_request_time := _last_request_time w;
                   calls := S (calls w);
                   trace := trace w ++ [EvRequest a (req_url req)] |}
                (NetworkError ConnectionFailed (req_url req) None))
      as [(L & R)|[(L & N & R)|(L & N & w2 & R & C & T)]].
    + left. auto.
    + right. left. auto.
    + right. right. repeat split; auto. exists w2. auto.
  - eexists; exists [EvRequest a (req_url req)].
    split; [|split; [|split; [|left; split; reflexivity]]]; reflexivity.
  - eexists; exists [EvRequest a (req_url req)].
    split; [|split; [|split; [|left; split; reflexivity]]]; reflexivity.
Qed.

(** A returned response has status 200 and came from the transport
    during the loop. *)
Lemma attempts_ok_is_200 (req : Request) :
  forall (rem a : nat) (w : World) (r : Response),
    fst (attempts cfg transport req rem a w) = Ok r ->
    status_code r = 200%Z
    /\ exists n,
        (calls w <= n < calls (snd (attempts cfg transport req rem a w)))%nat
        /\ fst (transport n req) = Responded r.
Proof.
  induction rem as [|rem IH]; intros a w r H; [discriminate H|].
  destruct (attempts_step req rem a w)
    as (w1 & evs1 & C1 & T1 & B1
        & [(R & E)|[(R & L & E)|[(R & L & N & E)
                                |(R & L & N & w2 & E & C2 & T2)]]]);
    rewrite E in *; cbn [fst snd] in *; try discriminate H.
  - destruct (fst (transport (calls w) req)) as [r0| | | |e] eqn:T;
      try discriminate H.
    unfold settled in H.
    destruct (status_code r0 =? 200)%Z eqn:E200.
    + injection H as <-. apply Z.eqb_eq in E200. split; [exact E200|].
      exists (calls w). split; [lia | exact T].
    + destruct (status_code r0 =? 429)%Z.
      { destruct (Py.int _); discriminate H. }
      destruct ((status_code r0 =? 401)%Z || (status_code r0 =? 403)%Z);
        discriminate H.
  - destruct (IH (S a) w2 r H) as (S200 & n & Hn & Tn).
    split; [exact S200|]. exists n. split; [lia | exact Tn].
Qed.

(** The loop issues at most one request per iteration, and at least
    one when it has an iteration to run. *)
Lemma attempts_call_count (req : Request) :
  forall (rem a : nat) (w : World),
    (calls w <= calls (snd (attempts cfg transport req rem a w))
     <= calls w + rem)%nat
    /\ ((1 <= rem)%nat ->
        (calls w < calls (snd (attempts cfg transport req rem a w)))%nat).
Proof.
  induction rem as [|rem IH]; intros a w.
  - cbn. lia.
  - destruct (attempts_step req rem a w)
      as (w1 & evs1 & C1 & T1 & B1
          & [(R & E)|[(R & L & E)|[(R & L & N & E)
                                  |(R & L & N & w2 & E & C2 & T2)]]]);
      rewrite E; cbn [fst snd]; try lia.
    destruct (IH (S a) w2) as [Hb _]. lia.
Qed.

(** The exceptions of the loop when the transport raises nothing but
    [requests]' exceptions and the delay is not negative. *)
Lemma attempts_raises (req : Request) :
  (forall n, crashed (fst (transport n req)) = false) ->
  0 <= retry_delay cfg ->
  forall (rem a : nat) (w : World) (e : Exn),
    fst (attempts cfg transport req rem a w) = Raise e ->
    class_of e = CNetworkError
    \/ class_of e = CRateLimitError
    \/ class_of e = CAuthenticationError
    \/ e = ValueError "invalid literal for int()".
Proof.
  intros NC D.
  induction rem as [|rem IH]; intros a w e H.
  - injection H as <-. left. reflexivity.
  - pose proof (NC (calls w)) as NCw.
    destruct (attempts_step req rem a w)
      as (w1 & evs1 & C1 & T1 & B1
          & [(R & E)|[(R & L & E)|[(R & L & N & E)
                                  |(R & L & N & w2 & E & C2 & T2)]]]);
      rewrite E in *; cbn [fst snd] in *.
    + destruct (fst (transport (calls w) req)) as [r0| | | |e0];
        cbn in R, NCw; try discriminate.
      * unfold settled in H.
        destruct (status_code r0 =? 200)%Z; [discriminate H|].
        destruct (status_code r0 =? 429)%Z.
        { destruct (Py.int _); injection H as <-; auto. }
        destruct ((status_code r0 =? 401)%Z || (status_code r0 =? 403)%Z);
          injection H as <-; auto.
      * injection H as <-. left. reflexivity.
    + destruct (fst (transport (calls w) req)) as [r0| | | |e0];
        cbn in R, NCw; try discriminate;
        injection H as <-; left; reflexivity.
    + pose proof (backoff_delay_nonneg cfg a D) as Hn.
      apply Qle_bool_true in Hn. congruence.
    + exact (IH (S a) w2 e H).
Qed.

(** The time the loop spends in backoff sleeps, counted from attempt
    [a], stays within what the remaining delays add up to. *)
Lemma attempts_backoff_budget (req : Request) :
  0 <= retry_delay cfg ->
  forall (rem a : nat) (w : World),
  exists evs,
    trace (snd (attempts cfg transport req rem a w))
    = (trace w ++ evs)%list
    /\ total_backoff evs + backoff_delay cfg a
       <= backoff_delay cfg (Nat.max a (Z.to_nat (max_retries cfg))).
Proof.
  intros D.
  assert (Base_case : forall a,
             0 + backoff_delay cfg a
             <= backoff_delay cfg (Nat.max a (Z.to_nat (max_retries cfg)))).
  { intro a.
    pose proof (backoff_delay_mono a
                  (Nat.max a (Z.to_nat (max_retries cfg))) D
                  (Nat.le_max_l _ _)).
    lra. }
  induction rem as [|rem IH]; intros a w.
  - exists []. cbn [attempts raise snd]. rewrite app_nil_r.
    split; [reflexivity|]. apply Base_case.
  - destruct (attempts_step req rem a w)
      as (w1 & evs1 & C1 & T1 & B1
          & [(R & E)|[(R & L & E)|[(R & L & N & E)
                                  |(R & L & N & w2 & E & C2 & T2)]]]);
      rewrite E; cbn [fst snd].
    + exists evs1. split; [exact T1|]. rewrite B1. apply Base_case.
    + exists evs1. split; [exact T1|]. rewrite B1. apply Base_case.
    + exists evs1. split; [exact T1|]. rewrite B1. apply Base_case.
    + destruct (IH (S a) w2) as (evs & Tr & Bd).
      exists (evs1 ++ [EvSleep Backoff (backoff_delay cfg a)] ++ evs)%list.
      split.
      * rewrite Tr, T2, T1. repeat rewrite <- app_assoc. reflexivity.
      * rewrite !total_backoff_app, B1.
        cbn [total_backoff fold_right].
        apply Z.ltb_lt in L.
        replace (Nat.max a (Z.to_nat (max_retries cfg)))
          with (Nat.max (S a) (Z.to_nat (max_retries cfg))) by lia.
        pose proof (backoff_delay_double cfg a) as Hd. lra.
Qed.

(** X3.  A response [_make_request] returns has status 200, and it is
    the response the transport gave to one of the requests of this
    call. *)
Theorem make_request_returns_only_200
  (url method : string) (params data : list (string * string))
  (hdrs : Py.Headers) (w : World) (r : Response) :
  fst (_make_request cfg transport url method params data hdrs w) = Ok r ->
  status_code r = 200%Z
  /\ exists n,
      (calls w <= n
       < calls (snd (_make_request cfg transport url method params data
                       hdrs w)))%nat
      /\ fst (transport n (build_request cfg url method params data hdrs))
         = Responded r.
Proof.
  destruct (make_request_unfold cfg transport url method params data hdrs w)
    as (w1 & pacing & E1 & C1 & _ & T1 & P1).
  rewrite E1. intro H.
  destruct (attempts_ok_is_200 _ _ _ _ _ H) as (S200 & n & Hn & Tn).
  split; [exact S200|]. exists n. split; [lia | exact Tn].
Qed.

(** The requests of one call, with a retry count that is not
    negative. *)
Lemma make_request_calls
  (url method : string) (params data : list (string * string))
  (hdrs : Py.Headers) (w : World) :
  (0 <= max_retries cfg)%Z ->
  (calls w + 1
   <= calls (snd (_make_request cfg transport url method params data hdrs w))
   <= calls w + Z.to_nat (max_retries cfg + 1))%nat.
Proof.
  intro Hm.
  destruct (make_request_unfold cfg transport url method params data hdrs w)
    as (w1 & pacing & E1 & C1 & _ & T1 & P1).
  rewrite E1.
  destruct (attempts_call_count
              (build_request cfg url method params data hdrs)
              (Z.to_nat (max_retries cfg + 1)) 0 w1) as [Hb Hl].
  assert (1 <= Z.to_nat (max_retries cfg + 1))%nat by lia.
  specialize (Hl H). lia.
Qed.

(** X4.  With a retry count that is not negative, a call of
    [_make_request] issues at least one request and at most
    [max_retries + 1], whatever the transport does. *)
Theorem make_request_request_count
  (url method : string) (params data : list (string * string))
  (hdrs : Py.Headers) (w : World) :
  (0 <= max_retries cfg)%Z ->
  (calls w + 1
   <= calls (snd (_make_request cfg transport url method params data hdrs w))
   <= calls w + Z.to_nat (max_retries cfg + 1))%nat.
Proof. apply make_request_calls. Qed.

(** X5.  After [k] retried attempts, a response with status 401 or 403
    ends the call with an [AuthenticationError] that carries the
    status, and a response with any other status below 500 (200 and
    429 apart) with a [NetworkError] that carries it; that request is
    the last of the call. *)
Theorem make_request_fails_on_client_status
  (url method : string) (params data : list (string * string))
  (hdrs : Py.Headers) (w : World) (k : nat) (r : Response) :
  0 <= retry_delay cfg ->
  (Z.of_nat k <= max_retries cfg)%Z ->
  (forall i, (i < k)%nat ->
             retriable
               (fst (transport (calls w + i)%nat
                       (build_request cfg url method params data hdrs)))
             = true) ->
  fst (transport (calls w + k)%nat
         (build_request cfg url method params data hdrs))
  = Responded r ->
  (status_code r < 500)%Z ->
  status_code r <> 200%Z ->
  status_code r <> 429%Z ->
  fst (_make_request cfg transport url method params data hdrs w)
  = Raise (if (status_code r =? 401)%Z || (status_code r =? 403)%Z
           then AuthenticationError url (status_code r)
           else NetworkError HttpStatus url (Some (status_code r)))
  /\ calls (snd (_make_request cfg transport url method params data hdrs w))
     = (calls w + k + 1)%nat.
Proof.
  intros D Hk Hr Ht H500 H200 H429.
  set (req := build_request cfg url method params data hdrs) in *.
  destruct (make_request_unfold cfg transport url method params data hdrs w)
    as (w1 & pacing & E1 & C1 & _ & T1 & P1).
  fold req in E1. rewrite E1.
  replace (Z.to_nat (max_retries cfg + 1))
    with (k + S (Z.to_nat (max_retries cfg) - k))%nat by lia.
  destruct (attempts_retries cfg transport req k
              (S (Z.to_nat (max_retries cfg) - k)) 0 w1)
    as (w2 & evs & E2 & C2 & T2 & S2 & A2).
  - intros i Hi. rewrite C1. apply Hr. exact Hi.
  - lia.
  - exact D.
  - rewrite E2. cbn [Nat.add].
    destruct (attempts_step req (Z.to_nat (max_retries cfg) - k) k w2)
      as (w3 & evs1 & C3 & T3 & B3 & Cases).
    rewrite C2, C1, Ht in Cases. cbn [retriable] in Cases.
    assert (Hlt : (500 <=? status_code r)%Z = false)
      by (apply Z.leb_gt; exact H500).
    rewrite Hlt in Cases.
    destruct Cases as [(_ & E)|[(R & _)|[(R & _)|(R & _)]]];
      try discriminate R.
    rewrite E. cbn [fst snd]. split; [|lia].
    unfold settled.
    replace (status_code r =? 200)%Z with false
      by (symmetry; apply Z.eqb_neq; exact H200).
    replace (status_code r =? 429)%Z with false
      by (symmetry; apply Z.eqb_neq; exact H429).
    destruct ((status_code r =? 401)%Z || (status_code r =? 403)%Z);
      reflexivity.
Qed.

(** X6.  After [k] retried attempts, a response with status 429 ends
    the call with a [RateLimitError] that carries the integer of its
    [Retry-After] header, or 60 when it has none; the 429 is not
    retried. *)
Theorem make_request_rate_limited_after_retries
  (url method : string) (params data : list (string * string))
  (hdrs : Py.Headers) (w : World) (k : nat) (r : Response)
  (retry_after : Z) :
  0 <= retry_delay cfg ->
  (Z.of_nat k <= max_retries cfg)%Z ->
  (forall i, (i < k)%nat ->
             retriable
               (fst (transport (calls w + i)%nat
                       (build_request cfg url method params data hdrs)))
             = true) ->
  fst (transport (calls w + k)%nat
         (build_request cfg url method params data hdrs))
  = Responded r ->
  status_code r = 429%Z ->
  match Py.headers_lookup (headers r) "Retry-After" with
  | Some v => Py.int_of_str v
  | None => Some 60%Z
  end = Some retry_after ->
  fst (_make_request cfg transport url method params data hdrs w)
  = Raise (RateLimitError retry_after url)
  /\ calls (snd (_make_request cfg transport url method params data hdrs w))
     = (calls w + k + 1)%nat.
Proof.
  intros D Hk Hr Ht H429 Hra.
  set (req := build_request cfg url method params data hdrs) in *.
  destruct (make_request_unfold cfg transport url method params data hdrs w)
    as (w1 & pacing & E1 & C1 & _ & T1 & P1).
  fold req in E1. rewrite E1.
  replace (Z.to_nat (max_retries cfg + 1))
    with (k + S (Z.to_nat (max_retries cfg) - k))%nat by lia.
  destruct (attempts_retries cfg transport req k
              (S (Z.to_nat (max_retries cfg) - k)) 0 w1)
    as (w2 & evs & E2 & C2 & T2 & S2 & A2).
  - intros i Hi. rewrite C1. apply Hr. exact Hi.
  - lia.
  - exact D.
  - rewrite E2. cbn [Nat.add].
    destruct (attempts_step req (Z.to_nat (max_retries cfg) - k) k w2)
      as (w3 & evs1 & C3 & T3 & B3 & Cases).
    rewrite C2, C1, Ht in Cases. cbn [retriable] in Cases.
    rewrite H429 in Cases. cbn [Z.leb Z.compare Pos.compare
                                  Pos.compare_cont] in Cases.
    destruct Cases as [(_ & E)|[(R & _)|[(R & _)|(R & _)]]];
      try discriminate R.
    rewrite E. cbn [fst snd]. split; [|lia].
    unfold settled. rewrite H429. cbn [Z.eqb Pos.eqb].
    unfold Py.headers_get.
    destruct (Py.headers_lookup (headers r) "Retry-After") as [v|].
    + cbn [Py.int]. rewrite Hra. reflexivity.
    + injection Hra as <-. reflexivity.
Qed.

(** X7.  With a negative retry count the loop has no iteration:
    [_make_request] issues no request and raises the [NetworkError]
    that follows the loop. *)
Theorem make_request_without_attempts
  (url method : string) (params data : list (string * string))
  (hdrs : Py.Headers) (w : World) :
  (max_retries cfg < 0)%Z ->
  fst (_make_request cfg transport url method params data hdrs w)
  = Raise (NetworkError RetriesExhausted url None)
  /\ calls (snd (_make_request cfg transport url method params data hdrs w))
     = calls w
  /\ count_requests
       (events_since w
          (snd (_make_request cfg transport url method params data hdrs w)))
     = 0%nat.
Proof.
  intro Hm.
  destruct (make_request_unfold cfg transport url method params data hdrs w)
    as (w1 & pacing & E1 & C1 & _ & T1 & P1).
  rewrite E1.
  replace (Z.to_nat (max_retries cfg + 1)) with 0%nat by lia.
  cbn [attempts raise fst snd].
  split; [reflexivity|]. split; [exact C1|].
  rewrite (events_since_app w w1 _ T1).
  destruct (schedule_pacing pacing P1) as (_ & Hc & _). exact Hc.
Qed.

(** X8.  When every one of the [max_retries + 1] attempts ends in a
    timeout, a connection error or a status of 500 or more, the call
    raises the [NetworkError] of the last attempt's outcome (with the
    status, for a response) after exactly [max_retries + 1] requests,
    having slept [retry_delay * (2^max_retries - 1)] seconds of
    backoff in all. *)
Theorem make_request_exhausts_retries
  (url method : string) (params data : list (string * string))
  (hdrs : Py.Headers) (w : World) :
  (0 <= max_retries cfg)%Z ->
  0 <= retry_delay cfg ->
  (forall i, (i <= Z.to_nat (max_retries cfg))%nat ->
             retriable
               (fst (transport (calls w + i)%nat
                       (build_request cfg url method params data hdrs)))
             = true) ->
  fst (_make_request cfg transport url method params data hdrs w)
  = Raise
      (match fst (transport (calls w + Z.to_nat (max_retries cfg))%nat
                    (build_request cfg url method params data hdrs)) with
       | Responded r =>
           NetworkError ServerError url (Some (status_code r))
       | ConnectionRefused => NetworkError ConnectionFailed url None
       | _ => NetworkError RequestTimeout url None
       end)
  /\ calls (snd (_make_request cfg transport url method params data hdrs w))
     = (calls w + Z.to_nat (max_retries cfg + 1))%nat
  /\ total_backoff
       (events_since w
          (snd (_make_request cfg transport url method params data hdrs w)))
     == retry_delay cfg * (inject_Z (2 ^ max_retries cfg) - 1).
Proof.
  intros Hm D Hr.
  set (req := build_request cfg url method params data hdrs) in *.
  destruct (make_request_unfold cfg transport url method params data hdrs w)
    as (w1 & pacing & E1 & C1 & _ & T1 & P1).
  fold req in E1. rewrite E1.
  destruct (attempts_retries cfg transport req
              (Z.to_nat (max_retries cfg)) 1 0 w1)
    as (w2 & evs & E2 & C2 & T2 & S2 & A2).
  - intros i Hi. rewrite C1. apply Hr. lia.
  - lia.
  - exact D.
  - rewrite to_nat_retries_succ by lia. rewrite E2. cbn [Nat.add].
    destruct (attempts_step req 0 (Z.to_nat (max_retries cfg)) w2)
      as (w3 & evs1 & C3 & T3 & B3 & Cases).
    rewrite C2, C1 in Cases.
    pose proof (Hr (Z.to_nat (max_retries cfg)) (Nat.le_refl _)) as Rm.
    rewrite Rm in Cases.
    replace (Z.of_nat (Z.to_nat (max_retries cfg)) <? max_retries cfg)%Z
      with false in Cases by (symmetry; apply Z.ltb_ge; lia).
    destruct Cases as [(R & _)|[(_ & _ & E)|[(_ & L & _)|(_ & L & _)]]];
      try discriminate.
    rewrite E. cbn [fst snd]. split; [|split].
    + destruct (fst (transport (calls w + Z.to_nat (max_retries cfg))%nat
                       req)) as [r| | | |e];
        cbn in Rm; try discriminate; reflexivity.
    + lia.
    + erewrite events_since_app.
      2:{ rewrite T3, T2, T1. repeat rewrite <- app_assoc. reflexivity. }
      change (EvAwaitSlot :: pacing ++ evs ++ evs1)%list
        with ((EvAwaitSlot :: pacing) ++ evs ++ evs1)%list.
      rewrite !total_backoff_app, B3.
      rewrite <- (total_backoff_schedule evs), S2.
      rewrite total_backoff_retry_schedule.
      assert (Hp : total_backoff (EvAwaitSlot :: pacing) == 0)
        by (destruct P1 as [-> | [d ->]]; reflexivity).
      rewrite Hp. cbn [Nat.add]. unfold backoff_delay.
      rewrite Z2Nat.id by lia. cbn [Z.of_nat Z.pow].
      change (inject_Z (2 ^ 0)) with 1. ring.
Qed.

(** X9.  When the transport raises nothing but the exceptions of
    [requests] and the delay is not negative, an exception that leaves
    [_make_request] is a [NetworkError], a [RateLimitError], an
    [AuthenticationError], or the [ValueError] of a [Retry-After]
    value that is no integer. *)
Theorem make_request_raises
  (url method : string) (params data : list (string * string))
  (hdrs : Py.Headers) (w : World) (e : Exn) :
  (forall n,
      crashed (fst (transport n
                      (build_request cfg url method params data hdrs)))
      = false) ->
  0 <= retry_delay cfg ->
  fst (_make_request cfg transport url method params data hdrs w)
  = Raise e ->
  class_of e = CNetworkError
  \/ class_of e = CRateLimitError
  \/ class_of e = CAuthenticationError
  \/ e = ValueError "invalid literal for int()".
Proof.
  intros NC D.
  destruct (make_request_unfold cfg transport url method params data hdrs w)
    as (w1 & pacing & E1 & C1 & _ & T1 & P1).
  rewrite E1. apply attempts_raises; assumption.
Qed.

(** X10.  Whatever the transport does, with a retry count and a delay
    that are not negative, the backoff sleeps of one call add up to at
    most [retry_delay * (2^max_retries - 1)] seconds. *)
Theorem make_request_backoff_budget
  (url method : string) (params data : list (string * string))
  (hdrs : Py.Headers) (w : World) :
  (0 <= max_retries cfg)%Z ->
  0 <= retry_delay cfg ->
  total_backoff
    (events_since w
       (snd (_make_request cfg transport url method params data hdrs w)))
  <= retry_delay cfg * (inject_Z (2 ^ max_retries cfg) - 1).
Proof.
  intros Hm D.
  destruct (make_request_unfold cfg transport url method params data hdrs w)
    as (w1 & pacing & E1 & C1 & _ & T1 & P1).
  rewrite E1.
  destruct (attempts_backoff_budget
              (build_request cfg url method params data hdrs) D
              (Z.to_nat (max_retries cfg + 1)) 0 w1) as (evs & Tr & Bd).
  erewrite events_since_app.
  2:{ rewrite Tr, T1. rewrite <- app_assoc. reflexivity. }
  change (EvAwaitSlot :: pacing ++ evs)%list
    with ((EvAwaitSlot :: pacing) ++ evs)%list.
  rewrite total_backoff_app.
  assert (Hp : total_backoff (EvAwaitSlot :: pacing) == 0)
    by (destruct P1 as [-> | [d ->]]; reflexivity).
  rewrite Hp.
  rewrite Nat.max_0_l in Bd. unfold backoff_delay in Bd.
  rewrite Z2Nat.id in Bd by lia. cbn [Z.of_nat Z.pow] in Bd.
  change (inject_Z 1) with 1 in Bd.
  setoid_replace
    (retry_delay cfg * (inject_Z (2 ^ max_retries cfg) - 1))
    with (retry_delay cfg * inject_Z (2 ^ max_retries cfg)
          - retry_delay cfg * 1) by ring.
  lra.
Qed.

End Loop.

Import Fixtures MoreFixtures.

Lemma make_request_returns_only_200_witness :
  status_code (mkResponse 200 [] "") = 200%Z
  /\ exists n,
      (calls start <= n
       < calls (snd (_make_request two_retries (flaky 2) test_url "GET"
                       [] [] [] start)))%nat
      /\ fst (flaky 2 n (build_request two_retries test_url "GET" [] [] []))
         = Responded (mkResponse 200 [] "").
Proof.
  apply (make_request_returns_only_200 two_retries (flaky 2) test_url "GET"
           [] [] [] start).
  reflexivity.
Defined.

Lemma make_request_request_count_witness :
  (calls start + 1
   <= calls (snd (_make_request default_config always_timeout test_url "GET"
                    [] [] [] start))
   <= calls start + Z.to_nat (max_retries default_config + 1))%nat.
Proof.
  apply (make_request_request_count default_config always_timeout test_url
           "GET" [] [] [] start).
  cbn. lia.
Defined.

Lemma make_request_fails_on_client_status_witness :
  fst (_make_request two_retries timeouts_then_forbidden test_url "GET"
         [] [] [] start)
  = Raise (AuthenticationError test_url 403)
  /\ calls (snd (_make_request two_retries timeouts_then_forbidden test_url
                   "GET" [] [] [] start))
     = (calls start + 2 + 1)%nat.
Proof.
  apply (make_request_fails_on_client_status two_retries
           timeouts_then_forbidden test_url "GET" [] [] [] start 2
           (mkResponse 403 [] "")).
  - cbn. discriminate.
  - cbn. lia.
  - intros i Hi. destruct i as [|[|i]]; [reflexivity | reflexivity | lia].
  - reflexivity.
  - cbn. lia.
  - cbn. discriminate.
  - cbn. discriminate.
Defined.

Lemma make_request_rate_limited_after_retries_witness :
  fst (_make_request two_retries
         (fun i _ => if (i <? 1)%nat then (TimedOut, 30)
                     else answer 429 [("retry-after"%string, "120"%string)])
         test_url "GET" [] [] [] start)
  = Raise (RateLimitError 120 test_url)
  /\ calls (snd (_make_request two_retries
                   (fun i _ => if (i <? 1)%nat then (TimedOut, 30)
                               else answer 429
                                      [("retry-after"%string,
                                        "120"%string)])
                   test_url "GET" [] [] [] start))
     = (calls start + 1 + 1)%nat.
Proof.
  apply (make_request_rate_limited_after_retries two_retries
           (fun i _ => if (i <? 1)%nat then (TimedOut, 30)
                       else answer 429 [("retry-after"%string, "120"%string)])
           test_url "GET" [] [] [] start 1
           (mkResponse 429 [("retry-after"%string, "120"%string)] "")).
  - cbn. discriminate.
  - cbn. lia.
  - intros i Hi. destruct i as [|i]; [reflexivity | lia].
  - reflexivity.
  - reflexivity.
  - reflexivity.
Defined.

Lemma make_request_without_attempts_witness :
  fst (_make_request negative_retries always_timeout test_url "GET"
         [] [] [] start)
  = Raise (NetworkError RetriesExhausted test_url None)
  /\ calls (snd (_make_request negative_retries always_timeout test_url
                   "GET" [] [] [] start))
     = calls start
  /\ count_requests
       (events_since start
          (snd (_make_request negative_retries always_timeout test_url
                  "GET" [] [] [] start)))
     = 0%nat.
Proof.
  apply (make_request_without_attempts negative_retries always_timeout
           test_url "GET" [] [] [] start).
  cbn. lia.
Defined.

Lemma make_request_exhausts_retries_witness :
  fst (_make_request two_retries always_unavailable test_url "GET"
         [] [] [] start)
  = Raise (NetworkError ServerError test_url (Some 503%Z))
  /\ calls (snd (_make_request two_retries always_unavailable test_url
                   "GET" [] [] [] start))
     = (calls start + Z.to_nat (max_retries two_retries + 1))%nat
  /\ total_backoff
       (events_since start
          (snd (_make_request two_retries always_unavailable test_url
                  "GET" [] [] [] start)))
     == retry_delay two_retries
        * (inject_Z (2 ^ max_retries two_retries) - 1).
Proof.
  apply (make_request_exhausts_retries two_retries always_unavailable
           test_url "GET" [] [] [] start).
  - cbn. lia.
  - cbn. discriminate.
  - intros i Hi. reflexivity.
Defined.

Lemma make_request_raises_witness :
  class_of (NetworkError HttpStatus test_url (Some 404%Z)) = CNetworkError
  \/ class_of (NetworkError HttpStatus test_url (Some 404%Z))
     = CRateLimitError
  \/ class_of (NetworkError HttpStatus test_url (Some 404%Z))
     = CAuthenticationError
  \/ NetworkError HttpStatus test_url (Some 404%Z)
     = ValueError "invalid literal for int()".
Proof.
  apply (make_request_raises default_config (always 404 []) test_url "GET"
           [] [] [] start).
  - intro n. reflexivity.
  - cbn. discriminate.
  - reflexivity.
Defined.

Lemma make_request_backoff_budget_witness :
  total_backoff
    (events_since start
       (snd (_make_request default_config always_timeout test_url "GET"
               [] [] [] start)))
  <= retry_delay default_config
     * (inject_Z (2 ^ max_retries default_config) - 1).
Proof.
  apply (make_request_backoff_budget default_config always_timeout test_url
           "GET" [] [] [] start).
  - cbn. lia.
  - cbn. discriminate.
Defined.

End RetryLoop.

(* ------------------------------------------------------------------ *)
(** ** ParameterValidator: what a validated result holds *)

Module ValidatedParams.

Import Validation ParameterValidator.
Local Open Scope string_scope.
Local Open Scope Z_scope.

Section Validator.

Variable parse : string -> Result datetime.

(** A truthy argument never validates to [None]. *)
Lemma validate_date_of_truthy (i : DateInput) (v : option datetime) :
  truthy_date i = true ->
  validate_date parse i = Ok v ->
  exists d, v = Some d.
Proof.
  intros T V. destruct i as [|s|d|b]; cbn in T, V.
  - discriminate T.
  - destruct (parse s) as [d|e].
    + injection V as <-. eauto.
    + destruct (class_of e); discriminate V.
  - injection V as <-. eauto.
  - discriminate V.
Qed.

Lemma py_min_1000_range (v : IntLike) :
  0 < int_value v -> 1 <= int_value (py_min_1000 v) <= 1000.
Proof.
  intro H. unfold py_min_1000.
  destruct (1000 <? int_value v) eqn:E.
  - cbn. lia.
  - apply Z.ltb_ge in E. lia.
Qed.

(** X11.  Whatever [validate_search_params] returns is well formed: a
    date key is present exactly when its argument was truthy, and then
    it holds a datetime; the limit key is present exactly when a limit
    was given, and then it lies between 1 and 1000; and when both
    dates are present, [start > end] is false as Python orders the
    two datetimes. *)
Theorem validate_result_well_formed (start_date end_date : DateInput)
  (limit : LimitArg) (p : SearchParams) :
  validate_search_params parse start_date end_date limit = Ok p ->
  (p_start_date p = None <-> truthy_date start_date = false)
  /\ (p_end_date p = None <-> truthy_date end_date = false)
  /\ (forall v, p_start_date p = Some v -> exists d, v = Some d)
  /\ (forall v, p_end_date p = Some v -> exists d, v = Some d)
  /\ (p_limit p = None <-> limit = LNone)
  /\ (forall v, p_limit p = Some v -> 1 <= int_value v <= 1000)
  /\ (forall s e,
         get_date (p_start_date p) = Some s ->
         get_date (p_end_date p) = Some e ->
         datetime_gt s e = Ok false).
Proof.
  intro V. rewrite validate_limit_last in V.
  destruct (validate_search_params parse start_date end_date LNone)
    as [p0|e0] eqn:V0; [|discriminate V].
  cbn [and_then] in V.
  assert (Dates :
            (p_start_date p0 = None <-> truthy_date start_date = false)
            /\ (p_end_date p0 = None <-> truthy_date end_date = false)
            /\ (forall v, p_start_date p0 = Some v -> exists d, v = Some d)
            /\ (forall v, p_end_date p0 = Some v -> exists d, v = Some d)
            /\ p_limit p0 = None
            /\ (forall s e,
                   get_date (p_start_date p0) = Some s ->
                   get_date (p_end_date p0) = Some e ->
                   datetime_gt s e = Ok false)).
  { clear V. unfold validate_search_params in V0.
    unfold set_start_date, set_end_date in V0.
    destruct (truthy_date start_date) eqn:Ts;
      destruct (truthy_date end_date) eqn:Te.
    - destruct (validate_date parse start_date) as [vs|] eqn:Vs;
        [|discriminate V0].
      cbn [and_then p_end_date p_limit empty_params p_start_date] in V0.
      destruct (validate_date parse end_date) as [ve|] eqn:Ve;
        [|discriminate V0].
      cbn [and_then] in V0.
      destruct (validate_date_of_truthy _ _ Ts Vs) as [ds ->].
      destruct (validate_date_of_truthy _ _ Te Ve) as [de ->].
      unfold check_order in V0. cbn [get_date p_start_date p_end_date] in V0.
      destruct (datetime_gt ds de) as [[|]|] eqn:G; try discriminate V0.
      cbn [set_limit] in V0. injection V0 as <-.
      cbn [p_start_date p_end_date p_limit get_date].
      repeat split; settle_options.
    - destruct (validate_date parse start_date) as [vs|] eqn:Vs;
        [|discriminate V0].
      cbn in V0. destruct vs; injection V0 as <-;
        cbn [p_start_date p_end_date p_limit get_date];
        destruct (validate_date_of_truthy _ _ Ts Vs) as [ds Hd];
        repeat split; settle_options.
    - cbn [and_then p_end_date p_limit empty_params p_start_date] in V0.
      destruct (validate_date parse end_date) as [ve|] eqn:Ve;
        [|discriminate V0].
      cbn in V0. injection V0 as <-.
      cbn [p_start_date p_end_date p_limit get_date].
      destruct (validate_date_of_truthy _ _ Te Ve) as [de Hd].
      repeat split; settle_options.
    - cbn in V0. injection V0 as <-.
      cbn [p_start_date p_end_date p_limit get_date empty_params].
      repeat split; settle_options. }
  destruct Dates as (D1 & D2 & D3 & D4 & D5 & D6).
  assert (Same : p_start_date p = p_start_date p0
                 /\ p_end_date p = p_end_date p0
                 /\ (p_limit p = None <-> limit = LNone)
                 /\ (forall v, p_limit p = Some v ->
                               1 <= int_value v <= 1000)).
  { unfold set_limit in V.
    destruct limit as [|z|b|q|t]; try discriminate V.
    - injection V as <-. rewrite D5.
      split; [reflexivity|]. split; [reflexivity|].
      split; [tauto|]. intros v Hv. discriminate Hv.
    - destruct (int_value (IInt z) <=? 0) eqn:E; [discriminate V|].
      apply Z.leb_gt in E. injection V as <-.
      cbn [p_start_date p_end_date p_limit].
      split; [reflexivity|]. split; [reflexivity|].
      split; [split; discriminate|].
      intros v Hv. injection Hv as <-. apply py_min_1000_range. exact E.
    - destruct (int_value (IBool b) <=? 0) eqn:E; [discriminate V|].
      apply Z.leb_gt in E. injection V as <-.
      cbn [p_start_date p_end_date p_limit].
      split; [reflexivity|]. split; [reflexivity|].
      split; [split; discriminate|].
      intros v Hv. injection Hv as <-. apply py_min_1000_range. exact E. }
  destruct Same as (S1 & S2 & S3 & S4).
  rewrite S1, S2.
  split; [exact D1|]. split; [exact D2|]. split; [exact D3|].
  split; [exact D4|]. split; [exact S3|]. split; [exact S4|exact D6].
Qed.

(** X12.  When one of the two resolved dates is naive and the other
    aware, the comparison of the validator raises [TypeError], not
    the [ValueError] its other checks raise. *)
Theorem validate_mixed_awareness (start_date end_date : DateInput)
  (s e : datetime) (limit : LimitArg) :
  (forall d, parse "" <> Ok d) ->
  resolves_to parse start_date s ->
  resolves_to parse end_date e ->
  (utcoffset s = None /\ utcoffset e <> None)
  \/ (utcoffset s <> None /\ utcoffset e = None) ->
  validate_search_params parse start_date end_date limit = Raise TypeError.
Proof.
  intros Hempty Hs He Hmix.
  destruct (resolves_truthy parse start_date s Hempty Hs) as [Ts Vs].
  destruct (resolves_truthy parse end_date e Hempty He) as [Te Ve].
  unfold validate_search_params, set_start_date, set_end_date.
  rewrite Ts, Vs. cbn [and_then]. rewrite Te, Ve. cbn [and_then].
  unfold check_order. cbn [get_date p_start_date p_end_date].
  unfold datetime_gt, same_tzinfo, utcoffset in *.
  destruct (tzinfo s), (tzinfo e); cbn [option_map] in *;
    destruct Hmix as [[A B]|[A B]]; try congruence; reflexivity.
Qed.

End Validator.

Import Fixtures.

Lemma validate_result_well_formed_witness :
  (Some (Some jan_1) = None <-> truthy_date (DStr "2023-01-01") = false)
  /\ (Some (Some dec_31) = None <-> truthy_date (DDatetime dec_31) = false)
  /\ (forall v, Some (Some jan_1) = Some v -> exists d, v = Some d)
  /\ (forall v, Some (Some dec_31) = Some v -> exists d, v = Some d)
  /\ (Some (IInt 1000) = None <-> LInt 5000 = LNone)
  /\ (forall v, Some (IInt 1000) = Some v -> 1 <= int_value v <= 1000)
  /\ (forall s e,
         get_date (Some (Some jan_1)) = Some s ->
         get_date (Some (Some dec_31)) = Some e ->
         datetime_gt s e = Ok false).
Proof.
  apply (validate_result_well_formed two_dates (DStr "2023-01-01")
           (DDatetime dec_31) (LInt 5000)
           {| p_start_date := Some (Some jan_1);
              p_end_date := Some (Some dec_31);
              p_limit := Some (IInt 1000) |}).
  reflexivity.
Defined.

Lemma validate_mixed_awareness_witness :
  validate_search_params two_dates (DStr "2023-01-01")
    (DDatetime dec_31_utc) (LInt 10)
  = Raise TypeError.
Proof.
  apply (validate_mixed_awareness two_dates (DStr "2023-01-01")
           (DDatetime dec_31_utc)
           jan_1 dec_31_utc (LInt 10)).
  - exact two_dates_rejects_empty.
  - reflexivity.
  - reflexivity.
  - left. split; [reflexivity | discriminate].
Defined.

End ValidatedParams.

(* ------------------------------------------------------------------ *)
(** ** helpers: [build_search_url] *)

Module SearchUrl.

Import Helpers.
Local Open Scope string_scope.

Lemma prefix_append (s t : string) : String.prefix s (s ++ t) = true.
Proof.
  induction s as [|c s IH]; cbn.
  - destruct t; reflexivity.
  - destruct (ascii_dec c c); [exact IH | congruence].
Qed.

Lemma prefix_self (s : string) : String.prefix s s = true.
Proof.
  induction s as [|c s IH]; cbn; [reflexivity|].
  destruct (ascii_dec c c); [exact IH | congruence].
Qed.

Lemma length_append (s t : string) :
  String.length (s ++ t) = (String.length s + String.length t)%nat.
Proof. induction s as [|c s IH]; cbn; [reflexivity | rewrite IH; reflexivity]. Qed.

Lemma append_longer (s sep t : string) :
  sep <> "" -> s ++ sep ++ t <> s.
Proof.
  intros Hsep H. apply (f_equal String.length) in H.
  rewrite !length_append in H.
  destruct sep; [congruence|]. cbn in H. lia.
Qed.

Section Url.

Variable Value : Type.
Variable urlencode : list (string * Value) -> string.

Lemma clean_of_kept (items : list (string * option Value)) :
  clean (map (fun kv => (fst kv, Some (snd kv))) (clean items))
  = clean items.
Proof.
  unfold clean. induction items as [|[k [v|]] items IH]; cbn.
  - reflexivity.
  - f_equal. exact IH.
  - exact IH.
Qed.

(** X13.  [build_search_url] returns a URL that starts with
    [base_url]; entries whose value is [None] make no difference to
    it; and it is [base_url] itself exactly when no entry has a
    value, [params] being [None] or empty included. *)
Theorem build_search_url_ignores_none (base_url : string)
  (params : option (list (string * option Value))) :
  Py.startswith (build_search_url urlencode base_url params) base_url
  = true
  /\ build_search_url urlencode base_url params
     = build_search_url urlencode base_url
         (option_map
            (fun items =>
               map (fun kv => (fst kv, Some (snd kv))) (clean items))
            params)
  /\ (build_search_url urlencode base_url params = base_url
      <-> match params with
          | None => True
          | Some items => clean items = []
          end).
Proof.
  unfold Py.startswith.
  destruct params as [items|]; cbn [build_search_url option_map].
  2:{ split; [apply prefix_self|]. split; [reflexivity|tauto]. }
  destruct items as [|item items].
  { cbn. split; [apply prefix_self|]. split; [reflexivity|tauto]. }
  pose proof (clean_of_kept (item :: items)) as K.
  destruct (clean (item :: items)) as [|c cs] eqn:C.
  - cbn [map]. split; [apply prefix_self|]. split; [reflexivity|tauto].
  - split; [apply prefix_append|]. split.
    + cbn [map]. cbn [map] in K. rewrite K. reflexivity.
    + split; [|discriminate].
      intro H. exfalso. revert H. apply append_longer.
      destruct (Py.contains_char "?" base_url); discriminate.
Qed.

End Url.

End SearchUrl.

(* ------------------------------------------------------------------ *)
(** ** SourceAdapter: what a search returns and what a lookup raises *)

Module AdapterResults.

Import Base Validation Scrapers Recent ParameterValidator SourceAdapter.
Local Open Scope string_scope.
Local Open Scope monad_scope.

Section Adapters.

Variables Soup Json Item CaseData : Type.
Variable cfg : ScraperConfig.
Variable transport : Transport.
Variable parse : string -> Result datetime.
Variable BeautifulSoup : option string -> Features -> Result Soup.
Variable re_match : string -> string -> bool.
Variable isdigit : string -> bool.
Variable build_search :
  Adapter -> option string -> SearchParams -> option string -> Kwargs ->
  string * list (string * string).
Variable find_all : Adapter -> Soup -> list Item.
Variable href : Item -> string.
Variable response_json : Response -> Result Json.
Variable json_results : Json -> Result (list Item).
Variable parse_search_result : Adapter -> Item -> M (option CaseData).
Variable parse_case_detail : Adapter -> Soup -> string -> M (option CaseData).
Variable parse_opinion_detail : Json -> M (option CaseData).
Variable parse_cluster_detail : Json -> M (option CaseData).
Variable findlaw_case : Soup -> string -> Result CaseData.
Variable wall_clock : Q -> Z.

(** Once the parameters are validated, the search is the request
    stage followed by the result loop. *)
Lemma search_cases_after_validation (a : Adapter) (query : option string)
  (start_date end_date : DateInput) (court : option string)
  (limit : LimitArg) (kwargs : Kwargs) (w : World) (p : SearchParams) :
  validate_search_params parse start_date end_date limit = Ok p ->
  search_cases cfg transport parse BeautifulSoup build_search find_all
    href response_json json_results parse_search_result findlaw_case
    a query start_date end_date court limit kwargs w
  = (items <- fetch_results cfg transport BeautifulSoup find_all
                response_json json_results a
                (fst (build_search a query p court kwargs))
                (snd (build_search a query p court kwargs)) p ;;
     collect cfg transport BeautifulSoup href parse_search_result
       findlaw_case a items []) w.
Proof.
  intro V. unfold search_cases. unfold bind at 1. unfold lift.
  rewrite V. destruct (build_search a query p court kwargs). reflexivity.
Qed.

(** The request stage of an adapter that parses HTML raises nothing
    but [ParsingError], and hands on no more results than the limit. *)
Lemma fetch_results_html (a : Adapter) (url : string)
  (search_params : list (string * string)) (p : SearchParams) (w : World) :
  a <> CourtListener ->
  (0 <= limit_or_100 p)%Z ->
  match fetch_results cfg transport BeautifulSoup find_all response_json
          json_results a url search_params p w with
  | (Ok items, _) => (List.length items <= Z.to_nat (limit_or_100 p))%nat
  | (Raise e, _) => exists c, e = ParsingError c
  end.
Proof.
  intros Ha Hl.
  assert (G : match (soup <- try_except
                               (response <- get cfg transport url
                                              search_params ;;
                                lift (_parse_html BeautifulSoup
                                        (Some (text response))))
                               (fun e => raise (ParsingError (Some e))) ;;
                     ret (slice_to (limit_or_100 p) (find_all a soup))) w
              with
              | (Ok items, _) =>
                  (List.length items <= Z.to_nat (limit_or_100 p))%nat
              | (Raise e, _) => exists c, e = ParsingError c
              end).
  { unfold bind, try_except, lift, raise, ret.
    destruct (get cfg transport url search_params w) as [[r|e] w1].
    - destruct (_parse_html BeautifulSoup (Some (text r))) as [soup|e].
      + unfold slice_to.
        replace (0 <=? limit_or_100 p)%Z with true
          by (symmetry; apply Z.leb_le; exact Hl).
        apply firstn_le_length.
      + eauto.
    - eauto. }
  destruct a; try congruence; exact G.
Qed.

(** The result loop adds at most one record per result. *)
Lemma collect_length (a : Adapter) (items : list Item) :
  forall (cases : list CaseData) (w : World),
    match collect cfg transport BeautifulSoup href parse_search_result
            findlaw_case a items cases w with
    | (Ok cases', _) =>
        (List.length cases'
         <= List.length cases + List.length items)%nat
    | (Raise _, _) => False
    end.
Proof.
  induction items as [|item rest IH]; intros cases w.
  - cbn. lia.
  - rewrite collect_step.
    destruct (extract cfg transport BeautifulSoup href parse_search_result
                findlaw_case a item w) as [[[c|]|e] w1].
    + specialize (IH (cases ++ [c])%list w1).
      destruct (collect cfg transport BeautifulSoup href
                  parse_search_result findlaw_case a rest
                  (cases ++ [c])%list w1) as [[cases'|] w2];
        [|exact IH].
      rewrite length_app in IH. cbn [List.length] in *. lia.
    + specialize (IH cases w1).
      destruct (collect cfg transport BeautifulSoup href
                  parse_search_result findlaw_case a rest cases w1)
        as [[cases'|] w2]; [|exact IH].
      cbn [List.length]. lia.
    + specialize (IH cases w1).
      destruct (collect cfg transport BeautifulSoup href
                  parse_search_result findlaw_case a rest cases w1)
        as [[cases'|] w2]; [|exact IH].
      cbn [List.length]. lia.
Qed.

(** The dates alone leave the limit key unset. *)
Lemma validate_dates_leave_limit (start_date end_date : DateInput)
  (p0 : SearchParams) :
  validate_search_params parse start_date end_date LNone = Ok p0 ->
  p_limit p0 = None.
Proof.
  unfold validate_search_params, set_start_date, set_end_date, check_order.
  intro V.
  destruct (truthy_date start_date);
    [destruct (validate_date parse start_date); [|discriminate V]|];
    cbn [and_then] in V;
    (destruct (truthy_date end_date);
     [destruct (validate_date parse end_date); [|discriminate V]|]);
    cbn [and_then p_start_date p_end_date p_limit get_date empty_params]
      in V;
    repeat match type of V with
           | context [match ?x with _ => _ end] => destruct x
           end;
    cbn in V; try discriminate V; injection V as <-; reflexivity.
Qed.

(** The limit a validated call works with. *)
Lemma validated_limit (start_date end_date : DateInput) (limit : LimitArg)
  (p : SearchParams) :
  validate_search_params parse start_date end_date limit = Ok p ->
  (1 <= limit_or_100 p <= 1000)%Z
  /\ (forall n, limit = LInt n -> (limit_or_100 p <= n)%Z)
  /\ (limit = LNone -> limit_or_100 p = 100%Z).
Proof.
  intro V. rewrite validate_limit_last in V.
  destruct (validate_search_params parse start_date end_date LNone)
    as [p0|e0] eqn:V0; [|discriminate V].
  apply validate_dates_leave_limit in V0.
  cbn [and_then] in V. unfold set_limit in V. unfold limit_or_100.
  destruct limit as [|z|b|q|t]; try discriminate V.
  - injection V as <-. rewrite V0.
    split; [lia|]. split; [discriminate | reflexivity].
  - destruct (int_value (IInt z) <=? 0)%Z eqn:E; [discriminate V|].
    apply Z.leb_gt in E. injection V as <-. cbn [p_limit].
    unfold py_min_1000. cbn [int_value] in *.
    destruct (1000 <? z)%Z eqn:F;
      [apply Z.ltb_lt in F | apply Z.ltb_ge in F]; cbn [int_value];
      (split; [lia|]; split; [|discriminate]);
      intros n Hn; injection Hn as <-; lia.
  - destruct (int_value (IBool b) <=? 0)%Z eqn:E; [discriminate V|].
    apply Z.leb_gt in E. injection V as <-. cbn [p_limit].
    destruct b; cbn in E; [|lia]. cbn.
    split; [lia|]. split; discriminate.
Qed.

(** X14.  Every adapter that parses HTML returns at most as many
    cases as the limit allows: never more than 1000, never more than
    an integer limit that was asked for, and at most 100 when the
    limit is [None]. *)
Theorem search_cases_respects_limit (a : Adapter)
  (query : option string) (start_date end_date : DateInput)
  (court : option string) (limit : LimitArg) (kwargs : Kwargs)
  (w : World) (cases : list CaseData) :
  a <> CourtListener ->
  fst (search_cases cfg transport parse BeautifulSoup build_search
         find_all href response_json json_results parse_search_result
         findlaw_case a query start_date end_date court limit kwargs w)
  = Ok cases ->
  (Z.of_nat (List.length cases) <= 1000)%Z
  /\ (forall n, limit = LInt n -> (Z.of_nat (List.length cases) <= n)%Z)
  /\ (limit = LNone -> (List.length cases <= 100)%nat).
Proof.
  intros Ha H.
  destruct (validate_search_params parse start_date end_date limit)
    as [p|e] eqn:V.
  2:{ unfold search_cases, bind, lift in H. rewrite V in H.
      discriminate H. }
  rewrite (search_cases_after_validation a query start_date end_date
             court limit kwargs w p V) in H.
  destruct (validated_limit _ _ _ _ V) as (R & Hn & H100).
  unfold bind in H.
  pose proof (fetch_results_html a
                (fst (build_search a query p court kwargs))
                (snd (build_search a query p court kwargs)) p w Ha) as F.
  destruct (fetch_results cfg transport BeautifulSoup find_all
              response_json json_results a
              (fst (build_search a query p court kwargs))
              (snd (build_search a query p court kwargs)) p w)
    as [[items|e] w1]; [|discriminate H].
  specialize (F ltac:(lia)).
  pose proof (collect_length a items [] w1) as L.
  destruct (collect cfg transport BeautifulSoup href parse_search_result
              findlaw_case a items [] w1) as [[cases'|] w2];
    [|contradiction].
  cbn [fst] in H. injection H as ->. cbn [List.length] in L.
  assert (B : (Z.of_nat (List.length cases) <= limit_or_100 p)%Z) by lia.
  split; [lia|]. split.
  - intros n Hl. specialize (Hn n Hl). lia.
  - intro Hl. specialize (H100 Hl). lia.
Qed.

(** The result loop on an extraction that neither reads nor changes
    the world: the extracted records, in the order of the results. *)
Lemma collect_of_pure (a : Adapter)
  (f : Item -> Result (option CaseData)) (items : list Item) :
  (forall item w, extract cfg transport BeautifulSoup href
                    parse_search_result findlaw_case a item w
                  = (f item, w)) ->
  forall (cases : list CaseData) (w : World),
    collect cfg transport BeautifulSoup href parse_search_result
      findlaw_case a items cases w
    = (Ok (cases
           ++ flat_map (fun item =>
                          match f item with
                          | Ok (Some c) => [c]
                          | _ => []
                          end) items)%list, w).
Proof.
  intro P. induction items as [|item rest IH]; intros cases w.
  - cbn. rewrite app_nil_r. reflexivity.
  - rewrite collect_step, P. cbn [flat_map].
    destruct (f item) as [[c|]|e]; rewrite IH.
    + rewrite <- app_assoc. reflexivity.
    + reflexivity.
    + reflexivity.
Qed.

(** X15.  For an adapter that parses HTML and extracts each result
    from the page alone: when the parameters validate, the request
    returns a response and the page parses, [search_cases] returns
    the records extracted from the first [limit] located results
    (the first 100 without a limit), in the order of the page, the
    results whose extraction raised or gave [None] left out. *)
Theorem search_cases_returns_extracted (a : Adapter)
  (query : option string) (start_date end_date : DateInput)
  (court : option string) (limit : LimitArg) (kwargs : Kwargs)
  (w w1 : World) (p : SearchParams) (response : Response) (soup : Soup)
  (f : Item -> Result (option CaseData)) :
  a <> CourtListener ->
  a <> FindLaw ->
  (forall item w0, parse_search_result a item w0 = (f item, w0)) ->
  validate_search_params parse start_date end_date limit = Ok p ->
  get cfg transport (fst (build_search a query p court kwargs))
    (snd (build_search a query p court kwargs)) w
  = (Ok response, w1) ->
  _parse_html BeautifulSoup (Some (text response)) = Ok soup ->
  search_cases cfg transport parse BeautifulSoup build_search find_all
    href response_json json_results parse_search_result findlaw_case
    a query start_date end_date court limit kwargs w
  = (Ok (flat_map (fun item =>
                     match f item with
                     | Ok (Some c) => [c]
                     | _ => []
                     end)
           (slice_to (limit_or_100 p) (find_all a soup))), w1).
Proof.
  intros Hc Hf P V G S.
  rewrite (search_cases_after_validation a query start_date end_date
             court limit kwargs w p V).
  assert (F : fetch_results cfg transport BeautifulSoup find_all
                response_json json_results a
                (fst (build_search a query p court kwargs))
                (snd (build_search a query p court kwargs)) p w
              = (Ok (slice_to (limit_or_100 p) (find_all a soup)), w1)).
  { destruct a; try congruence;
      unfold fetch_results, bind, try_except, lift, ret;
      rewrite G, S; reflexivity. }
  unfold bind at 1. rewrite F.
  rewrite (collect_of_pure a f).
  - reflexivity.
  - intros item w0. destruct a; try congruence; apply P.
Qed.

(** X16.  CourtListener's [search_cases], once the parameters
    validate and the request returns a response: a body that does not
    decode as JSON raises a [ParsingError], any other exception of
    the decoding passes unchanged; and from a decoded body the call
    returns the records extracted from all of its results, in their
    order, without cutting them at the limit. *)
Theorem search_cases_courtlistener_body (query : option string)
  (start_date end_date : DateInput) (court : option string)
  (limit : LimitArg) (kwargs : Kwargs) (w w1 : World) (p : SearchParams)
  (response : Response) :
  validate_search_params parse start_date end_date limit = Ok p ->
  get cfg transport
    (fst (build_search CourtListener query p court kwargs))
    (snd (build_search CourtListener query p court kwargs)) w
  = (Ok response, w1) ->
  (forall e,
      response_json response = Raise e ->
      search_cases cfg transport parse BeautifulSoup build_search
        find_all href response_json json_results parse_search_result
        findlaw_case CourtListener query start_date end_date court limit
        kwargs w
      = (Raise (match e with
                | JSONDecodeError => ParsingError (Some JSONDecodeError)
                | _ => e
                end), w1))
  /\ (forall data items (f : Item -> Result (option CaseData)),
         response_json response = Ok data ->
         json_results data = Ok items ->
         (forall item w0,
             parse_search_result CourtListener item w0 = (f item, w0)) ->
         search_cases cfg transport parse BeautifulSoup build_search
           find_all href response_json json_results parse_search_result
           findlaw_case CourtListener query start_date end_date court
           limit kwargs w
         = (Ok (flat_map (fun item =>
                            match f item with
                            | Ok (Some c) => [c]
                            | _ => []
                            end) items), w1)).
Proof.
  intros V G.
  rewrite (search_cases_after_validation CourtListener query start_date
             end_date court limit kwargs w p V).
  split.
  - intros e J. unfold bind at 1. unfold fetch_results.
    unfold bind at 1. unfold bind at 1. rewrite G. unfold lift.
    rewrite J. destruct e; reflexivity.
  - intros data items f J R P. unfold bind at 1. unfold fetch_results.
    unfold bind at 1. unfold bind at 1. rewrite G. unfold lift.
    rewrite J, R.
    rewrite (collect_of_pure CourtListener f); [reflexivity|].
    intros item w0. apply P.
Qed.

(** FindLaw's detail fetch leaves the world as its one
    [_make_request] left it. *)
Lemma scrape_world (url : string) (w : World) :
  snd (_scrape_case_from_url cfg transport BeautifulSoup findlaw_case url w)
  = snd (get cfg transport url [] w).
Proof.
  unfold _scrape_case_from_url, try_except, bind, lift, ret.
  destruct (get cfg transport url [] w) as [[r|e] w1]; [|reflexivity].
  destruct (_parse_html BeautifulSoup (Some (text r))) as [soup|e];
    [|reflexivity].
  destruct (findlaw_case soup url); reflexivity.
Qed.

(** FindLaw's result loop: every result costs at least one request
    and at most [max_retries + 1]. *)
Lemma collect_findlaw_calls (items : list Item) :
  (0 <= max_retries cfg)%Z ->
  forall (cases : list CaseData) (w : World),
    (calls w + List.length items
     <= calls (snd (collect cfg transport BeautifulSoup href
                      parse_search_result findlaw_case FindLaw items
                      cases w))
     <= calls w + List.length items * Z.to_nat (max_retries cfg + 1))%nat.
Proof.
  intro Hm. induction items as [|item rest IH]; intros cases w.
  - cbn. lia.
  - rewrite collect_step. cbn [extract].
    set (url := if negb (Py.startswith (href item) "http")
                then base_url FindLaw ++ href item else href item).
    pose proof (scrape_world url w) as Sw.
    pose proof (RetryLoop.make_request_calls cfg transport url "GET" [] []
                  [] w Hm) as Mc.
    fold (get cfg transport url [] w) in Mc. rewrite <- Sw in Mc.
    destruct (_scrape_case_from_url cfg transport BeautifulSoup
                findlaw_case url w) as [[[c|]|e] w1];
      cbn [snd] in Mc; cbn [List.length];
      match goal with
      | |- context [collect _ _ _ _ _ _ _ _ ?cs ?w0] =>
          specialize (IH cs w0)
      end; nia.
Qed.

(** X17.  A search with FindLaw fetches every located result with a
    request of its own: a call that returns [cases] has issued at
    least one request for the result page and one for each returned
    case, and at most [max_retries + 1] requests for the page and for
    each of the at most [limit] results. *)
Theorem search_cases_findlaw_request_cost (query : option string)
  (start_date end_date : DateInput) (court : option string)
  (limit : LimitArg) (kwargs : Kwargs) (w : World) (p : SearchParams)
  (cases : list CaseData) :
  (0 <= max_retries cfg)%Z ->
  validate_search_params parse start_date end_date limit = Ok p ->
  fst (search_cases cfg transport parse BeautifulSoup build_search
         find_all href response_json json_results parse_search_result
         findlaw_case FindLaw query start_date end_date court limit
         kwargs w)
  = Ok cases ->
  (calls w + 1 + List.length cases
   <= calls (snd (search_cases cfg transport parse BeautifulSoup
                    build_search find_all href response_json json_results
                    parse_search_result findlaw_case FindLaw query
                    start_date end_date court limit kwargs w))
   <= calls w
      + (1 + Z.to_nat (limit_or_100 p)) * Z.to_nat (max_retries cfg + 1))%nat.
Proof.
  intros Hm V.
  rewrite (search_cases_after_validation FindLaw query start_date end_date
             court limit kwargs w p V).
  destruct (validated_limit _ _ _ _ V) as (R & _ & _).
  set (url := fst (build_search FindLaw query p court kwargs)).
  set (sp := snd (build_search FindLaw query p court kwargs)).
  unfold bind at 1. unfold bind at 2.
  unfold fetch_results, bind, try_except, lift, raise, ret.
  pose proof (RetryLoop.make_request_calls cfg transport url "GET" sp []
                [] w Hm) as Mc.
  fold (get cfg transport url sp w) in Mc.
  destruct (get cfg transport url sp w) as [[r|e] w1];
    [|discriminate].
  cbn [snd] in Mc.
  destruct (_parse_html BeautifulSoup (Some (text r))) as [soup|e];
    [|discriminate].
  set (items := slice_to (limit_or_100 p) (find_all FindLaw soup)).
  assert (Li : (List.length items <= Z.to_nat (limit_or_100 p))%nat).
  { subst items. unfold slice_to.
    replace (0 <=? limit_or_100 p)%Z with true
      by (symmetry; apply Z.leb_le; lia).
    apply firstn_le_length. }
  pose proof (collect_findlaw_calls items Hm [] w1) as Cc.
  pose proof (collect_length FindLaw items [] w1) as Cl.
  destruct (collect cfg transport BeautifulSoup href parse_search_result
              findlaw_case FindLaw items [] w1) as [[cases'|] w2];
    [|contradiction].
  cbn [fst snd] in *. intro H. injection H as ->.
  cbn [List.length] in Cl. nia.
Qed.

(** A lookup by URL returns, whatever the request, the parser and
    the detail extraction do. *)
Lemma lookup_by_url_returns (a : Adapter) (url : string) (w : World) :
  exists r w',
    try_except
      (response <- get cfg transport url [] ;;
       soup <- lift (_parse_html BeautifulSoup (Some (text response))) ;;
       parse_case_detail a soup url)
      (fun _ => ret None) w
    = (Ok r, w').
Proof.
  unfold try_except.
  destruct ((response <- get cfg transport url [] ;;
             soup <- lift (_parse_html BeautifulSoup
                             (Some (text response))) ;;
             parse_case_detail a soup url) w) as [[r|e] w'];
    do 2 eexists; reflexivity.
Qed.

(** X18.  What [get_case_by_id] of an adapter, searching with its own
    [search_cases], can end with: the [ValueError] for an empty
    [case_id] and nothing else for it; for any other [case_id] a case
    or [None], or a [ParsingError], and that only from the search
    fallback (so never from CourtListener or FindLaw, nor for a URL or
    an identifier the adapter turns into one).  No [NetworkError],
    [RateLimitError] or [AuthenticationError] reaches the caller. *)
Theorem get_case_by_id_outcomes (a : Adapter) (case_id : string)
  (w : World) :
  match fst (get_case_by_id cfg transport BeautifulSoup re_match isdigit
               response_json parse_case_detail parse_opinion_detail
               parse_cluster_detail findlaw_case a
               (search_cases cfg transport parse BeautifulSoup
                  build_search find_all href response_json json_results
                  parse_search_result findlaw_case a)
               case_id w) with
  | Ok _ => case_id <> ""
  | Raise e =>
      (case_id = "" /\ e = ValueError "Case ID is required")
      \/ (case_id <> ""
          /\ Py.startswith case_id "http" = false
          /\ url_form isdigit a case_id = false
          /\ exists c, e = ParsingError c)
  end.
Proof.
  unfold get_case_by_id.
  destruct case_id as [|ch s]; [cbn; auto|].
  cbn [Py.truthy_str negb].
  assert (Hne : String ch s <> "") by discriminate.
  set (cid := String ch s) in *.
  assert (Url : forall url,
             match fst (try_except
                          (response <- get cfg transport url [] ;;
                           soup <- lift (_parse_html BeautifulSoup
                                           (Some (text response))) ;;
                           parse_case_detail a soup url)
                          (fun _ => ret None) w) with
             | Ok _ => cid <> ""
             | Raise e =>
                 (cid = "" /\ e = ValueError "Case ID is required")
                 \/ (cid <> ""
                     /\ Py.startswith cid "http" = false
                     /\ url_form isdigit a cid = false
                     /\ exists c, e = ParsingError c)
             end).
  { intro url. destruct (lookup_by_url_returns a url w) as (r & w' & ->).
    exact Hne. }
  assert (Fallback :
            forall q,
              Py.startswith cid "http" = false ->
              url_form isdigit a cid = false ->
              match fst (first_hit
                           (search_cases cfg transport parse BeautifulSoup
                              build_search find_all href response_json
                              json_results parse_search_result
                              findlaw_case a) q w) with
              | Ok _ => cid <> ""
              | Raise e =>
                  (cid = "" /\ e = ValueError "Case ID is required")
                  \/ (cid <> ""
                      /\ Py.startswith cid "http" = false
                      /\ url_form isdigit a cid = false
                      /\ exists c, e = ParsingError c)
              end).
  { intros q Hh Hu. unfold first_hit. unfold bind at 1.
    assert (Ha : a <> CourtListener) by (intros ->; discriminate Hu).
    rewrite (search_cases_after_validation a (Some q) DNone DNone None
               (LInt 1) [] w
               {| p_start_date := None; p_end_date := None;
                  p_limit := Some (IInt 1) |} eq_refl).
    unfold bind at 1.
    pose proof (fetch_results_html a
                  (fst (build_search a (Some q)
                          {| p_start_date := None; p_end_date := None;
                             p_limit := Some (IInt 1) |} None []))
                  (snd (build_search a (Some q)
                          {| p_start_date := None; p_end_date := None;
                             p_limit := Some (IInt 1) |} None []))
                  {| p_start_date := None; p_end_date := None;
                     p_limit := Some (IInt 1) |} w Ha) as F.
    destruct (fetch_results cfg transport BeautifulSoup find_all
                response_json json_results a _ _ _ w) as [[items|e] w1].
    - destruct (collect_returns Soup Item CaseData cfg transport
                  BeautifulSoup href
                  parse_search_result findlaw_case a items [] w1)
        as (cases & w2 & ->).
      exact Hne.
    - cbn [fst]. right. specialize (F ltac:(cbn; lia)).
      repeat split; assumption. }
  destruct a;
    try (unfold resolve;
         destruct (Py.startswith cid "http") eqn:Hh; [apply Url|];
         cbn [url_form] in *;
         repeat match goal with
                | |- context [if ?b then _ else _] =>
                    let E := fresh "E" in destruct b eqn:E
                end;
         first [apply Url | apply Fallback; auto]).
  - (* CourtListener *)
    destruct ((response <- get cfg transport
                             (base_url CourtListener
                              ++ "/api/rest/v3/opinions/" ++ cid ++ "/")
                             [("format", "json")] ;;
               data <- lift (response_json response) ;;
               parse_opinion_detail data) w) as [[r|e] w1].
    + exact Hne.
    + unfold try_except.
      destruct ((response <- get cfg transport
                               (base_url CourtListener
                                ++ "/api/rest/v3/clusters/" ++ cid ++ "/")
                               [("format", "json")] ;;
                 data <- lift (response_json response) ;;
                 parse_cluster_detail data) w1) as [[r|e'] w2];
        exact Hne.
  - (* FindLaw *)
    unfold _scrape_case_from_url, try_except.
    destruct ((response <- get cfg transport
                             (base_url FindLaw ++ "/case/" ++ cid) [] ;;
               soup <- lift (_parse_html BeautifulSoup
                               (Some (text response))) ;;
               c <- lift (findlaw_case soup
                            (base_url FindLaw ++ "/case/" ++ cid)) ;;
               ret (Some c)) w) as [[r|e] w1];
      exact Hne.
Qed.

(** X19.  [get_recent_cases] searches the window that ends now and
    starts [days] days earlier.  With a negative [days] (and dates
    that stay in the range of [datetime]) the start lies after the
    end, and the call fails with the [ValueError] of the date order
    before any request; with [days] from zero up, a positive integer
    limit validates together with the two dates, and the search runs
    on that window with the limit capped at 1000. *)
Theorem get_recent_cases_window (a : Adapter) (days : Z)
  (limit : LimitArg) (court : option string) (w : World) :
  (Z.abs days <= 999999999)%Z ->
  (datetime_min <= wall_clock (now w) - days * micros_per_day
   <= datetime_max)%Z ->
  ((days < 0)%Z ->
   get_recent_cases wall_clock
     (search_cases cfg transport parse BeautifulSoup build_search
        find_all href response_json json_results parse_search_result
        findlaw_case a)
     days limit court w
   = (Raise (ValueError "Start date must be before end date"), w))
  /\ ((0 <= days)%Z ->
      forall n,
        limit = LInt n -> (0 < n)%Z ->
        validate_search_params parse
          (DDatetime (mkDatetime
                        (wall_clock (now w) - days * micros_per_day) None))
          (DDatetime (mkDatetime (wall_clock (now w)) None)) limit
        = Ok {| p_start_date :=
                  Some (Some (mkDatetime
                                (wall_clock (now w)
                                 - days * micros_per_day) None));
                p_end_date :=
                  Some (Some (mkDatetime (wall_clock (now w)) None));
                p_limit := Some (IInt (Z.min n 1000)) |}
        /\ get_recent_cases wall_clock
             (search_cases cfg transport parse BeautifulSoup build_search
                find_all href response_json json_results
                parse_search_result findlaw_case a)
             days limit court w
           = search_cases cfg transport parse BeautifulSoup build_search
               find_all href response_json json_results
               parse_search_result findlaw_case a None
               (DDatetime (mkDatetime
                             (wall_clock (now w) - days * micros_per_day)
                             None))
               (DDatetime (mkDatetime (wall_clock (now w)) None))
               court limit [] w).
Proof.
  intros Hd Hr.
  assert (G : get_recent_cases wall_clock
                (search_cases cfg transport parse BeautifulSoup
                   build_search find_all href response_json json_results
                   parse_search_result findlaw_case a)
                days limit court w
              = search_cases cfg transport parse BeautifulSoup
                  build_search find_all href response_json json_results
                  parse_search_result findlaw_case a None
                  (DDatetime (mkDatetime
                                (wall_clock (now w)
                                 - days * micros_per_day) None))
                  (DDatetime (mkDatetime (wall_clock (now w)) None))
                  court limit [] w).
  { unfold get_recent_cases, timedelta_days, naive_sub, datetime_now.
    replace (Z.abs days <=? 999999999)%Z with true
      by (symmetry; apply Z.leb_le; exact Hd).
    cbn [wall_micros].
    replace ((datetime_min <=? wall_clock (now w) - days * micros_per_day)
             && (wall_clock (now w) - days * micros_per_day
                 <=? datetime_max))%Z
      with true; [reflexivity|].
    symmetry. apply andb_true_iff. split; apply Z.leb_le; lia. }
  split.
  - intro Hneg. rewrite G.
    unfold search_cases, bind, lift.
    unfold validate_search_params, set_start_date, set_end_date.
    cbn [truthy_date validate_date and_then].
    unfold check_order. cbn [get_date p_start_date p_end_date].
    unfold datetime_gt. cbn [same_tzinfo tzinfo wall_micros].
    replace (wall_clock (now w)
             <? wall_clock (now w) - days * micros_per_day)%Z
      with true; [reflexivity|].
    symmetry. apply Z.ltb_lt. unfold micros_per_day. lia.
  - intros Hpos n -> Hn. split; [|exact G].
    unfold validate_search_params, set_start_date, set_end_date.
    cbn [truthy_date validate_date and_then].
    unfold check_order. cbn [get_date p_start_date p_end_date].
    unfold datetime_gt. cbn [same_tzinfo tzinfo wall_micros].
    replace (wall_clock (now w)
             <? wall_clock (now w) - days * micros_per_day)%Z
      with false
      by (symmetry; apply Z.ltb_ge; unfold micros_per_day; lia).
    cbn [and_then set_limit int_value].
    replace (n <=? 0)%Z with false by (symmetry; apply Z.leb_gt; lia).
    unfold py_min_1000. cbn [int_value p_start_date p_end_date].
    destruct (1000 <? n)%Z eqn:E.
    + apply Z.ltb_lt in E. rewrite Z.min_r by lia. reflexivity.
    + apply Z.ltb_ge in E. rewrite Z.min_l by lia. reflexivity.
Qed.

End Adapters.

Import Fixtures MoreFixtures.

Lemma search_cases_respects_limit_witness :
  (Z.of_nat (List.length ["Donoghue v Stevenson"]) <= 1000)%Z
  /\ (forall n, LInt 1 = LInt n ->
                (Z.of_nat (List.length ["Donoghue v Stevenson"]) <= n)%Z)
  /\ (LInt 1 = LNone ->
      (List.length ["Donoghue v Stevenson"] <= 100)%nat).
Proof.
  apply (search_cases_respects_limit string string string string
           no_retries (always 200 []) two_dates lenient_soup
           demo_build_search demo_find_all (fun item => item)
           (fun response => Ok (text response))
           (fun data => Ok (demo_find_all CourtListener data))
           demo_parse_search_result (fun _ url => Ok url)
           AustLII (Some "negligence") DNone DNone None (LInt 1) [] start).
  - discriminate.
  - reflexivity.
Defined.

Lemma search_cases_returns_extracted_witness :
  fst (demo_search (always 200 []) AustLII)
  = Ok ["Donoghue v Stevenson"; "Carlill v Carbolic Smoke Ball Co"].
Proof.
  unfold demo_search, demo_search_cases.
  erewrite (search_cases_returns_extracted string string string string
              no_retries (always 200 []) two_dates lenient_soup
              demo_build_search demo_find_all (fun item => item)
              (fun response => Ok (text response))
              (fun data => Ok (demo_find_all CourtListener data))
              demo_parse_search_result (fun _ url => Ok url)
              AustLII (Some "human rights") DNone DNone None (LInt 10) []
              start _
              {| p_start_date := None; p_end_date := None;
                 p_limit := Some (IInt 10) |}
              _ _
              (fun item => if Py.truthy_str item then Ok (Some item)
                           else Raise (OtherException "AttributeError"))).
  - reflexivity.
  - discriminate.
  - discriminate.
  - intros item w0. unfold demo_parse_search_result.
    destruct (Py.truthy_str item); reflexivity.
  - reflexivity.
  - reflexivity.
  - reflexivity.
Defined.

Lemma search_cases_courtlistener_body_witness :
  fst (demo_search (always 200 []) CourtListener)
  = Ok ["Donoghue v Stevenson"; "Carlill v Carbolic Smoke Ball Co"].
Proof.
  unfold demo_search, demo_search_cases.
  edestruct (search_cases_courtlistener_body string string string string
               no_retries (always 200 []) two_dates lenient_soup
               demo_build_search demo_find_all (fun item => item)
               (fun response => Ok (text response))
               (fun data => Ok (demo_find_all CourtListener data))
               demo_parse_search_result (fun _ url => Ok url)
               (Some "human rights") DNone DNone None (LInt 10) [] start)
    as (_ & H); [reflexivity | reflexivity |].
  rewrite (H "" (demo_find_all CourtListener "")
             (fun item => if Py.truthy_str item then Ok (Some item)
                          else Raise (OtherException "AttributeError"))).
  - reflexivity.
  - reflexivity.
  - reflexivity.
  - intros item w0. unfold demo_parse_search_result.
    destruct (Py.truthy_str item); reflexivity.
Defined.

Lemma search_cases_findlaw_request_cost_witness :
  (calls start + 1
   + List.length
       ["https://caselaw.findlaw.comDonoghue v Stevenson";
        "https://caselaw.findlaw.com";
        "https://caselaw.findlaw.comCarlill v Carbolic Smoke Ball Co"]
   <= calls (snd (demo_search (always 200 []) FindLaw))
   <= calls start
      + (1 + Z.to_nat 10) * Z.to_nat (max_retries no_retries + 1))%nat.
Proof.
  apply (search_cases_findlaw_request_cost string string string string
           no_retries (always 200 []) two_dates lenient_soup
           demo_build_search demo_find_all (fun item => item)
           (fun response => Ok (text response))
           (fun data => Ok (demo_find_all CourtListener data))
           demo_parse_search_result (fun _ url => Ok url)
           (Some "human rights") DNone DNone None (LInt 10) [] start
           {| p_start_date := None; p_end_date := None;
              p_limit := Some (IInt 10) |}).
  - cbn. lia.
  - reflexivity.
  - reflexivity.
Defined.

Lemma get_recent_cases_window_witness :
  Recent.get_recent_cases utc_clock
    (demo_search_cases no_retries (always 200 []) AustLII)
    (-1) (LInt 10) None start
  = (Raise (ValueError "Start date must be before end date"), start)
  /\ validate_search_params two_dates
       (DDatetime (mkDatetime
                     (utc_clock (now start) - 7 * Recent.micros_per_day)
                     None))
       (DDatetime (mkDatetime (utc_clock (now start)) None)) (LInt 5000)
     = Ok {| p_start_date :=
               Some (Some (mkDatetime
                             (utc_clock (now start)
                              - 7 * Recent.micros_per_day) None));
             p_end_date :=
               Some (Some (mkDatetime (utc_clock (now start)) None));
             p_limit := Some (IInt (Z.min 5000 1000)) |}.
Proof.
  split.
  - apply (proj1 (get_recent_cases_window string string string string
                    no_retries (always 200 []) two_dates lenient_soup
                    demo_build_search demo_find_all (fun item => item)
                    (fun response => Ok (text response))
                    (fun data => Ok (demo_find_all CourtListener data))
                    demo_parse_search_result (fun _ url => Ok url)
                    utc_clock AustLII (-1) (LInt 10) None start
                    ltac:(vm_compute; discriminate)
                    ltac:(vm_compute; split; discriminate))).
    reflexivity.
  - apply (proj1 (proj2 (get_recent_cases_window string string string string
                    no_retries (always 200 []) two_dates lenient_soup
                    demo_build_search demo_find_all (fun item => item)
                    (fun response => Ok (text response))
                    (fun data => Ok (demo_find_all CourtListener data))
                    demo_parse_search_result (fun _ url => Ok url)
                    utc_clock AustLII 7 (LInt 5000) None start
                    ltac:(vm_compute; discriminate)
                    ltac:(vm_compute; split; discriminate))
                 ltac:(lia) 5000%Z eq_refl ltac:(lia))).
Defined.

End AdapterResults.
